(** * Portnet L2 incident-triage assistant: ranking and correlation core

  A shallow embedding of the scoring, retrieval, fusion, feedback-ledger,
  operational-correlation and fingerprinting code of the assistant, with
  the properties its specification states about them.

  Conventions of the embedding.
  - Python [str] values are byte strings ([string]); [lower], [isspace]
    and the regular-expression classes act on the ASCII range and leave
    other bytes alone, which is what Python does on a text of ASCII
    characters ([ascii_text]).
  - The statements about the range of one score read Python floats as the
    real numbers they stand for ([Q]; equality of scores is [==]).  The
    retrieval, where the rounding of a sum decides a threshold or a rank,
    is computed in IEEE doubles (module [Double]).
  - [datetime] values are integer microseconds ([Z]); a [timedelta] is
    their difference.
  - A table is the list of its rows in storage order; a column that the
    code reads as possibly NULL is an [option], the others hold a value. *)

From Stdlib Require Import ZArith QArith Qminmax Lqa Lia.
From Stdlib Require Import Ascii String Sorting.Sorted.
From Stdlib Require DecimalString.
From Stdlib Require Floats.
From stdpp Require Import base gmap sets list strings.

#[local] Set Warnings "-clear-no-such-hyp,-inexact-float".

Local Open Scope Z_scope.

(** ** Python string primitives *)

Module PyStr.

Definition code (c : ascii) : N := N_of_ascii c.

Definition in_range (lo hi : N) (c : ascii) : bool :=
  ((lo <=? code c) && (code c <=? hi))%N.

Definition is_upper (c : ascii) : bool := in_range 65 90 c.
Definition is_lower (c : ascii) : bool := in_range 97 122 c.
Definition is_digit (c : ascii) : bool := in_range 48 57 c.

(** [str.isspace] on one character: TAB..CR, FS..US and the blank. *)
Definition is_space (c : ascii) : bool :=
  in_range 9 13 c || in_range 28 32 c.

(** The class [\w]: letters, digits and the underscore. *)
Definition is_word (c : ascii) : bool :=
  is_upper c || is_lower c || is_digit c || (code c =? 95)%N.

Definition lower_char (c : ascii) : ascii :=
  if is_upper c then ascii_of_N (code c + 32) else c.

(** [s.lower()] *)
Fixpoint lower (s : string) : string :=
  match s with
  | EmptyString => EmptyString
  | String c s' => String (lower_char c) (lower s')
  end.

Definition upper_char (c : ascii) : ascii :=
  if is_lower c then ascii_of_N (code c - 32) else c.

(** [s.upper()] *)
Fixpoint upper (s : string) : string :=
  match s with
  | EmptyString => EmptyString
  | String c s' => String (upper_char c) (upper s')
  end.

(** [s.startswith(p)] *)
Fixpoint starts_with (p s : string) : bool :=
  match p, s with
  | EmptyString, _ => true
  | String _ _, EmptyString => false
  | String a p', String b s' => bool_decide (a = b) && starts_with p' s'
  end.

(** [needle in hay] *)
Fixpoint contains (needle hay : string) : bool :=
  starts_with needle hay ||
  match hay with
  | EmptyString => false
  | String _ hay' => contains needle hay'
  end.

(** [s.lstrip()], [s.rstrip()], [s.strip()] *)
Fixpoint lstrip (s : string) : string :=
  match s with
  | EmptyString => EmptyString
  | String c s' => if is_space c then lstrip s' else s
  end.

Fixpoint rstrip (s : string) : string :=
  match s with
  | EmptyString => EmptyString
  | String c s' =>
      match rstrip s' with
      | EmptyString => if is_space c then EmptyString else String c EmptyString
      | r => String c r
      end
  end.

Definition strip (s : string) : string := rstrip (lstrip s).

(** [s.split()]: the maximal runs of non-blank characters, in order.
    [cur] is the run being read, reversed. *)
Fixpoint split_go (cur : option string) (s : string) : list string :=
  match s with
  | EmptyString => option_list (String.rev <$> cur)
  | String c s' =>
      if is_space c
      then option_list (String.rev <$> cur) ++ split_go None s'
      else split_go (Some (String c (default EmptyString cur))) s'
  end.

Definition split (s : string) : list string := split_go None s.

(** [s[:n]] for [n >= 0] *)
Fixpoint take (n : nat) (s : string) : string :=
  match n, s with
  | O, _ => EmptyString
  | S _, EmptyString => EmptyString
  | S n', String c s' => String c (take n' s')
  end.

(** [set(s.split())] *)
Definition word_set (s : string) : gset string := list_to_set (split s).

End PyStr.

(** ** Numbers *)

(** A count as a float. *)
Definition Qnat (n : nat) : Q := inject_Z (Z.of_nat n).

(** [x < y] on floats, as a test. *)
Definition Qltb (x y : Q) : bool := negb (Qle_bool y x).

(** ** The corpus rows (app/models/database.py) *)

Module TrainingData.

Record t := mk {
  id : Z;
  incident_description : string;
  expected_root_cause : string;
  category : string;
  notes : string;
  is_validated : Z;
  usefulness_count : option Z
}.

(** [calculate_similarity(self, query)] *)
Definition calculate_similarity (self : t) (query : string) : Q :=
  let query_lower := PyStr.lower query in
  let description_lower := PyStr.lower (incident_description self) in
  let query_words := PyStr.word_set query_lower in
  let description_words := PyStr.word_set description_lower in
  if bool_decide (query_words = ∅) then 0%Q
  else
    let intersection := query_words ∩ description_words in
    let union := query_words ∪ description_words in
    let jaccard :=
      if bool_decide (union = ∅) then 0%Q
      else (Qnat (size intersection) / Qnat (size union))%Q in
    let phrase_bonus :=
      if PyStr.contains query_lower description_lower then (2 # 10)%Q else 0%Q in
    let category_bonus :=
      if PyStr.contains (PyStr.lower (category self)) query_lower
      then (1 # 10)%Q else 0%Q in
    Qmin (jaccard + phrase_bonus + category_bonus) 1.

(** [int(getattr(example, 'usefulness_count', 0) or 0)] *)
Definition usefulness_count_int (self : t) : Z := default 0 (usefulness_count self).

End TrainingData.

Module KnowledgeBase.

Record t := mk {
  id : Z;
  title : string;
  content : string;
  category : string;
  keywords : string;
  priority : Z;
  status : string;
  view_count : Z;
  usefulness_count : Z;
  last_used : option Z
}.

Definition microseconds_per_day : Z := 86400 * 1000000.

(** [(now - last_used).days] *)
Definition days_between (now last : Z) : Z := (now - last) / microseconds_per_day.

(** [calculate_relevance(self, query)]; [now] is [datetime.utcnow()]. *)
Definition calculate_relevance (self : t) (now : Z) (query : string) : Q :=
  let query_lower := PyStr.lower query in
  let content_lower := PyStr.lower (content self) in
  let title_lower := PyStr.lower (title self) in
  let keywords_lower := PyStr.lower (keywords self) in
  let score := 0%Q in
  let score :=
    if PyStr.contains query_lower title_lower then (score + (4 # 10))%Q else score in
  let score :=
    if PyStr.contains query_lower content_lower then (score + (3 # 10))%Q else score in
  let score :=
    if PyStr.contains query_lower keywords_lower then (score + (2 # 10))%Q else score in
  let query_words := PyStr.word_set query_lower in
  let title_words := PyStr.word_set title_lower in
  let content_words := PyStr.word_set content_lower in
  let title_matches := size (query_words ∩ title_words) in
  let score :=
    if (0 <? title_matches)%nat
    then (score + (2 # 10) * (Qnat title_matches / Qnat (size query_words)))%Q
    else score in
  let content_matches := size (query_words ∩ content_words) in
  let score :=
    if (0 <? content_matches)%nat
    then (score + (1 # 10) * (Qnat content_matches / Qnat (size query_words)))%Q
    else score in
  let priority_bonus := (inject_Z (priority self) * (5 # 100))%Q in
  let score := (score + priority_bonus)%Q in
  let score :=
    match last_used self with
    | Some last =>
        if 0 <? view_count self then
          let days_since_use := days_between now last in
          let usage_bonus :=
            Qmin (1 # 10)
                 (inject_Z (view_count self) * (1 # 100)
                  / inject_Z (Z.max days_since_use 1))%Q in
          (score + usage_bonus)%Q
        else score
    | None => score
    end in
  Qmin score 1.

End KnowledgeBase.

(** ** Python list primitives *)

Module PyList.

(** [l[:n]] for any integer [n]: a negative [n] counts from the end. *)
Definition slice_to {A} (n : Z) (l : list A) : list A :=
  if 0 <=? n then firstn (Z.to_nat n) l
  else firstn (length l - Z.to_nat (- n)) l.

(** One step of a stable sort: [x] goes in front of the first element it
    does not come after. *)
Fixpoint insert_sorted {A} (le : A -> A -> bool) (x : A) (l : list A) : list A :=
  match l with
  | [] => [x]
  | y :: l' => if le x y then x :: l else y :: insert_sorted le x l'
  end.

(** [sorted(l)] under the order [le]; stable as Python's sort is. *)
Definition sorted {A} (le : A -> A -> bool) (l : list A) : list A :=
  foldr (insert_sorted le) [] l.

(** [l.sort(key=key, reverse=reverse)] for keys compared by [leb]; with
    [reverse] the order is flipped and equal keys still keep their order. *)
Definition sort_by {A K} (leb : K -> K -> bool) (key : A -> K) (reverse : bool)
    (l : list A) : list A :=
  sorted (fun x y => if reverse then leb (key y) (key x) else leb (key x) (key y)) l.

End PyList.

(** ** Retrieval services *)

(** The knowledge retrieval with its scores read as rationals; the same
    retrieval in doubles is [Double.find_relevant_knowledge_async]. *)

Module KnowledgeBaseService.

(** The rows that [self.db.query(KnowledgeBase).filter(status == "Active")]
    returns. *)
Definition active (db : list KnowledgeBase.t) : list KnowledgeBase.t :=
  List.filter (fun e => bool_decide (KnowledgeBase.status e = "Active")) db.

(** The loop that fills [scored_entries]. *)
Definition scored_entries (all_knowledge : list KnowledgeBase.t) (now : Z)
    (query : string) : list (KnowledgeBase.t * Q) :=
  flat_map
    (fun entry =>
       let relevance := KnowledgeBase.calculate_relevance entry now query in
       if Qltb (1 # 10) relevance then
         let usefulness_boost :=
           (inject_Z (KnowledgeBase.usefulness_count entry) * (5 # 100))%Q in
         let combined_score := (relevance + usefulness_boost)%Q in
         [(entry, combined_score)]
       else [])
    all_knowledge.

(** [entry.view_count += 1; entry.last_used = datetime.utcnow()] *)
Definition touch (now : Z) (entry : KnowledgeBase.t) : KnowledgeBase.t :=
  KnowledgeBase.mk
    (KnowledgeBase.id entry) (KnowledgeBase.title entry)
    (KnowledgeBase.content entry) (KnowledgeBase.category entry)
    (KnowledgeBase.keywords entry) (KnowledgeBase.priority entry)
    (KnowledgeBase.status entry) (KnowledgeBase.view_count entry + 1)
    (KnowledgeBase.usefulness_count entry) (Some now).

(** The scored pairs that the final loop walks: [scored_entries[:limit]]
    after the sort. *)
Definition top_entries (db : list KnowledgeBase.t) (now : Z) (query : string)
    (limit : Z) : list (KnowledgeBase.t * Q) :=
  PyList.slice_to limit
    (PyList.sort_by Qle_bool snd true (scored_entries (active db) now query)).

(** [find_relevant_knowledge_async(query, limit)] on the session [db] at
    clock reading [now]: the returned list, and the session after the
    usage statistics of the returned rows were updated in place. *)
Definition find_relevant_knowledge_async (db : list KnowledgeBase.t) (now : Z)
    (query : string) (limit : Z) : list KnowledgeBase.t * list KnowledgeBase.t :=
  let top := top_entries db now query limit in
  let hit (e : KnowledgeBase.t) :=
    existsb (fun p => KnowledgeBase.id (fst p) =? KnowledgeBase.id e) top in
  (map (fun p => touch now (fst p)) top,
   map (fun e =>
          if bool_decide (KnowledgeBase.status e = "Active") && hit e
          then touch now e else e) db).

End KnowledgeBaseService.

Module TrainingDataService.

(** The rows of [filter(TrainingData.is_validated == 1)]. *)
Definition validated (db : list TrainingData.t) : list TrainingData.t :=
  List.filter (fun e => TrainingData.is_validated e =? 1) db.

End TrainingDataService.

(** ** The feedback rows (app/models/database.py) *)

Module SolutionFeedback.

Record t := mk {
  id : Z;
  incident_description : string;
  solution_description : string;
  solution_order : Z;
  solution_type : string;
  source_type : string;
  knowledge_base_id : option Z;
  training_data_id : option Z;
  rca_id : option Z;
  usefulness_count : Z;
  marked_at : Z
}.

End SolutionFeedback.

(** [str(n)] and [f"{n}"] for an integer. *)
Definition str_of_Z (n : Z) : string := DecimalString.NilZero.string_of_int (Z.to_int n).

(** ** Solution fusion: the tail of [analyze_root_cause] (simple_main.py) *)

Module Fusion.

(** An element of [top_training]. *)
Record scored_match := mk_scored {
  match_ : TrainingData.t;
  sm_relevance_score : Z;
  sm_match_type : string
}.

(** A [solution_obj] dictionary. *)
Record solution := mk_solution {
  order : Z;
  title : string;
  description : string;
  type_ : string;
  source : string;
  category : string;
  relevance_score : Z;
  match_type : string;
  usefulness_count : Z;
  user_verified : bool;
  feedback_incident_description : option string;
  feedback_solution_description : option string
}.

(** [a or b] on strings: the first one that is not empty. *)
Definition str_or (a b : string) : string :=
  if bool_decide (a = "") then b else a.

(** The rows of [filter(SolutionFeedback.usefulness_count > 0)]. *)
Definition feedback_rows (db : list SolutionFeedback.t) : list SolutionFeedback.t :=
  List.filter (fun fb => 0 <? SolutionFeedback.usefulness_count fb) db.

(** The test of the feedback loop: both texts non-empty and one contained
    in the other, case ignored. *)
Definition feedback_matches (desc : string) (fb : SolutionFeedback.t) : bool :=
  let fbd := SolutionFeedback.solution_description fb in
  negb (bool_decide (desc = "")) && negb (bool_decide (fbd = "")) &&
  (PyStr.contains (PyStr.lower desc) (PyStr.lower fbd) ||
   PyStr.contains (PyStr.lower fbd) (PyStr.lower desc)).

(** The [for fb in feedback_rows: ... break] loop: the first matching row. *)
Definition first_feedback (desc : string) (rows : list SolutionFeedback.t)
    : option SolutionFeedback.t :=
  List.find (feedback_matches desc) rows.

(** The body of the loop over [enumerate(top_training, 1)]. *)
Definition solution_obj (rows : list SolutionFeedback.t) (idx : Z) (sm : scored_match)
    : solution :=
  let m := match_ sm in
  let solution :=
    str_or (TrainingData.expected_root_cause m)
      (str_or (TrainingData.incident_description m) "See training data") in
  let fb := first_feedback solution rows in
  {| order := idx;
     title :=
       if bool_decide (TrainingData.category m = "")
       then "Solution #" +:+ str_of_Z idx
       else "Solution #" +:+ str_of_Z idx +:+ ": " +:+ TrainingData.category m;
     description :=
       if (500 <? String.length solution)%nat
       then PyStr.take 500 solution +:+ "..." else solution;
     type_ := "Training Case";
     source := "Training Data (Case #" +:+ str_of_Z (TrainingData.id m) +:+ ")";
     category := str_or (TrainingData.category m) "General";
     relevance_score := Z.min 99 (Z.max 60 (Z.quot (sm_relevance_score sm) 10));
     match_type := sm_match_type sm;
     usefulness_count :=
       match fb with
       | Some row => SolutionFeedback.usefulness_count row
       | None => TrainingData.usefulness_count_int m
       end;
     user_verified := bool_decide (is_Some fb);
     feedback_incident_description := SolutionFeedback.incident_description <$> fb;
     feedback_solution_description := SolutionFeedback.solution_description <$> fb |}.

(** [enumerate(l, start)] *)
Fixpoint enumerate {A} (start : Z) (l : list A) : list (Z * A) :=
  match l with
  | [] => []
  | x :: l' => (start, x) :: enumerate (start + 1) l'
  end.

Definition recommended_solutions_data (rows : list SolutionFeedback.t)
    (top_training : list scored_match) : list solution :=
  map (fun p => solution_obj rows (fst p) (snd p)) (enumerate 1 top_training).

(** [solution['description'].lower().strip()] *)
Definition normalized (s : solution) : string :=
  PyStr.strip (PyStr.lower (description s)).

(** The deduplication loop; [seen] is [seen_descriptions]. *)
Fixpoint unique_solutions (seen : gset string) (sols : list solution) : list solution :=
  match sols with
  | [] => []
  | s :: rest =>
      let desc_lower := normalized s in
      if bool_decide (desc_lower ∈ seen) then unique_solutions seen rest
      else s :: unique_solutions ({[desc_lower]} ∪ seen) rest
  end.

(** The sort key [(not s['user_verified'], -s['usefulness_count'])] and the
    order of such tuples. *)
Definition sort_key (s : solution) : bool * Z :=
  (negb (user_verified s), - usefulness_count s).

Definition key_leb (a b : bool * Z) : bool :=
  match fst a, fst b with
  | false, true => true
  | true, false => false
  | _, _ => snd a <=? snd b
  end.

Definition set_order (idx : Z) (s : solution) : solution :=
  {| order := idx; title := title s; description := description s;
     type_ := type_ s; source := source s; category := category s;
     relevance_score := relevance_score s; match_type := match_type s;
     usefulness_count := usefulness_count s; user_verified := user_verified s;
     feedback_incident_description := feedback_incident_description s;
     feedback_solution_description := feedback_solution_description s |}.

(** Deduplicate, sort, and give the order numbers again. *)
Definition finalize (sols : list solution) : list solution :=
  let unique := unique_solutions ∅ sols in
  let sorted := PyList.sort_by key_leb sort_key false unique in
  map (fun p => set_order (fst p) (snd p)) (enumerate 1 sorted).

(** [recommended_solutions_data] as it stands after line 1342. *)
Definition final_solutions (feedback : list SolutionFeedback.t)
    (top_training : list scored_match) : list solution :=
  finalize (recommended_solutions_data (feedback_rows feedback) top_training).

(** Two texts that differ only by letter case and by blanks around them:
    each is a core between two runs of blanks, and the cores are equal up
    to case. *)
Definition blank (s : string) : Prop := PyStr.lstrip s = "".

Definition same_text (d1 d2 : string) : Prop :=
  exists pre1 core1 post1 pre2 core2 post2,
    d1 = pre1 +:+ core1 +:+ post1 /\ d2 = pre2 +:+ core2 +:+ post2 /\
    blank pre1 /\ blank post1 /\ blank pre2 /\ blank post2 /\
    PyStr.lower core1 = PyStr.lower core2.

End Fusion.

(** The order the specification gives the final list: verified solutions
    first, then larger usefulness counts first. *)
Definition verified_then_useful (a b : Fusion.solution) : Prop :=
  (Fusion.user_verified a = true /\ Fusion.user_verified b = false) \/
  (Fusion.user_verified a = Fusion.user_verified b /\
   Fusion.usefulness_count b <= Fusion.usefulness_count a).

(** ** The feedback ledger (simple_main.py, app/api_unmark_step_useful.py) *)

Module Ledger.

(** The tables a request works on. *)
Record db := mk_db {
  solution_feedback : list SolutionFeedback.t;
  knowledge_base : list KnowledgeBase.t;
  training_data : list TrainingData.t
}.

(** The identity of a ledger row, as both routes filter on it. *)
Record identity := mk_identity {
  step_description : string;
  step_order : Z;
  knowledge_base_id : option Z;
  training_data_id : option Z;
  rca_id : option Z
}.

(** The five-column filter; a [None] compares as [IS NULL]. *)
Definition same_identity (k : identity) (row : SolutionFeedback.t) : bool :=
  bool_decide (SolutionFeedback.solution_description row = step_description k) &&
  (SolutionFeedback.solution_order row =? step_order k) &&
  bool_decide (SolutionFeedback.knowledge_base_id row = knowledge_base_id k) &&
  bool_decide (SolutionFeedback.training_data_id row = training_data_id k) &&
  bool_decide (SolutionFeedback.rca_id row = rca_id k).

(** [query.filter(...).first()] *)
Definition first {A} (p : A -> bool) (rows : list A) : option A := List.find p rows.

(** Assign to the attributes of the object that [.first()] returned. *)
Fixpoint update_first {A} (p : A -> bool) (f : A -> A) (rows : list A) : list A :=
  match rows with
  | [] => []
  | x :: rest => if p x then f x :: rest else x :: update_first p f rest
  end.

(** [db.delete(row)] for the object that [.first()] returned. *)
Fixpoint delete_first {A} (p : A -> bool) (rows : list A) : list A :=
  match rows with
  | [] => []
  | x :: rest => if p x then rest else x :: delete_first p rest
  end.

(** The key an autoincrement column gives the next row. *)
Definition next_id (rows : list SolutionFeedback.t) : Z :=
  1 + foldr Z.max 0 (map SolutionFeedback.id rows).

(** Truth value of an optional integer: set and not zero. *)
Definition truthy (x : option Z) : bool :=
  match x with Some n => negb (n =? 0) | None => false end.

Definition with_feedback_count (n now : Z) (incident : option string)
    (row : SolutionFeedback.t) : SolutionFeedback.t :=
  SolutionFeedback.mk
    (SolutionFeedback.id row)
    (default (SolutionFeedback.incident_description row) incident)
    (SolutionFeedback.solution_description row)
    (SolutionFeedback.solution_order row)
    (SolutionFeedback.solution_type row)
    (SolutionFeedback.source_type row)
    (SolutionFeedback.knowledge_base_id row)
    (SolutionFeedback.training_data_id row)
    (SolutionFeedback.rca_id row)
    n now.

Definition kb_add_usefulness (d : Z) (e : KnowledgeBase.t) : KnowledgeBase.t :=
  KnowledgeBase.mk
    (KnowledgeBase.id e) (KnowledgeBase.title e) (KnowledgeBase.content e)
    (KnowledgeBase.category e) (KnowledgeBase.keywords e) (KnowledgeBase.priority e)
    (KnowledgeBase.status e) (KnowledgeBase.view_count e)
    (KnowledgeBase.usefulness_count e + d) (KnowledgeBase.last_used e).

Definition td_set_usefulness (n : Z) (e : TrainingData.t) : TrainingData.t :=
  TrainingData.mk
    (TrainingData.id e) (TrainingData.incident_description e)
    (TrainingData.expected_root_cause e) (TrainingData.category e)
    (TrainingData.notes e) (TrainingData.is_validated e) (Some n).

(** What a route answers.  The error answers follow a rollback after an
    exception of the session; the two functions below are the [try]
    blocks, and module [Route] adds the [except] branch to them. *)
Inductive mark_response :=
  | MarkSuccess (usefulness_count : Z)      (* success: True, usefulness_count *)
  | MarkError.                              (* success: False, error *)

Inductive unmark_response :=
  | UnmarkSuccess                           (* success: True, "Step unmarked as useful." *)
  | UnmarkNotFound                          (* success: False, "No feedback found to remove." *)
  | UnmarkError.                            (* success: False, error *)

(** The [try] block of [mark_step_useful]; [now] is the clock reading of
    the request. *)
Definition mark_step_useful (d : db) (now : Z) (k : identity)
    (incident_description : option string) (step_type : string)
    : db * mark_response :=
  let source_type :=
    if truthy (knowledge_base_id k) then "Knowledge Base"
    else if truthy (training_data_id k) then "Training Data"
    else if truthy (rca_id k) then "RCA History"
    else "" in
  let final_incident_description :=
    match incident_description with
    | Some text => if bool_decide (PyStr.strip text = "") then "Unknown incident"
                   else PyStr.strip text
    | None => "Unknown incident"
    end in
  let existing_feedback := first (same_identity k) (solution_feedback d) in
  let '(feedback', usefulness_count) :=
    match existing_feedback with
    | Some row =>
        let n := SolutionFeedback.usefulness_count row + 1 in
        let incident :=
          if bool_decide (final_incident_description = "Unknown incident")
          then None else Some final_incident_description in
        (update_first (same_identity k) (with_feedback_count n now incident)
           (solution_feedback d), n)
    | None =>
        let new_feedback :=
          SolutionFeedback.mk (next_id (solution_feedback d))
            final_incident_description (step_description k) (step_order k)
            step_type source_type (knowledge_base_id k) (training_data_id k)
            (rca_id k) 1 now in
        (solution_feedback d ++ [new_feedback], 1)
    end in
  let knowledge' :=
    if truthy (knowledge_base_id k)
    then update_first
           (fun e => KnowledgeBase.id e =? default 0 (knowledge_base_id k))
           (kb_add_usefulness 1) (knowledge_base d)
    else knowledge_base d in
  let training' :=
    if truthy (knowledge_base_id k) then training_data d
    else if truthy (training_data_id k)
    then update_first
           (fun e => TrainingData.id e =? default 0 (training_data_id k))
           (fun e => td_set_usefulness (TrainingData.usefulness_count_int e + 1) e)
           (training_data d)
    else training_data d in
  (mk_db feedback' knowledge' training', MarkSuccess usefulness_count).

(** The [try] block of [unmark_step_useful] *)
Definition unmark_step_useful (d : db) (now : Z) (k : identity)
    : db * unmark_response :=
  match first (same_identity k) (solution_feedback d) with
  | None => (d, UnmarkNotFound)
  | Some feedback =>
      let feedback' :=
        if 1 <? SolutionFeedback.usefulness_count feedback
        then update_first (same_identity k)
               (with_feedback_count (SolutionFeedback.usefulness_count feedback - 1)
                  now None)
               (solution_feedback d)
        else delete_first (same_identity k) (solution_feedback d) in
      let knowledge' :=
        if truthy (knowledge_base_id k)
        then update_first
               (fun e => KnowledgeBase.id e =? default 0 (knowledge_base_id k))
               (fun e => if 0 <? KnowledgeBase.usefulness_count e
                         then kb_add_usefulness (-1) e else e)
               (knowledge_base d)
        else knowledge_base d in
      let training' :=
        if truthy (knowledge_base_id k) then training_data d
        else if truthy (training_data_id k)
        then update_first
               (fun e => TrainingData.id e =? default 0 (training_data_id k))
               (fun e => if 0 <? TrainingData.usefulness_count_int e
                         then td_set_usefulness (TrainingData.usefulness_count_int e - 1) e
                         else e)
               (training_data d)
        else training_data d in
      (mk_db feedback' knowledge' training', UnmarkSuccess)
  end.

(** A sequence of [mark_step_useful] requests for one identity, each
    request with its own clock reading, incident text and step type. *)
Definition mark_all (d : db) (k : identity)
    (requests : list (Z * option string * string)) : db :=
  fold_left
    (fun d' r => fst (mark_step_useful d' (fst (fst r)) k (snd (fst r)) (snd r)))
    requests d.

End Ledger.

(** ** The operational correlator (app/services/operational_data_service.py) *)

Module Ops.

Inductive ContainerStatusEnum :=
  IN_YARD | ON_VESSEL | GATE_OUT | GATE_IN | DISCHARGED | LOADED | TRANSHIP.

(** [status.value] *)
Definition status_value (s : ContainerStatusEnum) : string :=
  match s with
  | IN_YARD => "IN_YARD" | ON_VESSEL => "ON_VESSEL" | GATE_OUT => "GATE_OUT"
  | GATE_IN => "GATE_IN" | DISCHARGED => "DISCHARGED" | LOADED => "LOADED"
  | TRANSHIP => "TRANSHIP"
  end.

#[global] Instance ContainerStatusEnum_eq_dec : EqDecision ContainerStatusEnum.
Proof. solve_decision. Defined.

Record Container := mk_container {
  cntr_no : string;
  status : ContainerStatusEnum;
  origin_port : string;
  destination_port : string;
  vessel_id : option Z;
  created_at : Z
}.

Record BerthApplication := mk_berth {
  application_no : Z;
  ba_vessel_advice_no : Z
}.

Record VesselAdvice := mk_advice {
  vessel_advice_no : Z;
  vessel_name : string;
  system_vessel_name : string;
  effective_start_datetime : Z;
  effective_end_datetime : option Z
}.

Record APIEvent := mk_event {
  api_id : Z;
  event_type : string;
  source_system : string;
  http_status : option Z;
  event_ts : Z
}.

(** The operational store. *)
Record ops_db := mk_ops {
  containers : list Container;
  vessel_advices : list VesselAdvice;
  berth_applications : list BerthApplication;
  api_events : list APIEvent
}.

Definition microseconds (seconds : Z) : Z := seconds * 1000000.

Section Formatting.

(** [datetime.isoformat()] and the format [f"{seconds:.1f}"] of a
    [timedelta.total_seconds()] belong to the Python library; the
    correlator is read for any rendering of them. *)
Variable isoformat : Z -> string.
Variable format_seconds : Z -> string.

(** *** Container duplication *)

(** [get_container_by_number]: the versions of a container, newest first. *)
Definition get_container_by_number (db : ops_db) (number : string) : list Container :=
  PyList.sort_by Z.leb created_at true
    (List.filter (fun c => bool_decide (cntr_no c = PyStr.upper number)) (containers db)).

(** An entry of [analysis["records"]]. *)
Record container_record := mk_record {
  rec_created_at : string;
  rec_status : string;
  rec_vessel_id : option Z;
  rec_origin : string;
  rec_destination : string
}.

(** The dictionary [detect_container_duplicates] returns; the keys that
    are absent from the short answer are [None] or empty. *)
Record duplication_analysis := mk_analysis {
  has_duplicates : bool;
  count : nat;
  records : list container_record;
  identical_data : option bool;
  issue_type : option string;
  root_cause : option string
}.

(** The test of the comparison loop: [c] differs from [first]. *)
Definition differs (first c : Container) : bool :=
  negb (bool_decide (status c = status first)) ||
  negb (bool_decide (vessel_id c = vessel_id first)) ||
  negb (bool_decide (origin_port c = origin_port first)) ||
  negb (bool_decide (destination_port c = destination_port first)).

Definition detect_container_duplicates (db : ops_db) (number : string)
    : duplication_analysis :=
  let containers := get_container_by_number db number in
  match containers with
  | [] | [_] => mk_analysis false (length containers) [] None None None
  | first :: rest =>
      let records :=
        map (fun c => mk_record (isoformat (created_at c)) (status_value (status c))
                        (vessel_id c) (origin_port c) (destination_port c))
            containers in
      if existsb (differs first) rest then
        mk_analysis true (length containers) records (Some false)
          (Some "data_inconsistency") None
      else
        let time_diff := created_at first - created_at (List.last containers first) in
        if time_diff <? microseconds 5 then
          mk_analysis true (length containers) records (Some true)
            (Some "rapid_duplicate_insert")
            (Some ("Multiple inserts within " +:+ format_seconds time_diff +:+
                   "s - likely race condition or double-submit"))
        else
          mk_analysis true (length containers) records (Some true)
            (Some "composite_pk_versioning") None
  end.

(** *** Vessel advice conflict *)

(** [get_vessel_advice_by_name]: the advice rows of a vessel, latest
    start first. *)
Definition get_vessel_advice_by_name (db : ops_db) (name : string) : list VesselAdvice :=
  PyList.sort_by Z.leb effective_start_datetime true
    (List.filter (fun a => bool_decide (system_vessel_name a = name)) (vessel_advices db)).

(** The four dictionaries [detect_vessel_advice_conflict] can return. *)
Inductive advice_conflict :=
  | NoAdvice
  | NoActiveAdvice (historical_count : nat) (message : string)
  | MultipleActive (active_count : nat) (root_cause : string)
      (advices : list (Z * string))
  | SingleActive (active_advice_no : Z) (active_since : string)
      (root_cause : string) (solution : string) (berth_applications : nat).

Definition has_conflict (r : advice_conflict) : bool :=
  match r with
  | NoAdvice | NoActiveAdvice _ _ => false
  | MultipleActive _ _ _ | SingleActive _ _ _ _ _ => true
  end.

Definition error_type (r : advice_conflict) : option string :=
  match r with
  | NoAdvice | NoActiveAdvice _ _ => None
  | MultipleActive _ _ _ => Some "MULTIPLE_ACTIVE"
  | SingleActive _ _ _ _ _ => Some "VESSEL_ERR_4"
  end.

Definition is_active (a : VesselAdvice) : bool :=
  bool_decide (effective_end_datetime a = None).

Definition detect_vessel_advice_conflict (db : ops_db) (name : string)
    : advice_conflict :=
  let advices := get_vessel_advice_by_name db name in
  match advices with
  | [] => NoAdvice
  | _ =>
      let active := List.filter is_active advices in
      match active with
      | [] =>
          NoActiveAdvice (length advices)
            ("No active advice found, " +:+ str_of_Z (Z.of_nat (length advices)) +:+
             " historical record(s) exist")
      | [active_advice] =>
          SingleActive (vessel_advice_no active_advice)
            (isoformat (effective_start_datetime active_advice))
            ("Cannot create new advice - vessel '" +:+ name +:+
             "' already has active advice #" +:+
             str_of_Z (vessel_advice_no active_advice))
            "Expire the existing advice by setting effective_end_datetime before creating new advice"
            (length (List.filter
                       (fun b => ba_vessel_advice_no b =? vessel_advice_no active_advice)
                       (berth_applications db)))
      | _ =>
          MultipleActive (length active)
            "Data integrity violation - multiple active advices found (should be prevented by unique constraint)"
            (map (fun a => (vessel_advice_no a, isoformat (effective_start_datetime a)))
                 active)
      end
  end.

(** *** API event cascades *)

(** An entry of a cascade's ["events"]. *)
Record event_record := mk_event_record {
  er_api_id : Z;
  er_event_type : string;
  er_source_system : string;
  er_http_status : option Z;
  er_timestamp : string
}.

(** A cascade dictionary; [duration_seconds] is kept in microseconds. *)
Record cascade := mk_cascade {
  start_time : string;
  end_time : string;
  duration_seconds : Z;
  event_count : nat;
  events : list event_record
}.

(** The query of [detect_api_event_cascade]: the events of the window
    answered with a 4xx or 5xx status, oldest first. *)
Definition error_events (db : ops_db) (start end_ : Z) : list APIEvent :=
  PyList.sort_by Z.leb event_ts false
    (List.filter
       (fun e => (start <=? event_ts e) && (event_ts e <=? end_) &&
                 match http_status e with Some h => 400 <=? h | None => false end)
       (api_events db)).

(** The dictionary appended for a group [current_cascade]; [e0] stands
    for its first event. *)
Definition cascade_of (e0 : APIEvent) (current_cascade : list APIEvent) : cascade :=
  let first := List.hd e0 current_cascade in
  let last := List.last current_cascade e0 in
  mk_cascade (isoformat (event_ts first)) (isoformat (event_ts last))
    (event_ts last - event_ts first) (length current_cascade)
    (map (fun e => mk_event_record (api_id e) (event_type e) (source_system e)
                     (http_status e) (isoformat (event_ts e)))
         current_cascade).

(** Append the group when it has two events or more. *)
Definition flush (cascades : list cascade) (e0 : APIEvent)
    (current_cascade : list APIEvent) : list cascade :=
  if (2 <=? length current_cascade)%nat
  then cascades ++ [cascade_of e0 current_cascade] else cascades.

(** One turn of the loop over [events[1:]]; the state is [cascades] and
    [current_cascade], which is never empty. *)
Definition cascade_step (window : Z) (e0 : APIEvent)
    (state : list cascade * list APIEvent) (e : APIEvent)
    : list cascade * list APIEvent :=
  let '(cascades, current_cascade) := state in
  let time_diff := event_ts e - event_ts (List.last current_cascade e0) in
  if time_diff <=? microseconds window
  then (cascades, current_cascade ++ [e])
  else (flush cascades e0 current_cascade, [e]).

(** The loop and the final flush, on the events the query returned. *)
Definition cascades_of_events (window : Z) (events : list APIEvent) : list cascade :=
  match events with
  | [] => []
  | e0 :: rest =>
      let '(cascades, current_cascade) :=
        fold_left (cascade_step window e0) rest ([], [e0]) in
      flush cascades e0 current_cascade
  end.

Definition detect_api_event_cascade (db : ops_db) (start end_ : Z)
    (cascade_window_seconds : Z) : list cascade :=
  cascades_of_events cascade_window_seconds (error_events db start end_).

End Formatting.

(** The earliest and the latest [created_at] of some rows. *)
Definition time_span (rows : list Container) (earliest latest : Z) : Prop :=
  In earliest (map created_at rows) /\ In latest (map created_at rows) /\
  forall c, In c rows -> earliest <= created_at c <= latest.

(** The grouping the specification describes: consecutive events stay in
    one group while the gap to the previous event is at most the window;
    a larger gap starts the next group. *)
Fixpoint groups (window : Z) (events : list APIEvent) : list (list APIEvent) :=
  match events with
  | [] => []
  | e :: rest =>
      match groups window rest with
      | (next :: _) as g :: gs =>
          if event_ts next - event_ts e <=? microseconds window
          then (e :: g) :: gs else [e] :: g :: gs
      | gs => [e] :: gs
      end
  end.

(** Every gap inside a group is within the window. *)
Fixpoint chained (window : Z) (g : list APIEvent) : Prop :=
  match g with
  | [] => True
  | e :: rest =>
      match rest with
      | [] => True
      | next :: _ =>
          event_ts next - event_ts e <= microseconds window /\ chained window rest
      end
  end.


End Ops.

(** The groups the detector reports: those of two events or more. *)
Definition reportable (g : list Ops.APIEvent) : bool := (2 <=? length g)%nat.

(** ** Regular expressions, as far as the fingerprint patterns use them *)

Module Regex.

(** Concatenation, alternation, character classes, and a class repeated;
    the patterns repeat nothing but classes ([.*], [\w+], [\s+]). *)
Inductive re :=
  | Eps
  | Class (p : ascii -> bool)
  | Cat (r1 r2 : re)
  | Alt (r1 r2 : re)
  | StarClass (p : ascii -> bool).

(** [.] : any character but the line feed. *)
Definition dot (c : ascii) : bool := negb (PyStr.code c =? 10)%N.

Definition chr (a : ascii) : re := Class (fun c => bool_decide (c = a)).

(** A literal text. *)
Fixpoint lit (s : string) : re :=
  match s with
  | EmptyString => Eps
  | String c s' => Cat (chr c) (lit s')
  end.

(** [p+], [r?], [.*] *)
Definition plus (p : ascii -> bool) : re := Cat (Class p) (StarClass p).
Definition opt (r : re) : re := Alt r Eps.
Definition any : re := StarClass dot.

(** [go p k s]: [k] accepts what is left of [s] after some characters of
    the class [p]. *)
Fixpoint star_go (p : ascii -> bool) (k : string -> bool) (s : string) : bool :=
  k s ||
  match s with
  | EmptyString => false
  | String c s' => p c && star_go p k s'
  end.

(** [accepts r k s]: [r] matches a prefix of [s] and [k] accepts the rest. *)
Fixpoint accepts (r : re) (k : string -> bool) (s : string) : bool :=
  match r with
  | Eps => k s
  | Class p =>
      match s with
      | EmptyString => false
      | String c s' => p c && k s'
      end
  | Cat r1 r2 => accepts r1 (accepts r2 k) s
  | Alt r1 r2 => accepts r1 k s || accepts r2 k s
  | StarClass p => star_go p k s
  end.

(** [re.match(r, s) is not None] *)
Definition match_ (r : re) (s : string) : bool := accepts r (fun _ => true) s.

(** [re.search(r, s) is not None]: a match at some position. *)
Fixpoint search (r : re) (s : string) : bool :=
  match_ r s ||
  match s with
  | EmptyString => false
  | String _ s' => search r s'
  end.

(** [re.findall(p+, s)] for a class [p]: the maximal runs of [p]
    characters; [cur] is the run being read, reversed. *)
Fixpoint findall_go (p : ascii -> bool) (cur : option string) (s : string) : list string :=
  match s with
  | EmptyString => option_list (String.rev <$> cur)
  | String c s' =>
      if p c then findall_go p (Some (String c (default EmptyString cur))) s'
      else option_list (String.rev <$> cur) ++ findall_go p None s'
  end.

Definition findall_plus (p : ascii -> bool) (s : string) : list string :=
  findall_go p None s.

(** The words a regular expression denotes. *)
Inductive matches : re -> string -> Prop :=
  | m_eps : matches Eps ""
  | m_class p c : p c = true -> matches (Class p) (String c "")
  | m_cat r1 r2 s1 s2 : matches r1 s1 -> matches r2 s2 -> matches (Cat r1 r2) (s1 +:+ s2)
  | m_alt_l r1 r2 s : matches r1 s -> matches (Alt r1 r2) s
  | m_alt_r r1 r2 s : matches r2 s -> matches (Alt r1 r2) s
  | m_star_nil p : matches (StarClass p) ""
  | m_star_cons p c s : p c = true -> matches (StarClass p) s ->
                        matches (StarClass p) (String c s).

End Regex.

(** ** The fingerprint extractor (app/services/incident_analyzer.py) *)

Module IncidentAnalyzer.

Import Regex.

Definition quote (c : ascii) : bool :=
  bool_decide (c = "'"%char) || (PyStr.code c =? 34)%N.

(** The list [patterns], in its order. *)
Definition patterns : list (re * string) :=
  [ (Cat (lit "unexpected qualifier")
       (Cat any (Cat (Class quote) (Cat (plus PyStr.is_word) (Cat (Class quote)
       (Cat (plus PyStr.is_space) (Cat (lit "in") (Cat (plus PyStr.is_space)
       (Cat (plus PyStr.is_word) (Cat (plus PyStr.is_space) (lit "segment")))))))))),
     "edifact_unexpected_qualifier");
    (Alt (Cat (lit "coarri") (Cat any (Cat (lit "container") (Cat any (lit "translation")))))
         (Cat (lit "container") (Cat any (Cat (lit "coarri") (Cat any (lit "error"))))),
     "coarri_container_error");
    (Alt (Cat (lit "edifact") (Cat any (lit "parse")))
       (Alt (Cat (lit "edifact") (Cat any (lit "format")))
            (Cat (lit "edifact") (Cat any (lit "message")))),
     "edifact_parsing_error");
    (Alt (Cat (lit "codeco") (Cat any (lit "error")))
         (Cat (lit "codeco") (Cat any (lit "reject"))), "codeco_error");
    (Alt (Cat (lit "coprar") (Cat any (lit "error")))
         (Cat (lit "coprar") (Cat any (lit "reject"))), "coprar_error");
    (Alt (Cat (lit "baplie") (Cat any (lit "error")))
         (Cat (lit "baplie") (Cat any (lit "reject"))), "baplie_error");
    (Alt (Cat (lit "edi") (Cat any (Cat (lit "message") (Cat any (lit "stuck")))))
         (Cat (lit "edi") (Cat any (Cat (lit "stuck") (Cat any (lit "error"))))),
     "edi_message_stuck");
    (Alt (Cat (lit "segment") (Cat any (lit "error")))
       (Alt (Cat (lit "segment") (Cat any (lit "reject")))
            (Cat (lit "segment") (Cat any (lit "invalid")))),
     "edi_segment_error");
    (Cat (lit "time") (Cat (opt (chr " ")) (lit "zone drift")), "timezone_drift");
    (Alt (Cat (lit "dlq") (Cat any (lit "spike")))
       (Alt (Cat (lit "spike") (Cat any (lit "dlq"))) (lit "dlq messages")),
     "dlq_spike");
    (Alt (lit "vessel_err") (lit "vessel error"), "vessel_err");
    (Alt (Cat (lit "duplicate") (Cat any (lit "container")))
         (Cat (lit "container") (Cat any (lit "duplication"))),
     "container_duplication");
    (Alt (Cat (lit "cntr") (Cat any (lit "duplicate")))
         (Cat (lit "cntr") (Cat any (lit "error"))), "container_reference_error");
    (Alt (Cat (lit "booking") (Cat any (lit "duplicate")))
         (Cat (lit "booking") (Cat any (lit "conflict"))), "booking_conflict");
    (lit "timeout", "timeout");
    (lit "deadlock", "deadlock");
    (lit "connection refused", "connection_refused");
    (lit "invalid format", "invalid_format");
    (lit "missing field", "missing_field");
    (Alt (Cat (lit "auth") (Cat any (lit "fail"))) (lit "authentication failed"),
     "auth_failed");
    (lit "permission denied", "permission_denied");
    (lit "file not found", "file_not_found");
    (lit "memory leak", "memory_leak");
    (lit "high cpu", "high_cpu");
    (lit "disk full", "disk_full");
    (lit "network unreachable", "network_unreachable");
    (lit "service unavailable", "service_unavailable");
    (lit "unknown error", "unknown_error") ].

(** The loop [for pat, etype in patterns: if re.search(...): return etype]. *)
Fixpoint first_match (rules : list (re * string)) (desc_lower : string) : option string :=
  match rules with
  | [] => None
  | (pat, etype) :: rest =>
      if search pat desc_lower then Some etype else first_match rest desc_lower
  end.

(** ["_".join(l)] *)
Fixpoint join_underscore (l : list string) : string :=
  match l with
  | [] => ""
  | [w] => w
  | w :: rest => w +:+ "_" +:+ join_underscore rest
  end.

(** The fallback on the word tokens of the text. *)
Definition fallback (desc_lower : string) : string :=
  let words := findall_plus PyStr.is_word desc_lower in
  match words with
  | [] => "unknown_error"
  | _ => join_underscore (firstn 2 words)
  end.

(** [extract_error_type(description)] *)
Definition extract_error_type (description : string) : string :=
  let desc_lower := PyStr.lower description in
  match first_match patterns desc_lower with
  | Some etype => etype
  | None => fallback desc_lower
  end.

(** Letters and digits. *)
Definition is_alnum (c : ascii) : bool :=
  PyStr.is_upper c || PyStr.is_lower c || PyStr.is_digit c.

(** Every character of [s] fails [p]. *)
Fixpoint none_of (p : ascii -> bool) (s : string) : bool :=
  match s with
  | EmptyString => true
  | String c s' => negb (p c) && none_of p s'
  end.

End IncidentAnalyzer.

(** ** The hypothesis builder: the end of [analyze_root_cause] (simple_main.py) *)

Module Hypotheses.

(** [RootCauseHypothesis] (app/services/log_analyzer_service.py) *)
Record RootCauseHypothesis := mk_hypothesis {
  description : string;
  confidence : Q;
  evidence : list string;
  contributing_factors : list string
}.

(** The entries of [ops_correlation["findings"]] that the builder reads. *)
Record container_finding := mk_container_finding {
  cf_cntr_no : string;
  duplication_analysis : Ops.duplication_analysis
}.

Record vessel_finding := mk_vessel_finding {
  vf_vessel_name : string;
  advice_conflict : Ops.advice_conflict
}.

Record edi_finding := mk_edi_finding {
  edi_type : string;
  edi_message_ref : string;
  edi_error_text : string;
  edi_root_cause : option string;
  edi_solution : option string
}.

(** A key that is absent from the dictionary is an empty list. *)
Record findings := mk_findings {
  containers : list container_finding;
  vessels : list vessel_finding;
  edi_messages : list edi_finding
}.

(** The block [if similar_incidents: ...]. *)
Definition similarity_hypotheses (similar_incidents : list TrainingData.t)
    (recommended_solutions_data : list Fusion.solution) (sop_references : nat)
    : list RootCauseHypothesis :=
  match similar_incidents with
  | [] => []
  | most_similar :: _ =>
      let root := TrainingData.expected_root_cause most_similar in
      let primary_description :=
        if bool_decide (root = "")
        then "Root cause identified from similar incidents" else root in
      let solution_context :=
        match recommended_solutions_data with
        | [] => ""
        | top_solution :: _ =>
            " Recommended solution: " +:+
            PyStr.take 100 (Fusion.description top_solution) +:+ "..."
        end in
      [ mk_hypothesis (primary_description +:+ solution_context) (85 # 100)
          [ "Similar incident found: " +:+
              PyStr.take 150 (TrainingData.incident_description most_similar) +:+ "...";
            "Category: " +:+ TrainingData.category most_similar;
            "Based on " +:+ str_of_Z (Z.of_nat (length similar_incidents)) +:+
              " similar past incidents";
            "Enhanced with " +:+
              str_of_Z (Z.of_nat (length recommended_solutions_data)) +:+
              " AI-matched solutions" ]
          [ if bool_decide (root = "") then "See similar incidents for details"
            else PyStr.take 200 root;
            "SOP references: " +:+ str_of_Z (Z.of_nat sop_references) +:+
              " relevant procedures found" ] ]
  end.

Definition placeholder : RootCauseHypothesis :=
  mk_hypothesis "Unable to determine root cause - insufficient data" 0
    ["No similar incidents found"; "No log files uploaded"]
    ["Please provide more details or upload log files"].

(** The hypotheses before the operational data is read; [log_hypotheses]
    is what [extract_root_cause_candidates] gave, nothing without logs. *)
Definition base_hypotheses (similar_incidents : list TrainingData.t)
    (recommended_solutions_data : list Fusion.solution) (sop_references : nat)
    (log_hypotheses : list RootCauseHypothesis) : list RootCauseHypothesis :=
  let hypotheses :=
    similarity_hypotheses similar_incidents recommended_solutions_data sop_references
    ++ log_hypotheses in
  match hypotheses with
  | [] => [placeholder]
  | _ => hypotheses
  end.

Definition container_hypothesis (container : container_finding) : RootCauseHypothesis :=
  let dup := duplication_analysis container in
  mk_hypothesis
    ("Container " +:+ cf_cntr_no container +:+ " duplication detected: " +:+
     default "" (Ops.issue_type dup) +:+ ". " +:+ default "" (Ops.root_cause dup))
    (95 # 100)
    [ "Database shows " +:+ str_of_Z (Z.of_nat (Ops.count dup)) +:+ " records for " +:+
      cf_cntr_no container ]
    [ "Composite primary key (cntr_no, created_at)";
      "Possible race condition or double-submit" ].

Definition vessel_hypothesis (active_advice_no : Z) (active_since root_cause solution : string)
    : RootCauseHypothesis :=
  mk_hypothesis ("VESSEL_ERR_4: " +:+ root_cause) (98 # 100)
    [ "Active vessel advice #" +:+ str_of_Z active_advice_no +:+ " exists since " +:+
      active_since;
      "Unique constraint prevents multiple active advices for same vessel name" ]
    [ "Vessel advice lifecycle not properly managed"; "Solution: " +:+ solution ].

Definition edi_hypothesis (edi : edi_finding) (root_cause : string) : RootCauseHypothesis :=
  mk_hypothesis ("EDI " +:+ edi_type edi +:+ " error: " +:+ root_cause) (90 # 100)
    [ "Message " +:+ edi_message_ref edi +:+ ": " +:+ edi_error_text edi ]
    [ default "Review EDI message structure" (edi_solution edi) ].

(** The three loops, each doing [hypotheses.insert(0, ...)]. *)
Definition insert_containers (l : list container_finding)
    (hypotheses : list RootCauseHypothesis) : list RootCauseHypothesis :=
  fold_left
    (fun hyps container =>
       if Ops.has_duplicates (duplication_analysis container)
       then container_hypothesis container :: hyps else hyps)
    l hypotheses.

Definition insert_vessels (l : list vessel_finding)
    (hypotheses : list RootCauseHypothesis) : list RootCauseHypothesis :=
  fold_left
    (fun hyps vessel =>
       match advice_conflict vessel with
       | Ops.SingleActive no since cause solution _ =>
           vessel_hypothesis no since cause solution :: hyps
       | _ => hyps
       end)
    l hypotheses.

Definition insert_edi (l : list edi_finding)
    (hypotheses : list RootCauseHypothesis) : list RootCauseHypothesis :=
  fold_left
    (fun hyps edi =>
       match edi_root_cause edi with
       | Some cause => if bool_decide (cause = "") then hyps
                       else edi_hypothesis edi cause :: hyps
       | None => hyps
       end)
    l hypotheses.

(** [hypotheses] as it stands before the analysis is saved. *)
Definition build_hypotheses (similar_incidents : list TrainingData.t)
    (recommended_solutions_data : list Fusion.solution) (sop_references : nat)
    (log_hypotheses : list RootCauseHypothesis) (ops_correlation : option findings)
    : list RootCauseHypothesis :=
  let hypotheses :=
    base_hypotheses similar_incidents recommended_solutions_data sop_references
      log_hypotheses in
  match ops_correlation with
  | None => hypotheses
  | Some f =>
      insert_edi (edi_messages f)
        (insert_vessels (vessels f) (insert_containers (containers f) hypotheses))
  end.

(** The hypotheses each kind of finding contributes, in the order of the
    findings. *)
Definition container_part (f : findings) : list RootCauseHypothesis :=
  omap (fun c => if Ops.has_duplicates (duplication_analysis c)
                 then Some (container_hypothesis c) else None) (containers f).

Definition vessel_part (f : findings) : list RootCauseHypothesis :=
  omap (fun v => match advice_conflict v with
                 | Ops.SingleActive no since cause solution _ =>
                     Some (vessel_hypothesis no since cause solution)
                 | _ => None
                 end) (vessels f).

Definition edi_part (f : findings) : list RootCauseHypothesis :=
  omap (fun e => match edi_root_cause e with
                 | Some cause => if bool_decide (cause = "") then None
                                 else Some (edi_hypothesis e cause)
                 | None => None
                 end) (edi_messages f).

End Hypotheses.

(** ** Auxiliary definitions of the proofs *)

(** The groups of a list that continues a group [current] already read. *)
Definition attach (window : Z) (current : list Ops.APIEvent) (d : Ops.APIEvent)
    (gs : list (list Ops.APIEvent)) : list (list Ops.APIEvent) :=
  match gs with
  | (next :: _) as g :: gs' =>
      if Ops.event_ts next - Ops.event_ts (List.last current d) <=? Ops.microseconds window
      then (current ++ g) :: gs'
      else current :: g :: gs'
  | _ => current :: gs
  end.

(** The cascades reported for some groups. *)
Definition emit (isoformat : Z -> string) (d : Ops.APIEvent)
    (gs : list (list Ops.APIEvent)) : list Ops.cascade :=
  map (Ops.cascade_of isoformat d) (List.filter reportable gs).

(** ** Sample data *)

Definition td_demo : TrainingData.t :=
  TrainingData.mk 1 "Duplicate container info" "fix" "" "" 1 None.
Definition kb_demo : KnowledgeBase.t :=
  KnowledgeBase.mk 1 "Container SOP" "Check duplicate container rows" "" "" 1 "Active" 0 0 None.

Definition kb_corpus : list KnowledgeBase.t :=
  [ KnowledgeBase.mk 1 "Container SOP" "Check duplicate container rows" "" "" 1 "Active" 0 0 None;
    KnowledgeBase.mk 2 "Vessel advice" "Expire the active advice" "" "vessel" 2 "Active" 3 4 (Some 0);
    KnowledgeBase.mk 3 "Container draft" "container" "" "" 4 "Draft" 0 9 None ].

Definition td_corpus : list TrainingData.t :=
  [ TrainingData.mk 1 "Duplicate container info" "Remove the older row" "Container" "" 1 None;
    TrainingData.mk 2 "duplicate container rows seen" "Check the gateway" "" "" 1 (Some 2);
    TrainingData.mk 3 "duplicate container" "unvalidated" "" "" 0 (Some 50) ].

Definition demo_feedback : list SolutionFeedback.t :=
  [ SolutionFeedback.mk 1 "Vessel advice rejected" "expire the advice" 1 "Resolution"
      "Training Data" None (Some 3) None 3 0 ].

Definition demo_top_training : list Fusion.scored_match :=
  [ Fusion.mk_scored (TrainingData.mk 1 "Gateway down" "Restart the gateway" "API" "" 1 None)
      300 "exact";
    Fusion.mk_scored (TrainingData.mk 2 "Gateway slow" "  restart the GATEWAY " "" "" 1 (Some 2))
      250 "keyword";
    Fusion.mk_scored (TrainingData.mk 3 "VESSEL_ERR_4 raised" "Expire the advice first" "Vessel" "" 1 None)
      200 "keyword" ].

Definition demo_candidates : list Fusion.solution :=
  Fusion.recommended_solutions_data (Fusion.feedback_rows demo_feedback) demo_top_training.

Definition demo_identity : Ledger.identity :=
  Ledger.mk_identity "Restart the gateway" 1 None (Some 2) None.

Definition demo_db : Ledger.db :=
  Ledger.mk_db demo_feedback kb_corpus td_corpus.

Definition demo_requests : list (Z * option string * string) :=
  [ (10, Some " Gateway down ", "Resolution"); (20, None, "Resolution");
    (30, Some "API gateway slow", "Resolution") ].

Definition demo_db_marked : Ledger.db :=
  Eval vm_compute in Ledger.mark_all demo_db demo_identity [(10, None, "Resolution")].

Definition demo_event (id seconds : Z) : Ops.APIEvent :=
  Ops.mk_event id "GATE_IN" "TOS" (Some 500) (Ops.microseconds seconds).

Definition demo_ops_events : Ops.ops_db :=
  Ops.mk_ops [] [] []
    [ demo_event 3 7; demo_event 1 0;
      Ops.mk_event 9 "GATE_IN" "TOS" (Some 200) (Ops.microseconds 5);
      demo_event 4 25; demo_event 2 3 ].

Definition demo_container (status : Ops.ContainerStatusEnum) (seconds : Z) : Ops.Container :=
  Ops.mk_container "MSKU0000001" status "CNSHA" "SGSIN" (Some 7) (Ops.microseconds seconds).

Definition demo_ops_rapid : Ops.ops_db :=
  Ops.mk_ops [demo_container Ops.IN_YARD 100; demo_container Ops.IN_YARD 102] [] [] [].

Definition demo_ops_inconsistent : Ops.ops_db :=
  Ops.mk_ops [demo_container Ops.IN_YARD 100; demo_container Ops.GATE_OUT 4000] [] [] [].

Definition demo_ops_advice : Ops.ops_db :=
  Ops.mk_ops []
    [ Ops.mk_advice 41 "MV Lion City 07" "LIONCITY07" 1000 (Some 2000);
      Ops.mk_advice 42 "MV Lion City 07" "LIONCITY07" 3000 None ]
    [ Ops.mk_berth 1 42; Ops.mk_berth 2 41 ] [].

Definition demo_ops_two_active : Ops.ops_db :=
  Ops.mk_ops []
    [ Ops.mk_advice 41 "MV Lion City 07" "LIONCITY07" 1000 None;
      Ops.mk_advice 42 "MV Lion City 07" "LIONCITY07" 3000 None ]
    [] [].

Definition demo_findings : Hypotheses.findings :=
  Hypotheses.mk_findings
    [ Hypotheses.mk_container_finding "MSKU0000001"
        (Ops.detect_container_duplicates str_of_Z str_of_Z demo_ops_rapid "MSKU0000001") ]
    [ Hypotheses.mk_vessel_finding "MV Lion City 07"
        (Ops.detect_vessel_advice_conflict str_of_Z demo_ops_advice "LIONCITY07") ]
    [ Hypotheses.mk_edi_finding "COARRI" "REF-COP-0001" "Segment missing: EQD"
        (Some "EDI message structure incomplete - required segment not found")
        (Some "Verify sender's EDI message template and segment ordering") ].

(** * Further code of the assistant *)

(** ** Invariants of the feedback ledger *)

(** At most one ledger row for an identity. *)
Definition one_row_per_identity (rows : list SolutionFeedback.t) : Prop :=
  forall k, (length (List.filter (Ledger.same_identity k) rows) <= 1)%nat.

(** Every ledger row counts at least one mark. *)
Definition counts_positive (rows : list SolutionFeedback.t) : Prop :=
  Forall (fun r => 1 <= SolutionFeedback.usefulness_count r) rows.

(** The counters of the source tables are not negative. *)
Definition sources_nonneg (d : Ledger.db) : Prop :=
  Forall (fun e => 0 <= KnowledgeBase.usefulness_count e) (Ledger.knowledge_base d) /\
  Forall (fun e => 0 <= TrainingData.usefulness_count_int e) (Ledger.training_data d).

(** ** Retrieval *)

(** Two states of a knowledge row that differ at most in the usage
    statistics. *)
Definition same_document (e e' : KnowledgeBase.t) : Prop :=
  KnowledgeBase.id e' = KnowledgeBase.id e /\
  KnowledgeBase.title e' = KnowledgeBase.title e /\
  KnowledgeBase.content e' = KnowledgeBase.content e /\
  KnowledgeBase.category e' = KnowledgeBase.category e /\
  KnowledgeBase.keywords e' = KnowledgeBase.keywords e /\
  KnowledgeBase.priority e' = KnowledgeBase.priority e /\
  KnowledgeBase.status e' = KnowledgeBase.status e /\
  KnowledgeBase.usefulness_count e' = KnowledgeBase.usefulness_count e.

(** ** Pooling of the search passes (simple_main.py, analyze_root_cause) *)

(** The loop that fills [unique_training_matches] and [unique_kb_matches]
    from the pooled matches; [seen] is [seen_training_ids] or
    [seen_kb_ids]. *)
Fixpoint dedupe_by_id {A} (id : A -> Z) (seen : gset Z) (matches : list A) : list A :=
  match matches with
  | [] => []
  | m :: rest =>
      if bool_decide (id m ∈ seen) then dedupe_by_id id seen rest
      else m :: dedupe_by_id id ({[id m]} ∪ seen) rest
  end.

(** [unique_training_matches] for the three pools of matches. *)
Definition unique_training_matches
    (exact_matches keyword_matches category_matches : list TrainingData.t)
    : list TrainingData.t :=
  dedupe_by_id TrainingData.id ∅ (exact_matches ++ keyword_matches ++ category_matches).

(** [unique_kb_matches] *)
Definition unique_kb_matches
    (exact_matches keyword_matches category_matches : list KnowledgeBase.t)
    : list KnowledgeBase.t :=
  dedupe_by_id KnowledgeBase.id ∅ (exact_matches ++ keyword_matches ++ category_matches).

(** ** EDI error analysis (app/services/operational_data_service.py) *)

Module Edi.

(** A row of [edi_message] with the container its relationship loads. *)
Record EDIMessage := mk_message {
  edi_id : Z;
  message_type : string;
  status : string;
  message_ref : string;
  sender : string;
  receiver : string;
  sent_at : Z;
  error_text : option string;
  container : option Ops.Container
}.

(** The ["container"] entry of the analysis. *)
Record container_context := mk_context {
  ctx_cntr_no : string;
  ctx_status : string;
  ctx_vessel_id : option Z
}.

(** The dictionary of a found message. *)
Record analysis := mk_analysis {
  a_message_ref : string;
  a_type : string;
  a_status : string;
  a_error_text : option string;
  a_sent_at : string;
  a_sender : string;
  a_receiver : string;
  a_container : option container_context;
  a_root_cause : option string;
  a_solution : option string
}.

(** [get_edi_by_reference] *)
Definition get_edi_by_reference (messages : list EDIMessage) (ref : string)
    : option EDIMessage :=
  List.find (fun m => bool_decide (message_ref m = ref)) messages.

(** The chain on the lowercased error text: the pair of root cause and
    solution it sets, if any. *)
Definition classify (error_lower : string) : option (string * string) :=
  if PyStr.contains "segment missing" error_lower then
    Some ("EDI message structure incomplete - required segment not found",
          "Verify sender's EDI message template and segment ordering")
  else if PyStr.contains "validation" error_lower then
    Some ("EDI message validation failed - invalid data format or values",
          "Check data type constraints and code list values")
  else if PyStr.contains "timeout" error_lower then
    Some ("EDI processing timeout - message too large or system overload",
          "Review message size limits and system performance")
  else None.

(** [analyze_edi_error]; [None] is the answer [{"found": False}]. *)
Definition analyze_edi_error (isoformat : Z -> string) (messages : list EDIMessage)
    (ref : string) : option analysis :=
  match get_edi_by_reference messages ref with
  | None => None
  | Some edi =>
      let verdict :=
        match error_text edi with
        | Some text => if bool_decide (text = "") then None
                       else classify (PyStr.lower text)
        | None => None
        end in
      Some (mk_analysis ref (message_type edi) (status edi) (error_text edi)
              (isoformat (sent_at edi)) (sender edi) (receiver edi)
              ((fun c => mk_context (Ops.cntr_no c) (Ops.status_value (Ops.status c))
                           (Ops.vessel_id c)) <$> container edi)
              (fst <$> verdict) (snd <$> verdict))
  end.

(** The analysis as the hypothesis builder reads it ([edi['type']],
    [edi['message_ref']], [edi['error_text']], [edi.get("root_cause")],
    [edi.get("solution", ...)]); [str(None)] is ["None"]. *)
Definition finding_of (a : analysis) : Hypotheses.edi_finding :=
  Hypotheses.mk_edi_finding (a_type a) (a_message_ref a)
    (default "None" (a_error_text a)) (a_root_cause a) (a_solution a).

End Edi.


(** ** The correlation loops ([correlate_incident],
    app/services/operational_data_service.py) *)

Module Correlate.

Section Loops.

Variable isoformat : Z -> string.
Variable format_seconds : Z -> string.

(** Whether [get_vessel_by_name] finds a row: the test is an SQL [ILIKE]
    of the database. *)
Variable vessel_found : string -> bool.

(** The loop over [identifiers['containers']]: a finding for every number
    that has rows. *)
Definition container_findings (db : Ops.ops_db) (containers : list string)
    : list Hypotheses.container_finding :=
  omap (fun cntr_no =>
          let dup_analysis :=
            Ops.detect_container_duplicates isoformat format_seconds db cntr_no in
          match Ops.get_container_by_number db cntr_no with
          | [] => None
          | _ => Some (Hypotheses.mk_container_finding cntr_no dup_analysis)
          end)
       containers.

(** The loop over [identifiers['vessels']]. *)
Definition vessel_findings (db : Ops.ops_db) (vessels : list string)
    : list Hypotheses.vessel_finding :=
  omap (fun vessel_name =>
          if vessel_found vessel_name
          then Some (Hypotheses.mk_vessel_finding vessel_name
                       (Ops.detect_vessel_advice_conflict isoformat db vessel_name))
          else None)
       vessels.

(** The loop over [identifiers['edi_refs']]: the analyses that are found. *)
Definition edi_findings (messages : list Edi.EDIMessage) (edi_refs : list string)
    : list Hypotheses.edi_finding :=
  omap (fun ref => Edi.finding_of <$> Edi.analyze_edi_error isoformat messages ref)
       edi_refs.

(** The entries of [correlation_result["findings"]] that the hypothesis
    builder reads. *)
Definition findings (db : Ops.ops_db) (messages : list Edi.EDIMessage)
    (containers vessels edi_refs : list string) : Hypotheses.findings :=
  Hypotheses.mk_findings (container_findings db containers)
    (vessel_findings db vessels) (edi_findings messages edi_refs).

End Loops.

(** The identifiers that lead to a hypothesis. *)
Definition duplicated (db : Ops.ops_db) (cntr_no : string) : bool :=
  (2 <=? length (Ops.get_container_by_number db cntr_no))%nat.

Definition single_active (db : Ops.ops_db) (vessel_name : string) : bool :=
  (length (List.filter Ops.is_active (Ops.get_vessel_advice_by_name db vessel_name))
   =? 1)%nat.

Definition classified (messages : list Edi.EDIMessage) (ref : string) : bool :=
  match Edi.get_edi_by_reference messages ref with
  | Some m =>
      match Edi.error_text m with
      | Some text =>
          let error_lower := PyStr.lower text in
          PyStr.contains "segment missing" error_lower ||
          PyStr.contains "validation" error_lower ||
          PyStr.contains "timeout" error_lower
      | None => false
      end
  | None => false
  end.

End Correlate.

(** ** Log analysis (app/services/log_analyzer_service.py) *)

Module LogAnalyzer.

(** The columns of [SystemLog] that the analyzer reads. *)
Record SystemLog := mk_log {
  timestamp : Z;
  level : option string;
  message : string;
  service : option string
}.

(** [log.level in ['ERROR', 'CRITICAL', 'FATAL']] *)
Definition is_error (log : SystemLog) : bool :=
  match level log with
  | Some l => bool_decide (l = "ERROR") || bool_decide (l = "CRITICAL") ||
              bool_decide (l = "FATAL")
  | None => false
  end.

(** [log.level == 'WARN'] *)
Definition is_warn (log : SystemLog) : bool := bool_decide (level log = Some "WARN").

(** [any(keyword in message_lower for keyword in keywords)] *)
Definition any_keyword (keywords : list string) (message_lower : string) : bool :=
  existsb (fun keyword => PyStr.contains keyword message_lower) keywords.

(** [' '.join(l)] *)
Fixpoint join_space (l : list string) : string :=
  match l with
  | [] => ""
  | [w] => w
  | w :: rest => w +:+ " " +:+ join_space rest
  end.

(** [log.service or "Unknown"] *)
Definition service_name (log : SystemLog) : string :=
  match service log with
  | Some s => Fusion.str_or s "Unknown"
  | None => "Unknown"
  end.

Section Rendering.

(** [strftime('%H:%M:%S')], [isoformat()] and the format [.1f] of a rate
    belong to the Python library. *)
Variable strftime : Z -> string.
Variable isoformat : Z -> string.
Variable format_rate : Q -> string.

(** [_identify_contributing_factors] *)
Definition identify_contributing_factors (logs : list SystemLog) : list string :=
  let warnings := List.filter is_warn logs in
  let errors := List.filter is_error logs in
  let messages :=
    join_space (map (fun log => PyStr.lower (message log)) (firstn 50 logs)) in
  (match warnings with
   | [] => []
   | _ => ["System issued " +:+ str_of_Z (Z.of_nat (length warnings)) +:+
           " warnings before failure"]
   end)
  ++
  (if (10 <? length errors)%nat then
     match logs with
     | [] => []
     | first_log :: _ =>
         let time_span := timestamp (List.last logs first_log) - timestamp first_log in
         if 0 <? time_span then
           let rate := (Qnat (length errors) / (inject_Z time_span / 1000000))%Q in
           if Qltb 1 rate
           then ["High error rate: " +:+ format_rate rate +:+ " errors/second"]
           else []
         else []
     end
   else [])
  ++
  (if PyStr.contains "batch" messages || PyStr.contains "scheduled" messages
   then ["Incident coincides with batch job execution"] else [])
  ++
  (if PyStr.contains "spike" messages || PyStr.contains "load" messages
   then ["System load spike detected"] else []).

(** The chain of tests on the first error's message: root cause,
    confidence and the extra evidence line. *)
Definition diagnose (first_message : string) : string * Q * list string :=
  let message_lower := PyStr.lower first_message in
  if any_keyword ["connection"; "timeout"; "pool"] message_lower then
    ("Database connection pool exhaustion or timeout", 85 # 100,
     ["Multiple connection-related errors detected"])
  else if any_keyword ["memory"; "heap"; "oom"] message_lower then
    ("Memory exhaustion (Out of Memory)", 90 # 100, ["Memory-related errors detected"])
  else if any_keyword ["network"; "unreachable"; "refused"] message_lower then
    ("Network connectivity issue", 80 # 100, ["Network-related errors detected"])
  else if any_keyword ["deadlock"; "lock timeout"] message_lower then
    ("Database deadlock or lock contention", 88 # 100, ["Lock-related errors detected"])
  else (PyStr.take 200 first_message, 60 # 100, []).

(** [extract_root_cause_candidates] *)
Definition extract_root_cause_candidates (logs : list SystemLog)
    (incident_description : string) : list Hypotheses.RootCauseHypothesis :=
  let critical_errors := List.filter is_error logs in
  match critical_errors with
  | [] => []
  | e0 :: _ =>
      let critical_errors := PyList.sort_by Z.leb timestamp false critical_errors in
      let first_error := List.hd e0 critical_errors in
      let evidence :=
        [ "First error occurred at " +:+ strftime (timestamp first_error);
          "Error message: " +:+ PyStr.take 200 (message first_error);
          "Total errors in cascade: " +:+
            str_of_Z (Z.of_nat (length critical_errors)) ] in
      let '(root_cause, confidence, more) := diagnose (message first_error) in
      [ Hypotheses.mk_hypothesis root_cause confidence (evidence ++ more)
          (identify_contributing_factors logs) ]
  end.

(** An entry of the list [detect_error_cascade] returns; [cascade_from]
    is absent unless the entry is linked to the log before it. *)
Record cascade_item := mk_cascade_item {
  ci_timestamp : string;
  ci_level : option string;
  ci_message : string;
  ci_service : string;
  cascade_from : option nat
}.

(** The body of the loop for the index [i] and its log. *)
Definition cascade_entry (sorted_logs : list SystemLog) (i : nat) (log : SystemLog)
    : option cascade_item :=
  if is_error log then
    Some (mk_cascade_item (isoformat (timestamp log)) (level log)
            (PyStr.take 150 (message log)) (service_name log)
            (if (0 <? i)%nat then
               match sorted_logs !! (i - 1)%nat with
               | Some previous =>
                   let time_diff := timestamp log - timestamp previous in
                   if (time_diff <=? 5 * 1000000) && is_error previous
                   then Some (i - 1)%nat else None
               | None => None
               end
             else None))
  else None.

(** [detect_error_cascade] *)
Definition detect_error_cascade (logs : list SystemLog) : list cascade_item :=
  let sorted_logs := PyList.sort_by Z.leb timestamp false logs in
  omap (fun '(i, log) => cascade_entry sorted_logs i log)
       (zip (seq 0 (length sorted_logs)) sorted_logs).

(** An entry of the timeline. *)
Record timeline_event := mk_timeline_event {
  te_timestamp : string;
  te_type : option string;
  te_message : string;
  te_service : string;
  te_is_critical : bool
}.

(** [build_timeline]; the incident's start and end are not read. *)
Definition build_timeline (logs : list SystemLog) (incident_start : Z)
    (incident_end : option Z) : list timeline_event :=
  let sorted_logs := PyList.sort_by Z.leb timestamp false logs in
  let timeline :=
    map (fun log =>
           mk_timeline_event (isoformat (timestamp log)) (level log)
             (PyStr.take 150 (message log)) (service_name log) (is_error log))
        (List.filter (fun log => is_error log || is_warn log) sorted_logs) in
  PyList.slice_to 50 timeline.

End Rendering.

(** *** Repeated errors *)

(** The class [[a-f0-9-]]. *)
Definition hex_or_dash (c : ascii) : bool :=
  PyStr.in_range 97 102 c || PyStr.is_digit c || (PyStr.code c =? 45)%N.

(** What a run of class characters becomes: the replacement when the run
    has [min] characters or more, itself otherwise; [cur] is the run,
    reversed. *)
Definition flush_run (min : nat) (repl cur : string) : string :=
  match cur with
  | EmptyString => EmptyString
  | _ => if (min <=? String.length cur)%nat then repl else String.rev cur
  end.

Fixpoint sub_go (p : ascii -> bool) (min : nat) (repl cur s : string) : string :=
  match s with
  | EmptyString => flush_run min repl cur
  | String c s' =>
      if p c then sub_go p min repl (String c cur) s'
      else flush_run min repl cur +:+ String c (sub_go p min repl EmptyString s')
  end.

(** [re.sub(p{min,}, repl, s)] for a class [p] and [min >= 1]: a match is
    a maximal run of the class. *)
Definition sub_runs (p : ascii -> bool) (min : nat) (repl s : string) : string :=
  sub_go p min repl EmptyString s.

(** [_normalize_error_message] *)
Definition normalize_error_message (message : string) : string :=
  let normalized := sub_runs PyStr.is_digit 1 "N" message in
  let normalized := sub_runs hex_or_dash 32 "ID" normalized in
  PyStr.strip (PyStr.lower normalized).

(** The key of a log in [error_groups]. *)
Definition error_key (log : SystemLog) : string :=
  PyStr.take 50 (normalize_error_message (message log)).

(** [error_groups[error_key].append(log)] on a dictionary that keeps the
    order in which its keys were added. *)
Fixpoint add_to_group (key : string) (log : SystemLog)
    (error_groups : list (string * list SystemLog)) : list (string * list SystemLog) :=
  match error_groups with
  | [] => [(key, [log])]
  | (k, group_logs) :: rest =>
      if bool_decide (k = key) then (k, group_logs ++ [log]) :: rest
      else (k, group_logs) :: add_to_group key log rest
  end.

(** The first loop of [detect_error_patterns]. *)
Definition group_errors (logs : list SystemLog) : list (string * list SystemLog) :=
  fold_left
    (fun error_groups log =>
       if is_error log then add_to_group (error_key log) log error_groups
       else error_groups)
    logs [].

(** [ErrorPattern] *)
Record ErrorPattern := mk_pattern {
  pattern_type : string;
  ep_description : string;
  occurrences : nat;
  first_seen : Z;
  last_seen : Z
}.

(** The pattern of a group, if it has two logs or more. *)
Definition pattern_of (group_logs : list SystemLog) : option ErrorPattern :=
  match group_logs with
  | [] => None
  | first_log :: rest =>
      if (2 <=? length group_logs)%nat then
        Some (mk_pattern "REPEATED_ERROR" (PyStr.take 200 (message first_log))
                (length group_logs)
                (fold_right Z.min (timestamp first_log) (map timestamp rest))
                (fold_right Z.max (timestamp first_log) (map timestamp rest)))
      else None
  end.

(** [detect_error_patterns] *)
Definition detect_error_patterns (logs : list SystemLog) : list ErrorPattern :=
  omap (fun '(error_key, group_logs) => pattern_of group_logs) (group_errors logs).

(** The error logs of a key. *)
Definition with_key (key : string) (log : SystemLog) : bool :=
  is_error log && bool_decide (error_key log = key).

End LogAnalyzer.

(** ** The shape of a fingerprint *)

(** A lower-case letter, a digit or the underscore. *)
Definition fingerprint_char (c : ascii) : bool :=
  PyStr.is_lower c || PyStr.is_digit c || (PyStr.code c =? 95)%N.

(** Every character of [s] passes [p]. *)
Fixpoint all_chars (p : ascii -> bool) (s : string) : bool :=
  match s with
  | EmptyString => true
  | String c s' => p c && all_chars p s'
  end.

(** ** Sample logs and messages *)

Definition demo_logs : list LogAnalyzer.SystemLog :=
  [ LogAnalyzer.mk_log (Ops.microseconds 12) (Some "ERROR") "Request 15 failed" (Some "api");
    LogAnalyzer.mk_log (Ops.microseconds 0) (Some "INFO") "Batch job started" None;
    LogAnalyzer.mk_log (Ops.microseconds 10) (Some "CRITICAL")
      "Lock timeout on table vessel_advice" (Some "");
    LogAnalyzer.mk_log (Ops.microseconds 30) (Some "ERROR") "Request 7 failed" (Some "api");
    LogAnalyzer.mk_log (Ops.microseconds 5) (Some "WARN") "Queue is long" (Some "mq") ].

Definition demo_messages : list Edi.EDIMessage :=
  [ Edi.mk_message 1 "COARRI" "ERROR" "REF-IFT-0007" "PARTNER-A" "PSA" 0
      (Some "Segment missing after validation TIMEOUT") None;
    Edi.mk_message 2 "CODECO" "SENT" "REF-COD-0001" "PARTNER-B" "PSA" 5 None None ].

(** ** Texts of the ASCII range *)

(** A character of the ASCII range. *)
Definition is_ascii (c : ascii) : bool := (PyStr.code c <? 128)%N.

(** A text the conventions of the embedding read as the code does: every
    one of its characters is in the ASCII range. *)
Definition ascii_text (s : string) : Prop := all_chars is_ascii s = true.

(** ** The two ledger routes with their [except] branch
    (simple_main.py, app/api_unmark_step_useful.py) *)

Module Route.

(** An integer that SQLite stores: a signed 64-bit value.  Binding
    another one to a statement raises [OverflowError]. *)
Definition int64 (n : Z) : bool := (- 2 ^ 63 <=? n) && (n <? 2 ^ 63).

Definition opt_int64 (x : option Z) : bool :=
  match x with Some n => int64 n | None => true end.

(** The integers of the request that the first query binds. *)
Definition bindable (k : Ledger.identity) : bool :=
  int64 (Ledger.step_order k) && opt_int64 (Ledger.knowledge_base_id k) &&
  opt_int64 (Ledger.training_data_id k) && opt_int64 (Ledger.rca_id k).

(** The counters that the commit of [mark_step_useful] writes: the one of
    the existing ledger row, and the one of the knowledge or training row
    of the request, each raised by one. *)
Definition written_counters (d : Ledger.db) (k : Ledger.identity) : list Z :=
  match Ledger.first (Ledger.same_identity k) (Ledger.solution_feedback d) with
  | Some row => [SolutionFeedback.usefulness_count row + 1]
  | None => []
  end ++
  if Ledger.truthy (Ledger.knowledge_base_id k) then
    match Ledger.first
            (fun e => KnowledgeBase.id e =? default 0 (Ledger.knowledge_base_id k))
            (Ledger.knowledge_base d) with
    | Some e => [KnowledgeBase.usefulness_count e + 1]
    | None => []
    end
  else if Ledger.truthy (Ledger.training_data_id k) then
    match Ledger.first
            (fun e => TrainingData.id e =? default 0 (Ledger.training_data_id k))
            (Ledger.training_data d) with
    | Some e => [TrainingData.usefulness_count_int e + 1]
    | None => []
    end
  else [].

(** [mark_step_useful]: the [try] block is [Ledger.mark_step_useful]; an
    integer that SQLite cannot take raises in the first query or in the
    commit, and the [except] branch rolls back and answers the error. *)
Definition mark_step_useful (d : Ledger.db) (now : Z) (k : Ledger.identity)
    (incident_description : option string) (step_type : string)
    : Ledger.db * Ledger.mark_response :=
  if bindable k && forallb int64 (written_counters d k)
  then Ledger.mark_step_useful d now k incident_description step_type
  else (d, Ledger.MarkError).

(** [unmark_step_useful]: its commit writes counters lowered by one,
    which SQLite always takes; the first query raises as above. *)
Definition unmark_step_useful (d : Ledger.db) (now : Z) (k : Ledger.identity)
    : Ledger.db * Ledger.unmark_response :=
  if bindable k then Ledger.unmark_step_useful d now k
  else (d, Ledger.UnmarkError).

(** A sequence of [mark_step_useful] requests for one identity: the
    store after them and their answers. *)
Definition mark_all (d : Ledger.db) (k : Ledger.identity)
    (requests : list (Z * option string * string))
    : Ledger.db * list Ledger.mark_response :=
  fold_left
    (fun acc r =>
       let step := mark_step_useful (fst acc) (fst (fst r)) k (snd (fst r)) (snd r) in
       (fst step, snd acc ++ [snd step]))
    requests (d, []).

End Route.

(** An identity whose step order is one above the largest integer of
    SQLite. *)
Definition demo_identity_overflow : Ledger.identity :=
  Ledger.mk_identity "Restart the gateway" (2 ^ 63) None (Some 2) None.

(** ** The recommended solutions that the route saves and returns
    (simple_main.py, analyze_root_cause) *)

Module Recommended.

(** A dictionary of the fallback branch; it has no feedback keys. *)
Record fallback := mk_fallback {
  fb_order : Z;
  fb_title : string;
  fb_description : string;
  fb_type : string;
  fb_source : string;
  fb_category : string;
  fb_relevance_score : Z;
  fb_match_type : string;
  fb_usefulness_count : Z
}.

(** An element of [recommended_solutions_data]. *)
Inductive t :=
  | training (s : Fusion.solution)
  | general (f : fallback).

Definition fallback_solutions : list fallback :=
  [ mk_fallback 1 "Fallback Solution #1: Check System Logs"
      "Review system logs around the incident time to identify error patterns and root causes."
      "General Troubleshooting" "Fallback Guidance" "General" 75 "fallback" 0;
    mk_fallback 2 "Fallback Solution #2: Contact Support Team"
      "Escalate to technical support team with incident details and timeline information."
      "Escalation Procedure" "Fallback Guidance" "Support" 70 "fallback" 0 ].

(** [recommended_solutions_data] after the branch
    [if not recommended_solutions_data], as it is saved and returned. *)
Definition recommended_solutions (feedback : list SolutionFeedback.t)
    (top_training : list Fusion.scored_match) : list t :=
  match Fusion.final_solutions feedback top_training with
  | [] => map general fallback_solutions
  | recommended_solutions_data => map training recommended_solutions_data
  end.

(** The keys that every element has. *)
Definition order (x : t) : Z :=
  match x with training s => Fusion.order s | general f => fb_order f end.

Definition description (x : t) : string :=
  match x with training s => Fusion.description s | general f => fb_description f end.

Definition type_ (x : t) : string :=
  match x with training s => Fusion.type_ s | general f => fb_type f end.

Definition relevance_score (x : t) : Z :=
  match x with
  | training s => Fusion.relevance_score s
  | general f => fb_relevance_score f
  end.

(** The description as the deduplication compares it. *)
Definition normalized (x : t) : string := PyStr.strip (PyStr.lower (description x)).

End Recommended.

(** ** The scorers and the retrieval in IEEE doubles
    (app/models/database.py, app/services) *)

Module Double.
Import PrimFloat.

(** [float(n)] for an [int]: the nearest double, ties to even; Python
    raises [OverflowError] when that one is not finite. *)
Definition of_int (n : Z) : option float :=
  let x :=
    FloatOps.SF2Prim (SpecFloat.binary_normalize FloatOps.prec FloatOps.emax n 0 false) in
  if is_finite x then Some x else None.

(** A [len(...)] as a double.  The lengths divided here are set sizes,
    below 2^53, where [a / b] on integers is the quotient of the two
    doubles. *)
Definition of_nat (n : nat) : float :=
  FloatOps.SF2Prim
    (SpecFloat.binary_normalize FloatOps.prec FloatOps.emax (Z.of_nat n) 0 false).

(** [min(a, b)]: the first argument unless the second is smaller. *)
Definition min (a b : float) : float := if (b <? a)%float then b else a.

(** *** The order of doubles *)

(** The position of a double on the line: its class, then its exponent
    and mantissa, both counted downwards for a negative number. *)
Definition SFkey (x : SpecFloat.spec_float) : Z * Z * Z :=
  match x with
  | SpecFloat.S754_nan => (0, 0, 0)
  | SpecFloat.S754_zero _ => (0, 0, 0)
  | SpecFloat.S754_infinity true => (-2, 0, 0)
  | SpecFloat.S754_infinity false => (2, 0, 0)
  | SpecFloat.S754_finite true m e => (-1, - e, Zneg m)
  | SpecFloat.S754_finite false m e => (1, e, Zpos m)
  end.

Definition lex (a b : Z * Z * Z) : comparison :=
  match fst (fst a) ?= fst (fst b) with
  | Eq => match snd (fst a) ?= snd (fst b) with
          | Eq => snd a ?= snd b
          | c => c
          end
  | c => c
  end.

Definition lexle (a b : Z * Z * Z) : Prop :=
  fst (fst a) < fst (fst b) \/
  (fst (fst a) = fst (fst b) /\
   (snd (fst a) < snd (fst b) \/ (snd (fst a) = snd (fst b) /\ snd a <= snd b))).

(** A double that is a number. *)
Definition is_number (x : float) : Prop := FloatOps.Prim2SF x <> SpecFloat.S754_nan.

(** A double that is zero or finite. *)
Definition SFreal (x : SpecFloat.spec_float) : bool :=
  match x with
  | SpecFloat.S754_zero _ | SpecFloat.S754_finite _ _ _ => true
  | _ => false
  end.

(** *** The scorers *)

(** [TrainingData.calculate_similarity(self, query)] *)
Definition calculate_similarity (self : TrainingData.t) (query : string) : float :=
  let query_lower := PyStr.lower query in
  let description_lower := PyStr.lower (TrainingData.incident_description self) in
  let query_words := PyStr.word_set query_lower in
  let description_words := PyStr.word_set description_lower in
  if bool_decide (query_words = ∅) then 0.0%float
  else
    let intersection := query_words ∩ description_words in
    let union := query_words ∪ description_words in
    let jaccard :=
      if bool_decide (union = ∅) then 0.0%float
      else (of_nat (size intersection) / of_nat (size union))%float in
    let phrase_bonus :=
      if PyStr.contains query_lower description_lower then 0.2%float else 0.0%float in
    let category_bonus :=
      if PyStr.contains (PyStr.lower (TrainingData.category self)) query_lower
      then 0.1%float else 0.0%float in
    min (jaccard + phrase_bonus + category_bonus)%float 1.0%float.

(** [KnowledgeBase.calculate_relevance(self, query)] at clock reading
    [now]; [None] when an integer column does not convert to a double. *)
Definition calculate_relevance (self : KnowledgeBase.t) (now : Z) (query : string)
    : option float :=
  let query_lower := PyStr.lower query in
  let content_lower := PyStr.lower (KnowledgeBase.content self) in
  let title_lower := PyStr.lower (KnowledgeBase.title self) in
  let keywords_lower := PyStr.lower (KnowledgeBase.keywords self) in
  let score := 0.0%float in
  let score :=
    if PyStr.contains query_lower title_lower then (score + 0.4)%float else score in
  let score :=
    if PyStr.contains query_lower content_lower then (score + 0.3)%float else score in
  let score :=
    if PyStr.contains query_lower keywords_lower then (score + 0.2)%float else score in
  let query_words := PyStr.word_set query_lower in
  let title_words := PyStr.word_set title_lower in
  let content_words := PyStr.word_set content_lower in
  let title_matches := size (query_words ∩ title_words) in
  let score :=
    if (0 <? title_matches)%nat
    then (score + 0.2 * (of_nat title_matches / of_nat (size query_words)))%float
    else score in
  let content_matches := size (query_words ∩ content_words) in
  let score :=
    if (0 <? content_matches)%nat
    then (score + 0.1 * (of_nat content_matches / of_nat (size query_words)))%float
    else score in
  priority ← of_int (KnowledgeBase.priority self);
  let priority_bonus := (priority * 0.05)%float in
  let score := (score + priority_bonus)%float in
  score ←
    match KnowledgeBase.last_used self with
    | Some last =>
        if 0 <? KnowledgeBase.view_count self then
          let days_since_use := KnowledgeBase.days_between now last in
          view_count ← of_int (KnowledgeBase.view_count self);
          days ← of_int (Z.max days_since_use 1);
          let usage_bonus := min 0.1%float (view_count * 0.01 / days)%float in
          Some (score + usage_bonus)%float
        else Some score
    | None => Some score
    end;
  Some (min score 1.0%float).

(** The loop of [find_relevant_examples_async] that fills
    [scored_examples]; [None] when an iteration raises. *)
Fixpoint scored_examples (all_training : list TrainingData.t) (query : string)
    : option (list (TrainingData.t * float)) :=
  match all_training with
  | [] => Some []
  | example :: rest =>
      let similarity := calculate_similarity example query in
      if (0.1 <? similarity)%float then
        count ← of_int (TrainingData.usefulness_count_int example);
        let usefulness_boost := (count * 0.05)%float in
        let combined_score := (similarity + usefulness_boost)%float in
        scored ← scored_examples rest query;
        Some ((example, combined_score) :: scored)
      else scored_examples rest query
  end.

(** [scored_examples[:limit]] after the sort; the empty list stands for
    the [except] branch. *)
Definition top_examples (db : list TrainingData.t) (query : string) (limit : Z)
    : list (TrainingData.t * float) :=
  match scored_examples (TrainingDataService.validated db) query with
  | Some scored => PyList.slice_to limit (PyList.sort_by leb snd true scored)
  | None => []
  end.

(** [find_relevant_examples_async(query, limit)] *)
Definition find_relevant_examples_async (db : list TrainingData.t)
    (query : string) (limit : Z) : list TrainingData.t :=
  map fst (top_examples db query limit).

(** The loop of [find_relevant_knowledge_async] that fills
    [scored_entries]; [None] when an iteration raises. *)
Fixpoint scored_entries (all_knowledge : list KnowledgeBase.t) (now : Z)
    (query : string) : option (list (KnowledgeBase.t * float)) :=
  match all_knowledge with
  | [] => Some []
  | entry :: rest =>
      relevance ← calculate_relevance entry now query;
      if (0.1 <? relevance)%float then
        count ← of_int (KnowledgeBase.usefulness_count entry);
        let usefulness_boost := (count * 0.05)%float in
        let combined_score := (relevance + usefulness_boost)%float in
        scored ← scored_entries rest now query;
        Some ((entry, combined_score) :: scored)
      else scored_entries rest now query
  end.

Definition top_entries (db : list KnowledgeBase.t) (now : Z) (query : string)
    (limit : Z) : list (KnowledgeBase.t * float) :=
  match scored_entries (KnowledgeBaseService.active db) now query with
  | Some scored => PyList.slice_to limit (PyList.sort_by leb snd true scored)
  | None => []
  end.

(** [find_relevant_knowledge_async(query, limit)] on the session [db] at
    clock reading [now]: the returned list, and the session after the
    usage statistics of the returned rows were updated in place. *)
Definition find_relevant_knowledge_async (db : list KnowledgeBase.t) (now : Z)
    (query : string) (limit : Z) : list KnowledgeBase.t * list KnowledgeBase.t :=
  let top := top_entries db now query limit in
  let hit (e : KnowledgeBase.t) :=
    existsb (fun p => KnowledgeBase.id (fst p) =? KnowledgeBase.id e) top in
  (map (fun p => KnowledgeBaseService.touch now (fst p)) top,
   map (fun e =>
          if bool_decide (KnowledgeBase.status e = "Active") && hit e
          then KnowledgeBaseService.touch now e else e) db).

(** Both scoring loops over any kind of document: [base] is the scorer
    and [count] the usefulness counter. *)
Fixpoint scored {A} (base : A -> option float) (count : A -> Z) (eligible : list A)
    : option (list (A * float)) :=
  match eligible with
  | [] => Some []
  | e :: rest =>
      relevance ← base e;
      if (0.1 <? relevance)%float then
        boost ← of_int (count e);
        tail ← scored base count rest;
        Some ((e, (relevance + boost * 0.05)%float) :: tail)
      else scored base count rest
  end.

(** The documents that pass the threshold, each with its combined score,
    in corpus order; a document whose score raises is none of them. *)
Definition candidates {A} (base : A -> option float) (count : A -> Z)
    (eligible : list A) : list (A * float) :=
  omap (fun e =>
          relevance ← base e;
          if (0.1 <? relevance)%float then
            count ← of_int (count e);
            Some (e, (relevance + count * 0.05)%float)
          else None)
       eligible.

(** What the specification asks of a ranked answer [top] (documents paired
    with their combined score) drawn from the eligible documents: at most
    [limit] of them, each scoring above 0.1 before the boost, in
    descending order of combined score, the documents of one combined
    score in the order the corpus lists them. *)
Definition ranked_answer {A} (eligible : list A) (base : A -> option float)
    (count : A -> Z) (limit : Z) (top : list (A * float)) : Prop :=
  Z.of_nat (length top) <= limit /\
  Forall (fun p =>
            In (fst p) eligible /\
            exists relevance boost,
              base (fst p) = Some relevance /\ (0.1 <? relevance)%float = true /\
              of_int (count (fst p)) = Some boost /\
              snd p = (relevance + boost * 0.05)%float) top /\
  StronglySorted (fun p q => (snd q <=? snd p)%float = true) top /\
  forall k : float,
    List.filter (fun p => (snd p =? k)%float) top
    `prefix_of`
    List.filter (fun p => (snd p =? k)%float) (candidates base count eligible).

(** A corpus row whose texts are ASCII. *)
Definition ascii_example (e : TrainingData.t) : Prop :=
  ascii_text (TrainingData.incident_description e) /\
  ascii_text (TrainingData.category e).

Definition ascii_entry (e : KnowledgeBase.t) : Prop :=
  ascii_text (KnowledgeBase.title e) /\ ascii_text (KnowledgeBase.content e) /\
  ascii_text (KnowledgeBase.keywords e).

End Double.

(** Two validated cases whose combined scores are 1/4 + 0.05 and
    1/5 + 2 * 0.05 for the query "gateway timeout". *)
Definition td_rounding : list TrainingData.t :=
  [ TrainingData.mk 1 "gateway restart failed" "Restart the gateway" "EDI" "" 1 (Some 1);
    TrainingData.mk 2 "gateway link is down" "Check the link" "EDI" "" 1 (Some 2) ].

(** An entry whose relevance for "vessel berth delay at terminal" is
    0.2 * (2 / 5) + 0.1 * (1 / 5). *)
Definition kb_rounding : list KnowledgeBase.t :=
  [ KnowledgeBase.mk 1 "berth vessel" "delay" "" "" 0 "Active" 0 0 None ].
(** * Properties *)

(** ** String primitives *)

Lemma starts_with_empty s : PyStr.starts_with "" s = true.
Proof. by destruct s. Qed.

Lemma contains_empty s : PyStr.contains "" s = true.
Proof. destruct s; done. Qed.

Example split_demo :
  PyStr.split "  Duplicate  container info " = ["Duplicate"; "container"; "info"].
Proof. reflexivity. Qed.

Example strip_demo : PyStr.strip "  Restart the  Gateway  " = "Restart the  Gateway".
Proof. reflexivity. Qed.

Example lower_demo : PyStr.lower "VESSEL_ERR_4 Raised" = "vessel_err_4 raised".
Proof. reflexivity. Qed.

(** ** Rational arithmetic used by the scorers *)

Lemma Qnat_nonneg n : (0 <= Qnat n)%Q.
Proof.
  unfold Qnat. change 0%Q with (inject_Z 0). rewrite <- Zle_Qle. lia.
Qed.

Lemma Qnat_pos n : (0 < n)%nat -> (0 < Qnat n)%Q.
Proof.
  intros Hn. unfold Qnat. change 0%Q with (inject_Z 0). rewrite <- Zlt_Qlt. lia.
Qed.

Lemma Qnat_le a b : (a <= b)%nat -> (Qnat a <= Qnat b)%Q.
Proof. intros Hab. unfold Qnat. rewrite <- Zle_Qle. lia. Qed.

(** A quotient of counts [a <= b] is a fraction of one, also when [b] is 0. *)
Lemma Qnat_frac_bounds a b :
  (a <= b)%nat -> (0 <= Qnat a / Qnat b /\ Qnat a / Qnat b <= 1)%Q.
Proof.
  intros Hab. destruct (Nat.eq_dec b 0%nat) as [->|Hb].
  - assert (a = 0%nat) as -> by lia. split; discriminate.
  - assert (0 < Qnat b)%Q as Hpos by (apply Qnat_pos; lia). split.
    + apply Qle_shift_div_l; [done|]. rewrite Qmult_0_l. apply Qnat_nonneg.
    + apply Qle_shift_div_r; [done|]. rewrite Qmult_1_l. by apply Qnat_le.
Qed.

Lemma Qltb_lt x y : Qltb x y = true <-> (x < y)%Q.
Proof.
  unfold Qltb. rewrite negb_true_iff. split.
  - intros Hb. apply Qnot_le_lt. intros Hle.
    apply Qle_bool_iff in Hle. congruence.
  - intros Hlt. destruct (Qle_bool y x) eqn:Hb; [|done].
    apply Qle_bool_iff in Hb. apply Qle_not_lt in Hb. contradiction.
Qed.

(** ** Scorers *)

Lemma word_set_empty : PyStr.word_set "" = ∅.
Proof. reflexivity. Qed.

Lemma calculate_similarity_range self query :
  (0 <= TrainingData.calculate_similarity self query <= 1)%Q.
Proof.
  unfold TrainingData.calculate_similarity.
  set (qw := PyStr.word_set (PyStr.lower query)).
  set (dw := PyStr.word_set (PyStr.lower (TrainingData.incident_description self))).
  case_bool_decide as Hq; [split; discriminate|].
  assert (0 <= (if bool_decide (qw ∪ dw = ∅) then 0
                else Qnat (size (qw ∩ dw)) / Qnat (size (qw ∪ dw))))%Q as Hj.
  { case_bool_decide as Hu; [discriminate|].
    apply Qnat_frac_bounds, subseteq_size.
    etrans; [apply intersection_subseteq_l | apply union_subseteq_l]. }
  split; [|apply Q.le_min_r].
  apply Q.min_glb; [|discriminate].
  repeat match goal with |- context [if ?b then _ else _] =>
    match b with bool_decide _ => fail 1 | _ => destruct b end end; lra.
Qed.

Lemma calculate_similarity_empty_query self :
  TrainingData.calculate_similarity self "" = 0%Q.
Proof. reflexivity. Qed.

Lemma calculate_relevance_le_1 self now query :
  (KnowledgeBase.calculate_relevance self now query <= 1)%Q.
Proof. unfold KnowledgeBase.calculate_relevance. apply Q.le_min_r. Qed.

Lemma usage_bonus_nonneg (v d : Z) :
  0 < v -> (0 <= Qmin (1 # 10) (inject_Z v * (1 # 100) / inject_Z (Z.max d 1)))%Q.
Proof.
  intros Hv. apply Q.min_glb; [discriminate|].
  apply Qle_shift_div_l.
  - change 0%Q with (inject_Z 0). rewrite <- Zlt_Qlt. lia.
  - rewrite Qmult_0_l. apply Qmult_le_0_compat; [|discriminate].
    change 0%Q with (inject_Z 0). rewrite <- Zle_Qle. lia.
Qed.

Lemma calculate_relevance_nonneg self now query :
  0 <= KnowledgeBase.priority self ->
  (0 <= KnowledgeBase.calculate_relevance self now query)%Q.
Proof.
  intros Hp. unfold KnowledgeBase.calculate_relevance.
  set (qw := PyStr.word_set (PyStr.lower query)).
  set (tm := size (qw ∩ _)). set (cm := size (qw ∩ _)).
  assert (0 <= inject_Z (KnowledgeBase.priority self) * (5 # 100))%Q as Hprio.
  { apply Qmult_le_0_compat; [|discriminate].
    change 0%Q with (inject_Z 0). rewrite <- Zle_Qle. lia. }
  assert (0 <= (2 # 10) * (Qnat tm / Qnat (size qw)))%Q as Ht.
  { apply Qmult_le_0_compat; [discriminate|].
    apply Qnat_frac_bounds, subseteq_size, intersection_subseteq_l. }
  assert (0 <= (1 # 10) * (Qnat cm / Qnat (size qw)))%Q as Hc.
  { apply Qmult_le_0_compat; [discriminate|].
    apply Qnat_frac_bounds, subseteq_size, intersection_subseteq_l. }
  apply Q.min_glb; [|discriminate].
  destruct (KnowledgeBase.last_used self) as [last|].
  - destruct (0 <? KnowledgeBase.view_count self) eqn:Hv.
    + apply Z.ltb_lt in Hv.
      pose proof (usage_bonus_nonneg _ (KnowledgeBase.days_between now last) Hv).
      repeat match goal with |- context [if ?b then _ else _] => destruct b end; lra.
    + repeat match goal with |- context [if ?b then _ else _] => destruct b end; lra.
  - repeat match goal with |- context [if ?b then _ else _] => destruct b end; lra.
Qed.

(** C1 (the part that fails): on the empty query the knowledge relevance is
    not 0.0.  The empty string is a substring of the title, the content and
    the keywords, so the three phrase weights 0.4 + 0.3 + 0.2 are all
    granted; with a priority that is not negative the score is at least
    0.9, whatever the entry. *)
Theorem C1_relevance_empty_query self now :
  0 <= KnowledgeBase.priority self ->
  (9 # 10 <= KnowledgeBase.calculate_relevance self now "")%Q.
Proof.
  intros Hp. unfold KnowledgeBase.calculate_relevance.
  cbn [PyStr.lower]. rewrite !contains_empty, word_set_empty.
  rewrite !intersection_empty_l_L, size_empty. cbn [Nat.ltb Nat.leb].
  assert (0 <= inject_Z (KnowledgeBase.priority self) * (5 # 100))%Q as Hprio.
  { apply Qmult_le_0_compat; [|discriminate].
    change 0%Q with (inject_Z 0). rewrite <- Zle_Qle. lia. }
  apply Q.min_glb; [|discriminate].
  destruct (KnowledgeBase.last_used self) as [last|]; [|lra].
  destruct (0 <? KnowledgeBase.view_count self) eqn:Hv; [|lra].
  apply Z.ltb_lt in Hv.
  pose proof (usage_bonus_nonneg _ (KnowledgeBase.days_between now last) Hv). lra.
Qed.

Lemma C1_relevance_empty_query_witness :
  0 <= KnowledgeBase.priority kb_demo /\
  (9 # 10 <= KnowledgeBase.calculate_relevance kb_demo 0 "")%Q.
Proof. split; [vm_compute; discriminate | apply C1_relevance_empty_query; vm_compute; discriminate]. Defined.

Example relevance_empty_query_value :
  (KnowledgeBase.calculate_relevance kb_demo 0 "" == 95 # 100)%Q.
Proof. reflexivity. Qed.

(** C10, as stated, fails on a query of blanks: it is not the empty string,
    it shares no word and no phrase with the description, and yet the
    early return for a query without words gives 0.0 and no bonus. *)
Lemma C10_counterexample :
  let self := TrainingData.mk 7 "vessel" "" "" "" 1 None in
  let query := " " in
  TrainingData.category self = "" /\
  query <> "" /\
  PyStr.word_set (PyStr.lower query)
    ∩ PyStr.word_set (PyStr.lower (TrainingData.incident_description self)) = ∅ /\
  PyStr.contains (PyStr.lower query)
    (PyStr.lower (TrainingData.incident_description self)) = false /\
  ~ (TrainingData.calculate_similarity self query == 1 # 10)%Q.
Proof.
  cbv zeta. split_and!.
  - reflexivity.
  - discriminate.
  - vm_compute. reflexivity.
  - vm_compute. reflexivity.
  - vm_compute. discriminate.
Qed.

(** C10 (amended): for a training case whose category is the empty string,
    every query that has at least one word is granted the +0.1 category
    bonus (the empty string is a substring of every query), so its
    similarity is at least 0.1; and when such a query shares no word with
    the description and is not a phrase of it, the similarity is exactly
    0.1, which is not strictly above the 0.1 retrieval threshold. *)
Theorem C10_empty_category_bonus self query :
  TrainingData.category self = "" ->
  PyStr.word_set (PyStr.lower query) ≠ ∅ ->
  PyStr.contains (PyStr.lower (TrainingData.category self)) (PyStr.lower query) = true
  /\ (1 # 10 <= TrainingData.calculate_similarity self query)%Q
  /\ (PyStr.word_set (PyStr.lower query)
        ∩ PyStr.word_set (PyStr.lower (TrainingData.incident_description self)) = ∅ ->
      PyStr.contains (PyStr.lower query)
        (PyStr.lower (TrainingData.incident_description self)) = false ->
      (TrainingData.calculate_similarity self query == 1 # 10)%Q
      /\ Qltb (1 # 10) (TrainingData.calculate_similarity self query) = false).
Proof.
  intros Hcat Hwords.
  assert (PyStr.contains (PyStr.lower (TrainingData.category self))
            (PyStr.lower query) = true) as Hbonus.
  { rewrite Hcat. apply contains_empty. }
  split; [exact Hbonus|].
  unfold TrainingData.calculate_similarity. rewrite Hbonus. clear Hbonus.
  set (qw := PyStr.word_set (PyStr.lower query)) in *.
  set (dw := PyStr.word_set (PyStr.lower (TrainingData.incident_description self))).
  rewrite bool_decide_eq_false_2 by done.
  assert (qw ∪ dw ≠ ∅) as Hu.
  { intros Hu. apply Hwords. apply empty_union_L in Hu. tauto. }
  rewrite (bool_decide_eq_false_2 _ Hu).
  split.
  - assert (0 <= Qnat (size (qw ∩ dw)) / Qnat (size (qw ∪ dw)))%Q as Hj.
    { apply Qnat_frac_bounds, subseteq_size.
      etrans; [apply intersection_subseteq_l | apply union_subseteq_l]. }
    set (j := (Qnat (size (qw ∩ dw)) / Qnat (size (qw ∪ dw)))%Q) in *.
    apply Q.min_glb; [|discriminate].
    destruct (PyStr.contains _ _); lra.
  - intros Hdisj Hphrase. rewrite Hdisj, Hphrase, size_empty.
    assert (Qmin (Qnat 0 / Qnat (size (qw ∪ dw)) + 0 + (1 # 10)) 1 == 1 # 10)%Q as Hv.
    { change (Qnat 0) with 0%Q. unfold Qdiv. rewrite Qmult_0_l.
      apply Q.min_l. discriminate. }
    split; [exact Hv|].
    unfold Qltb. apply negb_false_iff, Qle_bool_iff. rewrite Hv. apply Qle_refl.
Qed.

Lemma C10_empty_category_bonus_witness :
  let self := TrainingData.mk 7 "vessel delayed" "" "" "" 1 None in
  (TrainingData.calculate_similarity self "gateway timeout" == 1 # 10)%Q.
Proof.
  cbv zeta.
  refine (proj1 (proj2 (proj2 (C10_empty_category_bonus
    (TrainingData.mk 7 "vessel delayed" "" "" "" 1 None) "gateway timeout" _ _)) _ _)).
  - reflexivity.
  - vm_compute. discriminate.
  - vm_compute. reflexivity.
  - vm_compute. reflexivity.
Defined.

(** ** The stable sort *)

Section PySort.
Context {A : Type} (le : A -> A -> bool).

Lemma insert_sorted_perm x l : Permutation (PyList.insert_sorted le x l) (x :: l).
Proof.
  induction l as [|y l IH]; simpl; [done|].
  destruct (le x y); [done|].
  rewrite IH. apply perm_swap.
Qed.

Lemma sorted_perm l : Permutation (PyList.sorted le l) l.
Proof.
  induction l as [|x l IH]; simpl; [done|].
  fold (PyList.sorted le l). by rewrite insert_sorted_perm, IH.
Qed.

(** Stability: a class [P] of elements that the order does not separate
    is left in the order it had. *)
Lemma insert_sorted_filter (P : A -> bool) x l :
  (forall a b, P a = true -> P b = true -> le a b = true) ->
  List.filter P (PyList.insert_sorted le x l) = List.filter P (x :: l).
Proof.
  intros HP. induction l as [|y l IH]; [done|].
  cbn [PyList.insert_sorted]. destruct (le x y) eqn:Hxy; [done|].
  cbn [List.filter] in *. rewrite IH.
  destruct (P x) eqn:Hx, (P y) eqn:Hy; try done.
  rewrite (HP x y Hx Hy) in Hxy. discriminate.
Qed.

Lemma sorted_filter (P : A -> bool) l :
  (forall a b, P a = true -> P b = true -> le a b = true) ->
  List.filter P (PyList.sorted le l) = List.filter P l.
Proof.
  intros HP. induction l as [|x l IH]; [done|].
  cbn [PyList.sorted foldr]. fold (PyList.sorted le l).
  rewrite insert_sorted_filter by done.
  cbn [List.filter]. by rewrite IH.
Qed.

Hypothesis le_total : forall x y, le x y = true \/ le y x = true.
Hypothesis le_trans : forall x y z, le x y = true -> le y z = true -> le x z = true.

Lemma insert_sorted_sorted x l :
  StronglySorted (fun a b => le a b = true) l ->
  StronglySorted (fun a b => le a b = true) (PyList.insert_sorted le x l).
Proof.
  induction 1 as [|y l Hl IH Hy]; cbn [PyList.insert_sorted].
  - repeat constructor.
  - destruct (le x y) eqn:Hxy.
    + constructor; [by constructor|].
      constructor; [done|].
      eapply Forall_impl; [exact Hy|]. intros z Hz. by eapply le_trans.
    + constructor; [exact IH|].
      eapply Permutation_Forall; [symmetry; apply insert_sorted_perm|].
      constructor; [|done].
      destruct (le_total x y) as [Hc|Hc]; [congruence|done].
Qed.

Lemma sorted_sorted l : StronglySorted (fun a b => le a b = true) (PyList.sorted le l).
Proof.
  induction l as [|x l IH]; [constructor|].
  cbn [PyList.sorted foldr]. by apply insert_sorted_sorted.
Qed.

End PySort.

Lemma StronglySorted_firstn {A} (R : A -> A -> Prop) n l :
  StronglySorted R l -> StronglySorted R (firstn n l).
Proof.
  intros Hl. revert n. induction Hl as [|x l Hl IH Hx]; intros [|n]; simpl; try constructor.
  - apply IH.
  - rewrite Forall_forall in *. intros y Hy. apply Hx.
    by eapply subseteq_take.
Qed.

Lemma filter_firstn_prefix {A} (P : A -> bool) n (l : list A) :
  List.filter P (firstn n l) `prefix_of` List.filter P l.
Proof.
  rewrite <- (firstn_skipn n l) at 2. rewrite List.filter_app.
  by apply prefix_app_r.
Qed.

Lemma slice_to_firstn {A} n (l : list A) :
  exists k, PyList.slice_to n l = firstn k l /\ (0 <= n -> Z.of_nat k <= n).
Proof.
  unfold PyList.slice_to. destruct (0 <=? n) eqn:Hn.
  - exists (Z.to_nat n). split; [done|lia].
  - eexists. split; [done|]. apply Z.leb_gt in Hn. lia.
Qed.

(** ** Retrieval *)

Lemma StronglySorted_mono {A} (R S : A -> A -> Prop) l :
  (forall a b, R a b -> S a b) -> StronglySorted R l -> StronglySorted S l.
Proof.
  intros HRS. induction 1 as [|x l Hl IH Hx]; constructor; [done|].
  eapply Forall_impl; [exact Hx|]. intros y. apply HRS.
Qed.

(** ** Case folding and stripping *)

Lemma is_space_lower_char c : PyStr.is_space (PyStr.lower_char c) = PyStr.is_space c.
Proof. destruct c as [[] [] [] [] [] [] [] []]; reflexivity. Qed.

Lemma app_cons c a b : String c a +:+ b = String c (a +:+ b).
Proof. reflexivity. Qed.

Lemma app_empty_l a : "" +:+ a = a.
Proof. reflexivity. Qed.

Lemma lower_app a b : PyStr.lower (a +:+ b) = PyStr.lower a +:+ PyStr.lower b.
Proof.
  induction a as [|c a IH]; [done|].
  rewrite app_cons. cbn [PyStr.lower]. by rewrite IH, app_cons.
Qed.

Lemma lstrip_lower s : PyStr.lstrip (PyStr.lower s) = PyStr.lower (PyStr.lstrip s).
Proof.
  induction s as [|c s IH]; [done|].
  cbn. rewrite is_space_lower_char. by destruct (PyStr.is_space c).
Qed.

Lemma rstrip_lower s : PyStr.rstrip (PyStr.lower s) = PyStr.lower (PyStr.rstrip s).
Proof.
  induction s as [|c s IH]; [done|].
  cbn. rewrite IH, is_space_lower_char.
  destruct (PyStr.rstrip s); [by destruct (PyStr.is_space c)|done].
Qed.

Lemma strip_lower s : PyStr.strip (PyStr.lower s) = PyStr.lower (PyStr.strip s).
Proof. unfold PyStr.strip. by rewrite lstrip_lower, rstrip_lower. Qed.

Lemma blank_cons c s :
  Fusion.blank (String c s) <-> PyStr.is_space c = true /\ Fusion.blank s.
Proof.
  unfold Fusion.blank. cbn. destruct (PyStr.is_space c); [tauto|].
  split; [discriminate|]. intros [? _]. discriminate.
Qed.

Lemma blank_lower s : Fusion.blank s -> Fusion.blank (PyStr.lower s).
Proof. unfold Fusion.blank. rewrite lstrip_lower. by intros ->. Qed.

Lemma blank_rstrip s : Fusion.blank s -> PyStr.rstrip s = "".
Proof.
  induction s as [|c s IH]; [done|].
  rewrite blank_cons. intros [Hc Hs]. cbn. by rewrite (IH Hs), Hc.
Qed.

Lemma lstrip_blank_app pre s : Fusion.blank pre -> PyStr.lstrip (pre +:+ s) = PyStr.lstrip s.
Proof.
  induction pre as [|c pre IH]; [done|].
  rewrite blank_cons. intros [Hc Hpre]. rewrite app_cons. cbn. rewrite Hc. by apply IH.
Qed.

Lemma rstrip_app_blank s post : Fusion.blank post -> PyStr.rstrip (s +:+ post) = PyStr.rstrip s.
Proof.
  intros Hpost. induction s as [|c s IH]; [by apply blank_rstrip|].
  rewrite app_cons. cbn. by rewrite IH.
Qed.

Lemma lstrip_app s post :
  PyStr.lstrip (s +:+ post) = PyStr.lstrip s +:+ post \/ Fusion.blank s.
Proof.
  induction s as [|c s IH]; [by right|].
  rewrite app_cons. cbn. destruct (PyStr.is_space c) eqn:Hc; [|by left].
  destruct IH as [IH|IH]; [by left|]. right. by apply blank_cons.
Qed.

Lemma strip_padded pre core post :
  Fusion.blank pre -> Fusion.blank post ->
  PyStr.strip (pre +:+ core +:+ post) = PyStr.strip core.
Proof.
  intros Hpre Hpost. unfold PyStr.strip. rewrite lstrip_blank_app by done.
  destruct (lstrip_app core post) as [->|Hcore].
  - by apply rstrip_app_blank.
  - rewrite (lstrip_blank_app core post Hcore).
    unfold Fusion.blank in Hcore, Hpost. by rewrite Hcore, Hpost.
Qed.

Lemma lstrip_split s : exists pre, Fusion.blank pre /\ s = pre +:+ PyStr.lstrip s.
Proof.
  induction s as [|c s (pre & Hpre & IH)]; [by exists ""|].
  cbn. destruct (PyStr.is_space c) eqn:Hc.
  - exists (String c pre). split; [by apply blank_cons|].
    by rewrite app_cons, <- IH.
  - by exists "".
Qed.

Lemma rstrip_split s : exists post, Fusion.blank post /\ s = PyStr.rstrip s +:+ post.
Proof.
  induction s as [|c s (post & Hpost & IH)]; [by exists ""|].
  cbn. destruct (PyStr.rstrip s) as [|d r] eqn:Hr.
  - rewrite app_empty_l in IH. subst post. destruct (PyStr.is_space c) eqn:Hc.
    + exists (String c s). split; [by apply blank_cons|done].
    + by exists s.
  - exists post. split; [done|]. by rewrite app_cons, <- IH.
Qed.

(** Two texts differ only by case and surrounding blanks exactly when the
    normalisation of the deduplication loop maps them to one string. *)
Lemma same_text_normalized d1 d2 :
  Fusion.same_text d1 d2 <->
  PyStr.strip (PyStr.lower d1) = PyStr.strip (PyStr.lower d2).
Proof.
  split.
  - intros (pre1 & c1 & post1 & pre2 & c2 & post2 & -> & -> & H1 & H2 & H3 & H4 & Hc).
    rewrite !lower_app.
    rewrite !strip_padded by by apply blank_lower.
    by rewrite Hc.
  - intros Hn. rewrite !strip_lower in Hn.
    destruct (lstrip_split d1) as (pre1 & Hpre1 & E1).
    destruct (rstrip_split (PyStr.lstrip d1)) as (post1 & Hpost1 & F1).
    destruct (lstrip_split d2) as (pre2 & Hpre2 & E2).
    destruct (rstrip_split (PyStr.lstrip d2)) as (post2 & Hpost2 & F2).
    exists pre1, (PyStr.strip d1), post1, pre2, (PyStr.strip d2), post2.
    unfold PyStr.strip in *. rewrite <- F1, <- F2. by split_and!.
Qed.

(** ** Solution fusion *)

Lemma unique_solutions_keys seen sols :
  NoDup (map Fusion.normalized (Fusion.unique_solutions seen sols)) /\
  forall d, d ∈ map Fusion.normalized (Fusion.unique_solutions seen sols) <->
            (d ∉ seen) /\ (d ∈ map Fusion.normalized sols).
Proof.
  revert seen. induction sols as [|s rest IH]; intros seen.
  - split; [constructor|]. intros d. cbn. rewrite elem_of_nil. tauto.
  - cbn [Fusion.unique_solutions map]. case_bool_decide as Hseen.
    + destruct (IH seen) as [Hnd Hmem]. split; [done|].
      intros d. rewrite Hmem, elem_of_cons. naive_solver.
    + destruct (IH ({[Fusion.normalized s]} ∪ seen)) as [Hnd Hmem]. split.
      * cbn [map]. apply NoDup_cons. split; [|done].
        rewrite Hmem. set_solver.
      * intros d. cbn [map]. rewrite !elem_of_cons, Hmem.
        destruct (decide (d = Fusion.normalized s)) as [->|Hne]; set_solver.
Qed.

Lemma unique_solutions_sublist seen sols :
  Fusion.unique_solutions seen sols `sublist_of` sols.
Proof.
  revert seen. induction sols as [|s rest IH]; intros seen; [done|].
  cbn [Fusion.unique_solutions]. case_bool_decide.
  - by apply sublist_cons.
  - by apply sublist_skip.
Qed.

Lemma enumerate_map_snd {B} (f : Fusion.solution -> B)
    (g : Z -> Fusion.solution -> Fusion.solution) (start : Z) (l : list Fusion.solution) :
  (forall i s, f (g i s) = f s) ->
  map f (map (fun p => g (fst p) (snd p)) (Fusion.enumerate start l)) = map f l.
Proof.
  intros Hfg. revert start. induction l as [|x l IH]; intros start; [done|].
  cbn. by rewrite Hfg, IH.
Qed.

Lemma enumerate_order start (l : list Fusion.solution) :
  map Fusion.order
      (map (fun p => Fusion.set_order (fst p) (snd p)) (Fusion.enumerate start l))
  = map (fun k => start + Z.of_nat k) (seq 0 (length l)).
Proof.
  revert start. induction l as [|x l IH]; intros start; [done|].
  cbn [Fusion.enumerate map length seq fst snd Fusion.set_order Fusion.order].
  f_equal; [cbn; lia|].
  rewrite IH, <- seq_shift, map_map.
  apply map_ext. intros k. lia.
Qed.

Lemma key_leb_total a b : Fusion.key_leb a b = true \/ Fusion.key_leb b a = true.
Proof.
  unfold Fusion.key_leb. destruct a as [[] x], b as [[] y]; cbn; auto;
    destruct (Z.leb_spec x y), (Z.leb_spec y x); auto; lia.
Qed.

Lemma key_leb_trans a b c :
  Fusion.key_leb a b = true -> Fusion.key_leb b c = true -> Fusion.key_leb a c = true.
Proof.
  unfold Fusion.key_leb. destruct a as [[] x], b as [[] y], c as [[] z]; cbn;
    rewrite ?Z.leb_le; try done; lia.
Qed.

Lemma key_leb_order a b :
  Fusion.key_leb (Fusion.sort_key a) (Fusion.sort_key b) = true ->
  verified_then_useful a b.
Proof.
  unfold Fusion.key_leb, Fusion.sort_key, verified_then_useful. cbn.
  destruct (Fusion.user_verified a), (Fusion.user_verified b); cbn;
    rewrite ?Z.leb_le; intros H; try done; auto; right; split; auto; lia.
Qed.

Lemma finalize_normalized sols :
  Permutation (map Fusion.normalized (Fusion.finalize sols))
              (map Fusion.normalized (Fusion.unique_solutions ∅ sols)).
Proof.
  unfold Fusion.finalize.
  rewrite (enumerate_map_snd Fusion.normalized Fusion.set_order) by done.
  apply Permutation_map. unfold PyList.sort_by. apply sorted_perm.
Qed.

Lemma enumerate_elem {A} (start : Z) (l : list A) (i : Z) (x : A) :
  (i, x) ∈ Fusion.enumerate start l -> x ∈ l.
Proof.
  revert start. induction l as [|y l IH]; intros start; cbn.
  - by rewrite elem_of_nil.
  - rewrite !elem_of_cons. intros [Heq|Hin].
    + injection Heq as _ ->. by left.
    + right. by eapply IH.
Qed.

Lemma finalize_sorted sols : StronglySorted verified_then_useful (Fusion.finalize sols).
Proof.
  unfold Fusion.finalize.
  set (sorted := PyList.sort_by _ _ _ _).
  assert (StronglySorted verified_then_useful sorted) as Hs.
  { eapply StronglySorted_mono; [|apply sorted_sorted].
    - intros a b Hab. apply key_leb_order. exact Hab.
    - intros x y. apply key_leb_total.
    - intros x y z. apply key_leb_trans. }
  clearbody sorted. generalize 1.
  induction Hs as [|x l Hl IH Hx]; intros start; cbn; [constructor|].
  constructor; [apply IH|].
  rewrite Forall_forall in *. intros y Hy.
  apply list_elem_of_fmap in Hy as ([k s] & -> & Hin).
  apply enumerate_elem in Hin. exact (Hx s Hin).
Qed.

Example final_solutions_demo :
  map (fun s => (Fusion.order s, Fusion.description s, Fusion.user_verified s,
                 Fusion.usefulness_count s))
      (Fusion.final_solutions demo_feedback demo_top_training)
  = [ (1, "Expire the advice first", true, 3); (2, "Restart the gateway", false, 0) ].
Proof. vm_compute. reflexivity. Qed.

(** ** The feedback ledger *)

Section LedgerFacts.
Context (k : Ledger.identity).
Local Abbreviation same := (Ledger.same_identity k).

Lemma first_None_filter (rows : list SolutionFeedback.t) :
  Ledger.first same rows = None <-> List.filter same rows = [].
Proof.
  unfold Ledger.first. induction rows as [|x rows IH]; [done|].
  cbn. destruct (same x); [split; discriminate|exact IH].
Qed.

Lemma first_Some_split (rows : list SolutionFeedback.t) row :
  Ledger.first same rows = Some row ->
  exists pre post, rows = pre ++ row :: post /\ List.filter same pre = [] /\
                   same row = true.
Proof.
  unfold Ledger.first. induction rows as [|x rows IH]; [done|].
  cbn. destruct (same x) eqn:Hx.
  - intros [= ->]. by exists [], rows.
  - intros Hf. destruct (IH Hf) as (pre & post & -> & Hpre & Hrow).
    exists (x :: pre), post. cbn. by rewrite Hx.
Qed.

Lemma update_first_split (f : SolutionFeedback.t -> SolutionFeedback.t) pre row post :
  List.filter same pre = [] -> same row = true ->
  Ledger.update_first same f (pre ++ row :: post) = pre ++ f row :: post.
Proof.
  intros Hpre Hrow. induction pre as [|x pre IH]; cbn in *.
  - by rewrite Hrow.
  - destruct (same x); [done|]. by rewrite IH.
Qed.

Lemma delete_first_split pre row post :
  List.filter same pre = [] -> same row = true ->
  Ledger.delete_first same (pre ++ row :: post) = pre ++ post.
Proof.
  intros Hpre Hrow. induction pre as [|x pre IH]; cbn in *.
  - by rewrite Hrow.
  - destruct (same x); [done|]. by rewrite IH.
Qed.

Lemma same_with_feedback_count n now incident row :
  same (Ledger.with_feedback_count n now incident row) = same row.
Proof. reflexivity. Qed.

Lemma same_identity_new id inc st src n t :
  same (SolutionFeedback.mk id inc (Ledger.step_description k) (Ledger.step_order k)
          st src (Ledger.knowledge_base_id k) (Ledger.training_data_id k)
          (Ledger.rca_id k) n t) = true.
Proof.
  unfold Ledger.same_identity. cbn.
  rewrite !bool_decide_eq_true_2 by done. by rewrite Z.eqb_refl.
Qed.

(** One request on a ledger without a row for the identity adds the row,
    with count 1. *)
Lemma mark_fresh d now incident step_type :
  List.filter same (Ledger.solution_feedback d) = [] ->
  exists row,
    List.filter same
      (Ledger.solution_feedback (fst (Ledger.mark_step_useful d now k incident step_type)))
    = [row] /\
    SolutionFeedback.usefulness_count row = 1 /\
    snd (Ledger.mark_step_useful d now k incident step_type) = Ledger.MarkSuccess 1.
Proof.
  intros Hnone. unfold Ledger.mark_step_useful.
  rewrite (proj2 (first_None_filter _) Hnone). cbn [fst snd Ledger.solution_feedback].
  eexists. rewrite List.filter_app, Hnone. cbn [List.filter app].
  rewrite same_identity_new. done.
Qed.

(** One request on a ledger whose single row for the identity counts [n]
    leaves a single row, counting [n + 1]. *)
Lemma mark_again d now incident step_type row :
  List.filter same (Ledger.solution_feedback d) = [row] ->
  exists row',
    List.filter same
      (Ledger.solution_feedback (fst (Ledger.mark_step_useful d now k incident step_type)))
    = [row'] /\
    SolutionFeedback.usefulness_count row' = SolutionFeedback.usefulness_count row + 1 /\
    snd (Ledger.mark_step_useful d now k incident step_type)
    = Ledger.MarkSuccess (SolutionFeedback.usefulness_count row + 1).
Proof.
  intros Hone. unfold Ledger.mark_step_useful.
  destruct (Ledger.first same (Ledger.solution_feedback d)) as [r|] eqn:Hf.
  - destruct (first_Some_split _ _ Hf) as (pre & post & E & Hpre & Hr).
    rewrite E in Hone |- *. rewrite List.filter_app, Hpre in Hone. cbn in Hone.
    rewrite Hr in Hone. injection Hone as -> Hpost.
    cbn [fst snd Ledger.solution_feedback].
    rewrite update_first_split by done.
    eexists. rewrite List.filter_app, Hpre. cbn [List.filter app].
    rewrite same_with_feedback_count, Hr, Hpost. done.
  - apply first_None_filter in Hf. congruence.
Qed.

Lemma mark_all_count d requests :
  List.filter same (Ledger.solution_feedback d) = [] ->
  requests <> [] ->
  exists row,
    List.filter same (Ledger.solution_feedback (Ledger.mark_all d k requests)) = [row] /\
    SolutionFeedback.usefulness_count row = Z.of_nat (length requests).
Proof.
  intros Hnone Hne.
  induction requests as [|r requests IH] using rev_ind; [done|].
  unfold Ledger.mark_all. rewrite fold_left_app. cbn [fold_left].
  fold (Ledger.mark_all d k requests).
  destruct requests as [|r0 requests0] eqn:Hreq.
  - cbn [Ledger.mark_all fold_left].
    destruct (mark_fresh d (fst (fst r)) (snd (fst r)) (snd r) Hnone) as (row & Hrow & Hc & _).
    exists row. split; [done|]. rewrite Hc. done.
  - rewrite <- Hreq in *. destruct IH as (row & Hrow & Hc); [by rewrite Hreq|].
    destruct (mark_again (Ledger.mark_all d k requests) (fst (fst r)) (snd (fst r)) (snd r)
                row Hrow) as (row' & Hrow' & Hc' & _).
    exists row'. split; [done|]. rewrite Hc', Hc, length_app. cbn. lia.
Qed.

End LedgerFacts.

Example mark_all_demo :
  map (fun r => (SolutionFeedback.id r, SolutionFeedback.incident_description r,
                 SolutionFeedback.usefulness_count r, SolutionFeedback.marked_at r))
      (Ledger.solution_feedback (Ledger.mark_all demo_db demo_identity demo_requests))
  = [ (1, "Vessel advice rejected", 3, 0); (2, "API gateway slow", 3, 30) ] /\
  map TrainingData.usefulness_count
      (Ledger.training_data (Ledger.mark_all demo_db demo_identity demo_requests))
  = [None; Some 5; Some 50].
Proof. vm_compute. done. Qed.

Example unmark_demo :
  let d1 := Ledger.mark_all demo_db demo_identity [(10, None, "Resolution")] in
  Ledger.solution_feedback (fst (Ledger.unmark_step_useful d1 40 demo_identity))
  = demo_feedback /\
  snd (Ledger.unmark_step_useful demo_db 40 demo_identity) = Ledger.UnmarkNotFound.
Proof. vm_compute. done. Qed.

(** ** Container duplication *)

Lemma sort_by_desc_sorted {A} (key : A -> Z) (l : list A) :
  StronglySorted (fun a b => key b <= key a) (PyList.sort_by Z.leb key true l).
Proof.
  unfold PyList.sort_by.
  eapply StronglySorted_mono; [|apply sorted_sorted].
  - intros a b Hab. by apply Z.leb_le.
  - intros x y. rewrite !Z.leb_le. lia.
  - intros x y z. rewrite !Z.leb_le. lia.
Qed.

Lemma sort_by_asc_sorted {A} (key : A -> Z) (l : list A) :
  StronglySorted (fun a b => key a <= key b) (PyList.sort_by Z.leb key false l).
Proof.
  unfold PyList.sort_by.
  eapply StronglySorted_mono; [|apply sorted_sorted].
  - intros a b Hab. by apply Z.leb_le.
  - intros x y. rewrite !Z.leb_le. lia.
  - intros x y z. rewrite !Z.leb_le. lia.
Qed.

Lemma sorted_desc_last {A} (key : A -> Z) (x d : A) (l : list A) :
  StronglySorted (fun a b => key b <= key a) (x :: l) ->
  key (List.last (x :: l) d) <= key x /\
  forall c, In c (x :: l) -> key (List.last (x :: l) d) <= key c.
Proof.
  revert x. induction l as [|y l IH]; intros x Hs.
  - cbn. split; [lia|]. intros c [<-|[]]. lia.
  - apply StronglySorted_inv in Hs as [Hs Hx].
    destruct (IH y Hs) as [Hy Hall].
    change (List.last (x :: y :: l) d) with (List.last (y :: l) d).
    assert (key y <= key x) as Hyx.
    { rewrite Forall_forall in Hx. apply Hx. by left. }
    split; [lia|]. intros c [<-|Hc]; [lia|]. by apply Hall.
Qed.

Lemma last_In {A} (x d : A) (l : list A) : In (List.last (x :: l) d) (x :: l).
Proof.
  revert x. induction l as [|y l IH]; intros x; [by left|].
  right. apply IH.
Qed.

Section ContainerFacts.
Context (isoformat format_seconds : Z -> string).

Abbreviation detect_dups := (Ops.detect_container_duplicates isoformat format_seconds).

End ContainerFacts.

(** ** Vessel advice conflicts *)

Section VesselFacts.
Context (isoformat : Z -> string).

End VesselFacts.

(** ** API event cascades *)

Section CascadeFacts.
Context (isoformat : Z -> string) (window : Z).

Abbreviation gap_ok a b := (Ops.event_ts b - Ops.event_ts a <=? Ops.microseconds window).


Lemma groups_cons e rest d :
  Ops.groups window (e :: rest) = attach window [e] d (Ops.groups window rest).
Proof.
  cbn [Ops.groups]. unfold attach.
  destruct (Ops.groups window rest) as [|[|next g] gs]; done.
Qed.

Lemma groups_nonempty l : Forall (fun g => g <> []) (Ops.groups window l).
Proof.
  induction l as [|e rest IH]; [constructor|].
  cbn [Ops.groups].
  destruct (Ops.groups window rest) as [|[|next g] gs].
  - by repeat constructor.
  - by constructor.
  - destruct (gap_ok e next); [|by constructor].
    apply Forall_cons in IH as [_ IH]. by constructor.
Qed.

Lemma groups_head e rest :
  exists g gs, Ops.groups window (e :: rest) = (e :: g) :: gs.
Proof.
  cbn [Ops.groups]. destruct (Ops.groups window rest) as [|[|next g] gs]; eauto.
  destruct (gap_ok e next); eauto.
Qed.

Lemma groups_concat l : concat (Ops.groups window l) = l.
Proof.
  induction l as [|e rest IH]; [done|].
  cbn [Ops.groups].
  destruct (Ops.groups window rest) as [|[|next g] gs]; cbn in *; try by rewrite IH.
  destruct (gap_ok e next); cbn; by rewrite IH.
Qed.

Lemma groups_chained l : Forall (Ops.chained window) (Ops.groups window l).
Proof.
  induction l as [|e rest IH]; [constructor|].
  cbn [Ops.groups].
  destruct (Ops.groups window rest) as [|[|next g] gs].
  - by repeat constructor.
  - by constructor.
  - destruct (gap_ok e next) eqn:Hgap; [|by constructor].
    apply Forall_cons in IH as [Hg IH]. constructor; [|done].
    cbn [Ops.chained]. split; [by apply Z.leb_le|done].
Qed.


Lemma cascade_of_default d d' g :
  g <> [] -> Ops.cascade_of isoformat d g = Ops.cascade_of isoformat d' g.
Proof.
  intros Hg. destruct g as [|x g]; [done|].
  unfold Ops.cascade_of. cbn [List.hd].
  assert (List.last (x :: g) d = List.last (x :: g) d') as ->; [|done].
  clear Hg. revert x. induction g as [|y g IH]; intros x; [done|]. apply IH.
Qed.

Lemma emit_default d d' gs :
  Forall (fun g => g <> []) gs -> emit isoformat d gs = emit isoformat d' gs.
Proof.
  unfold emit. induction 1 as [|g gs Hg Hgs IH]; [done|].
  cbn [List.filter]. destruct (reportable g); cbn [map]; [|done].
  by rewrite IH, (cascade_of_default d d' g Hg).
Qed.

Lemma flush_emit cascades d current :
  Ops.flush isoformat cascades d current = cascades ++ emit isoformat d [current].
Proof.
  unfold Ops.flush, emit. cbn [List.filter]. unfold reportable.
  destruct (2 <=? length current)%nat; cbn [map]; [done|by rewrite app_nil_r].
Qed.

Lemma List_last_snoc {A} (l : list A) (x d : A) : List.last (l ++ [x]) d = x.
Proof. apply last_last. Qed.

(** The loop from any state: what is already reported, then the groups of
    the rest, the first of them continuing [current] when the gap allows. *)
Lemma loop_groups d rest cascades current :
  current <> [] ->
  (let '(cs, cur) := fold_left (Ops.cascade_step isoformat window d) rest (cascades, current) in
   Ops.flush isoformat cs d cur)
  = cascades ++ emit isoformat d (attach window current d (Ops.groups window rest)).
Proof.
  revert cascades current. induction rest as [|e rest IH]; intros cascades current Hcur.
  - cbn. apply flush_emit.
  - cbn [fold_left Ops.cascade_step].
    destruct (groups_head e rest) as (g & gs & Hg).
    rewrite Hg. cbn [attach].
    destruct (gap_ok (List.last current d) e) eqn:Hgap.
    + rewrite IH by (by destruct current).
      f_equal. f_equal.
      rewrite (groups_cons e rest d) in Hg. unfold attach in *.
      rewrite List_last_snoc.
      destruct (Ops.groups window rest) as [|[|next g'] gs'] eqn:E.
      * injection Hg as <- <-. done.
      * injection Hg as <- <-. done.
      * cbn [List.last] in Hg.
        destruct (gap_ok e next); injection Hg as <- <-;
          [by rewrite <- app_assoc | done].
    + rewrite IH by done. rewrite flush_emit, <- app_assoc. f_equal.
      rewrite <- (groups_cons e rest d), Hg.
      unfold emit. cbn [List.filter]. destruct (reportable current); done.
Qed.

Lemma cascades_of_events_groups d events :
  Ops.cascades_of_events isoformat window events = emit isoformat d (Ops.groups window events).
Proof.
  destruct events as [|e0 rest]; [done|].
  unfold Ops.cascades_of_events.
  rewrite (loop_groups e0 rest [] [e0]) by done.
  rewrite <- (groups_cons e0 rest e0). cbn [app].
  apply emit_default, groups_nonempty.
Qed.

End CascadeFacts.


(** *** The scenarios of the specification *)

Example rapid_duplicate_demo isoformat format_seconds :
  Ops.issue_type
    (Ops.detect_container_duplicates isoformat format_seconds demo_ops_rapid "msku0000001")
  = Some "rapid_duplicate_insert" /\
  Ops.root_cause
    (Ops.detect_container_duplicates isoformat format_seconds demo_ops_rapid "msku0000001")
  = Some ("Multiple inserts within " +:+ format_seconds (Ops.microseconds 2) +:+
          "s - likely race condition or double-submit").
Proof. split; reflexivity. Qed.

Example data_inconsistency_demo isoformat format_seconds :
  Ops.issue_type
    (Ops.detect_container_duplicates isoformat format_seconds demo_ops_inconsistent "MSKU0000001")
  = Some "data_inconsistency".
Proof. reflexivity. Qed.

Example vessel_err_4_demo isoformat :
  Ops.detect_vessel_advice_conflict isoformat demo_ops_advice "LIONCITY07"
  = Ops.SingleActive 42 (isoformat 3000)
      "Cannot create new advice - vessel 'LIONCITY07' already has active advice #42"
      "Expire the existing advice by setting effective_end_datetime before creating new advice"
      1.
Proof. reflexivity. Qed.

Example multiple_active_demo isoformat :
  Ops.error_type (Ops.detect_vessel_advice_conflict isoformat demo_ops_two_active "LIONCITY07")
  = Some "MULTIPLE_ACTIVE".
Proof. reflexivity. Qed.


(** ** Fingerprint extraction *)

Example extract_demo :
  map IncidentAnalyzer.extract_error_type
    [ "Unexpected qualifier 'BN' in EQD segment";
      "Time zone drift UTC+0 for Partner-E";
      "Spike in DLQ messages";
      "VESSEL_ERR_4 when creating vessel advice";
      "EDI message stuck in ERROR status";
      "Customer reports duplicate MSKU0000001 container showing in system";
      "Duplicate container after gateway timeout";
      "Berth crane stopped";
      "Reboot";
      "?!";
      "" ]
  = [ "edifact_unexpected_qualifier"; "timezone_drift"; "dlq_spike"; "vessel_err";
      "edi_message_stuck"; "container_duplication"; "container_duplication";
      "berth_crane"; "reboot"; "unknown_error"; "unknown_error" ].
Proof. lazy. reflexivity. Qed.

(** *** The matcher computes the language of the expression *)

Lemma app_assoc_str (a b c : string) : (a +:+ b) +:+ c = a +:+ (b +:+ c).
Proof. induction a as [|x a IH]; [done|]. by rewrite !app_cons, IH. Qed.

Lemma star_go_correct p (k : string -> bool) s :
  Regex.star_go p k s = true <->
  exists s1 s2, s = s1 +:+ s2 /\ Regex.matches (Regex.StarClass p) s1 /\ k s2 = true.
Proof.
  induction s as [|c s IH]; cbn [Regex.star_go].
  - rewrite orb_false_r. split.
    + intros Hk. exists "", "". split_and!; [done|constructor|done].
    + intros (s1 & s2 & E & _ & Hk). destruct s1; [|discriminate].
      rewrite app_empty_l in E. by subst.
  - rewrite orb_true_iff, andb_true_iff, IH. split.
    + intros [Hk|[Hp (s1 & s2 & -> & Hm & Hk)]].
      * exists "", (String c s). split_and!; [done|constructor|done].
      * exists (String c s1), s2. split_and!; [done|by constructor|done].
    + intros (s1 & s2 & E & Hm & Hk). inversion Hm as [| | | | | |p' c' s1' Hp Hm' E1]; subst.
      * left. rewrite app_empty_l in E. by subst.
      * rewrite app_cons in E. injection E as -> ->. right. split; [done|].
        by exists s1', s2.
Qed.

Lemma accepts_correct r (k : string -> bool) s :
  Regex.accepts r k s = true <->
  exists s1 s2, s = s1 +:+ s2 /\ Regex.matches r s1 /\ k s2 = true.
Proof.
  revert k s. induction r as [|p|r1 IH1 r2 IH2|r1 IH1 r2 IH2|p]; intros k s;
    cbn [Regex.accepts].
  - split.
    + intros Hk. exists "", s. split_and!; [done|constructor|done].
    + intros (s1 & s2 & -> & Hm & Hk). inversion Hm; subst. by rewrite app_empty_l.
  - destruct s as [|c s].
    + split; [discriminate|]. intros (s1 & s2 & E & Hm & _).
      inversion Hm; subst. rewrite app_cons in E. discriminate.
    + rewrite andb_true_iff. split.
      * intros [Hp Hk]. exists (String c ""), s. split_and!; [done|by constructor|done].
      * intros (s1 & s2 & E & Hm & Hk). inversion Hm; subst.
        rewrite app_cons, app_empty_l in E. injection E as -> ->. done.
  - rewrite IH1. split.
    + intros (s1 & s2 & -> & Hm1 & Hk). apply IH2 in Hk as (s3 & s4 & -> & Hm2 & Hk).
      exists (s1 +:+ s3), s4. split_and!; [by rewrite app_assoc_str|by constructor|done].
    + intros (s1 & s2 & -> & Hm & Hk).
      inversion Hm as [| |r1' r2' t1 t2 Hm1 Hm2| | | |]; subst.
      exists t1, (t2 +:+ s2). split_and!; [by rewrite app_assoc_str|done|].
      apply IH2. by exists t2, s2.
  - rewrite orb_true_iff, IH1, IH2. split.
    + intros [(s1 & s2 & -> & Hm & Hk)|(s1 & s2 & -> & Hm & Hk)];
        exists s1, s2; split_and!; try done; [by apply Regex.m_alt_l|by apply Regex.m_alt_r].
    + intros (s1 & s2 & -> & Hm & Hk). inversion Hm; subst; [left|right]; by exists s1, s2.
  - apply star_go_correct.
Qed.

(** [search] finds exactly the texts with a matching substring. *)
Lemma search_correct r s :
  Regex.search r s = true <->
  exists pre mid post, s = pre +:+ mid +:+ post /\ Regex.matches r mid.
Proof.
  induction s as [|c s IH]; cbn [Regex.search]; unfold Regex.match_.
  - rewrite orb_false_r, accepts_correct. split.
    + intros (s1 & s2 & E & Hm & _). by exists "", s1, s2.
    + intros (pre & mid & post & E & Hm). destruct pre; [|discriminate].
      rewrite app_empty_l in E. by exists mid, post.
  - rewrite orb_true_iff, accepts_correct, IH. split.
    + intros [(s1 & s2 & E & Hm & _)|(pre & mid & post & -> & Hm)].
      * by exists "", s1, s2.
      * by exists (String c pre), mid, post.
    + intros (pre & mid & post & E & Hm). destruct pre as [|c' pre].
      * left. rewrite app_empty_l in E. by exists mid, post.
      * rewrite app_cons in E. injection E as -> ->. right. by exists pre, mid, post.
Qed.

(** *** The ordered rules *)

Lemma first_match_spec rules s :
  match IncidentAnalyzer.first_match rules s with
  | Some tag =>
      exists i pat,
        rules !! i = Some (pat, tag) /\ Regex.search pat s = true /\
        forall j pat' tag',
          (j < i)%nat -> rules !! j = Some (pat', tag') -> Regex.search pat' s = false
  | None =>
      forall i pat tag, rules !! i = Some (pat, tag) -> Regex.search pat s = false
  end.
Proof.
  induction rules as [|[pat tag] rules IH]; cbn [IncidentAnalyzer.first_match].
  - intros i pat tag Hi. by rewrite lookup_nil in Hi.
  - destruct (Regex.search pat s) eqn:Hpat.
    + exists 0%nat, pat. split_and!; [done|done|]. intros j ? ? Hj. lia.
    + destruct (IncidentAnalyzer.first_match rules s) as [tag0|].
      * destruct IH as (i & pat0 & Hi & Hs & Hbefore).
        exists (S i), pat0. split_and!; [done|done|].
        intros [|j] pat' tag' Hj Hlook.
        -- injection Hlook as <- <-. done.
        -- apply (Hbefore j pat' tag'); [lia|done].
      * intros [|i] pat' tag' Hlook.
        -- injection Hlook as <- <-. done.
        -- by apply (IH i pat' tag').
Qed.

Lemma patterns_tags_distinct : NoDup (map snd IncidentAnalyzer.patterns).
Proof. apply (bool_decide_unpack _). vm_compute. exact I. Qed.

Lemma findall_go_nil p cur s :
  Regex.findall_go p cur s = [] <-> cur = None /\ IncidentAnalyzer.none_of p s = true.
Proof.
  revert cur. induction s as [|c s IH]; intros cur; cbn.
  - destruct cur; cbn; split; try done. by intros [? _].
  - destruct (p c) eqn:Hp; cbn.
    + rewrite IH. split; [by intros [? _]|by intros [_ ?]].
    + destruct cur; cbn; [split; [done|by intros [? _]]|].
      rewrite IH. tauto.
Qed.

Lemma findall_plus_nil p s :
  Regex.findall_plus p s = [] <-> IncidentAnalyzer.none_of p s = true.
Proof. unfold Regex.findall_plus. rewrite findall_go_nil. tauto. Qed.

(** C8, as stated, fails on a text of underscores: it has no letter and
    no digit, hence no alphanumeric token, and no rule matches it; the
    fallback still finds the token "_" and returns it. *)
Lemma C8_counterexample :
  IncidentAnalyzer.none_of IncidentAnalyzer.is_alnum (PyStr.lower "_") = true /\
  IncidentAnalyzer.first_match IncidentAnalyzer.patterns (PyStr.lower "_") = None /\
  IncidentAnalyzer.extract_error_type "_" = "_" /\
  IncidentAnalyzer.extract_error_type "_" <> "unknown_error".
Proof. split_and!; [lazy; reflexivity..|lazy; discriminate]. Qed.

(** C8 (amended): extract_error_type is a function of the text alone.  On
    a text of ASCII characters it tries the rules in order on the
    lowercased text and returns the tag of the first rule that matches: a
    rule that matches with no earlier matching rule gives the result, and
    of two matching rules the later one never does.  If no rule matches,
    it returns the first two word tokens joined by an underscore (the
    only token when there is one), a word token being a maximal run of
    letters, digits and underscores; if the text has no such character it
    returns "unknown_error". *)
Theorem C8_extract_error_type (text : string) :
  ascii_text text ->
  let lowered := PyStr.lower text in
  let result := IncidentAnalyzer.extract_error_type text in
  (forall i pat tag,
      IncidentAnalyzer.patterns !! i = Some (pat, tag) ->
      Regex.search pat lowered = true ->
      (forall j pat' tag', (j < i)%nat ->
         IncidentAnalyzer.patterns !! j = Some (pat', tag') ->
         Regex.search pat' lowered = false) ->
      result = tag)
  /\
  (forall i j pat_i tag_i pat_j tag_j,
      (i < j)%nat ->
      IncidentAnalyzer.patterns !! i = Some (pat_i, tag_i) ->
      IncidentAnalyzer.patterns !! j = Some (pat_j, tag_j) ->
      Regex.search pat_i lowered = true ->
      Regex.search pat_j lowered = true ->
      result <> tag_j /\
      exists k pat_k, (k <= i)%nat /\
        IncidentAnalyzer.patterns !! k = Some (pat_k, result) /\
        Regex.search pat_k lowered = true)
  /\
  ((forall i pat tag,
       IncidentAnalyzer.patterns !! i = Some (pat, tag) ->
       Regex.search pat lowered = false) ->
   match Regex.findall_plus PyStr.is_word lowered with
   | [] => result = "unknown_error" /\
           IncidentAnalyzer.none_of PyStr.is_word lowered = true
   | [w] => result = w
   | w1 :: w2 :: _ => result = w1 +:+ "_" +:+ w2
   end)
  /\
  (IncidentAnalyzer.none_of PyStr.is_word lowered = true ->
   (forall i pat tag,
       IncidentAnalyzer.patterns !! i = Some (pat, tag) ->
       Regex.search pat lowered = false) ->
   result = "unknown_error").
Proof.
  intros _ lowered result. subst result. unfold IncidentAnalyzer.extract_error_type.
  fold lowered.
  pose proof (first_match_spec IncidentAnalyzer.patterns lowered) as Hspec.
  split_and!.
  - intros i pat tag Hi Hs Hbefore.
    destruct (IncidentAnalyzer.first_match _ _) as [tag0|].
    + destruct Hspec as (i0 & pat0 & Hi0 & Hs0 & Hb0).
      destruct (Nat.lt_trichotomy i i0) as [Hlt|[->|Hgt]].
      * rewrite (Hb0 i pat tag Hlt Hi) in Hs. discriminate.
      * congruence.
      * rewrite (Hbefore i0 pat0 tag0 Hgt Hi0) in Hs0. discriminate.
    + rewrite (Hspec i pat tag Hi) in Hs. discriminate.
  - intros i j pat_i tag_i pat_j tag_j Hij Hi Hj Hsi Hsj.
    destruct (IncidentAnalyzer.first_match _ _) as [tag0|].
    + destruct Hspec as (k & pat_k & Hk & Hsk & Hbk).
      assert (k <= i)%nat as Hki.
      { destruct (Nat.le_gt_cases k i) as [H|H]; [done|].
        rewrite (Hbk i pat_i tag_i H Hi) in Hsi. discriminate. }
      split; [|by exists k, pat_k].
      intros ->.
      assert (k = j); [|lia].
      eapply (NoDup_lookup _ _ _ _ patterns_tags_distinct).
      * rewrite list_lookup_fmap, Hk. done.
      * rewrite list_lookup_fmap, Hj. done.
    + rewrite (Hspec i pat_i tag_i Hi) in Hsi. discriminate.
  - intros Hnone.
    destruct (IncidentAnalyzer.first_match _ _) as [tag0|].
    + destruct Hspec as (k & pat_k & Hk & Hsk & _).
      rewrite (Hnone k pat_k tag0 Hk) in Hsk. discriminate.
    + unfold IncidentAnalyzer.fallback.
      destruct (Regex.findall_plus PyStr.is_word lowered) as [|w1 [|w2 ws]] eqn:E; try done.
      split; [done|]. by apply findall_plus_nil.
  - intros Hnoword Hnone.
    destruct (IncidentAnalyzer.first_match _ _) as [tag0|].
    + destruct Hspec as (k & pat_k & Hk & Hsk & _).
      rewrite (Hnone k pat_k tag0 Hk) in Hsk. discriminate.
    + unfold IncidentAnalyzer.fallback.
      by rewrite (proj2 (findall_plus_nil _ _) Hnoword).
Qed.

Lemma C8_extract_error_type_witness :
  IncidentAnalyzer.extract_error_type "Duplicate container after gateway timeout"
  = "container_duplication" /\
  IncidentAnalyzer.extract_error_type "Duplicate container after gateway timeout"
  <> "timeout" /\
  IncidentAnalyzer.extract_error_type "?!" = "unknown_error".
Proof.
  pose proof (C8_extract_error_type "Duplicate container after gateway timeout"
                ltac:(reflexivity)) as (Hfirst & Hlater & _ & _).
  pose proof (C8_extract_error_type "?!" ltac:(reflexivity)) as (_ & _ & _ & Hnone).
  split_and!.
  - eapply (Hfirst 11%nat); [reflexivity | lazy; reflexivity |].
    intros j pat' tag' Hj Hlook.
    do 11 (destruct j as [|j]; [injection Hlook as <- <-; lazy; reflexivity|]).
    lia.
  - eapply (Hlater 11%nat 14%nat); [lia | reflexivity | reflexivity | |];
      lazy; reflexivity.
  - apply Hnone; [lazy; reflexivity|].
    intros i pat tag Hlook.
    do 28 (destruct i as [|i]; [injection Hlook as <- <-; lazy; reflexivity|]).
    discriminate Hlook.
Defined.

(** ** The hypothesis builder *)

Lemma fold_insert_front {A B} (g : A -> option B) (l : list A) (init : list B) :
  fold_left (fun acc x => match g x with Some h => h :: acc | None => acc end) l init
  = rev (omap g l) ++ init.
Proof.
  revert init. induction l as [|x l IH]; intros init; [done|].
  cbn [fold_left]. rewrite IH. simpl. destruct (g x); [|done].
  simpl. by rewrite <- app_assoc.
Qed.

Lemma fold_left_pointwise {A B} (f g : A -> B -> A) (l : list B) (a : A) :
  (forall x y, f x y = g x y) -> fold_left f l a = fold_left g l a.
Proof.
  intros Hfg. revert a. induction l as [|y l IH]; intros a; [done|].
  cbn. by rewrite Hfg, IH.
Qed.

Lemma insert_containers_front f hyps :
  Hypotheses.insert_containers (Hypotheses.containers f) hyps
  = rev (Hypotheses.container_part f) ++ hyps.
Proof.
  unfold Hypotheses.insert_containers, Hypotheses.container_part.
  rewrite <- fold_insert_front. apply fold_left_pointwise. intros acc c.
  by destruct (Ops.has_duplicates _).
Qed.

Lemma insert_vessels_front f hyps :
  Hypotheses.insert_vessels (Hypotheses.vessels f) hyps
  = rev (Hypotheses.vessel_part f) ++ hyps.
Proof.
  unfold Hypotheses.insert_vessels, Hypotheses.vessel_part.
  rewrite <- fold_insert_front. apply fold_left_pointwise. intros acc v.
  by destruct (Hypotheses.advice_conflict v).
Qed.

Lemma insert_edi_front f hyps :
  Hypotheses.insert_edi (Hypotheses.edi_messages f) hyps
  = rev (Hypotheses.edi_part f) ++ hyps.
Proof.
  unfold Hypotheses.insert_edi, Hypotheses.edi_part.
  rewrite <- fold_insert_front. apply fold_left_pointwise. intros acc e.
  destruct (Hypotheses.edi_root_cause e) as [cause|]; [|done].
  by case_bool_decide.
Qed.

(** C9, as stated, fails when the three operational anomalies are present:
    each is put at position 0 in turn, containers first and EDI messages
    last, so the list starts with the EDI hypothesis of confidence 0.90,
    ahead of the vessel advice conflict of confidence 0.98. *)
Lemma C9_counterexample :
  map Hypotheses.confidence
    (Hypotheses.build_hypotheses [td_demo] demo_candidates 1 [] (Some demo_findings))
  = [(90 # 100)%Q; (98 # 100)%Q; (95 # 100)%Q; (85 # 100)%Q] /\
  ~ (90 # 100 == 98 # 100)%Q.
Proof. split; [vm_compute; reflexivity | vm_compute; discriminate]. Qed.

(** C9 (amended): the operational hypotheses are placed ahead of the
    similarity-based hypothesis (confidence 0.85), the log-derived ones
    and the placeholder; each is inserted at the front, the container
    duplications (0.95) first, then the vessel advice conflicts (0.98),
    then the EDI errors (0.90), so the final list holds the EDI
    hypotheses, then the vessel ones, then the container ones, each kind
    in reverse order of its findings; whenever an EDI error is present
    the list starts with a 0.90 hypothesis. *)
Theorem C9_hypothesis_order (similar_incidents : list TrainingData.t)
    (recommended : list Fusion.solution) (sop_references : nat)
    (log_hypotheses : list Hypotheses.RootCauseHypothesis) (f : Hypotheses.findings) :
  let hypotheses :=
    Hypotheses.build_hypotheses similar_incidents recommended sop_references
      log_hypotheses (Some f) in
  hypotheses
  = rev (Hypotheses.edi_part f) ++ rev (Hypotheses.vessel_part f)
    ++ rev (Hypotheses.container_part f)
    ++ Hypotheses.base_hypotheses similar_incidents recommended sop_references
         log_hypotheses
  /\ Forall (fun h => Hypotheses.confidence h = (90 # 100)%Q) (Hypotheses.edi_part f)
  /\ Forall (fun h => Hypotheses.confidence h = (98 # 100)%Q) (Hypotheses.vessel_part f)
  /\ Forall (fun h => Hypotheses.confidence h = (95 # 100)%Q) (Hypotheses.container_part f)
  /\ Forall (fun h => Hypotheses.confidence h = (85 # 100)%Q)
       (Hypotheses.similarity_hypotheses similar_incidents recommended sop_references)
  /\ (Hypotheses.edi_part f <> [] ->
      exists h rest, hypotheses = h :: rest /\ Hypotheses.confidence h = (90 # 100)%Q)
  /\ (Hypotheses.edi_part f = [] -> Hypotheses.vessel_part f <> [] ->
      exists h rest, hypotheses = h :: rest /\ Hypotheses.confidence h = (98 # 100)%Q).
Proof.
  intros hypotheses.
  assert (hypotheses
          = rev (Hypotheses.edi_part f) ++ rev (Hypotheses.vessel_part f)
            ++ rev (Hypotheses.container_part f)
            ++ Hypotheses.base_hypotheses similar_incidents recommended sop_references
                 log_hypotheses) as Heq.
  { unfold hypotheses, Hypotheses.build_hypotheses.
    by rewrite insert_edi_front, insert_vessels_front, insert_containers_front. }
  assert (Forall (fun h => Hypotheses.confidence h = (90 # 100)%Q) (Hypotheses.edi_part f))
    as Hedi.
  { unfold Hypotheses.edi_part. rewrite Forall_forall. intros h Hh.
    apply list_elem_of_omap in Hh as (e & _ & He).
    destruct (Hypotheses.edi_root_cause e); [|done].
    case_bool_decide; [done|]. by injection He as <-. }
  assert (Forall (fun h => Hypotheses.confidence h = (98 # 100)%Q) (Hypotheses.vessel_part f))
    as Hvessel.
  { unfold Hypotheses.vessel_part. rewrite Forall_forall. intros h Hh.
    apply list_elem_of_omap in Hh as (v & _ & Hv).
    destruct (Hypotheses.advice_conflict v); try done. by injection Hv as <-. }
  split_and!; try done.
  - unfold Hypotheses.container_part. rewrite Forall_forall. intros h Hh.
    apply list_elem_of_omap in Hh as (c & _ & Hc).
    destruct (Ops.has_duplicates _); [|done]. by injection Hc as <-.
  - unfold Hypotheses.similarity_hypotheses.
    destruct similar_incidents; by repeat constructor.
  - intros Hne. rewrite Heq.
    destruct (rev (Hypotheses.edi_part f)) as [|h rest] eqn:Hrev.
    + apply (f_equal (@rev _)) in Hrev. rewrite rev_involutive in Hrev. done.
    + exists h, (rest ++ rev (Hypotheses.vessel_part f)
                 ++ rev (Hypotheses.container_part f)
                 ++ Hypotheses.base_hypotheses similar_incidents recommended
                      sop_references log_hypotheses).
      split; [done|]. rewrite Forall_forall in Hedi. apply Hedi.
      apply list_elem_of_In, in_rev. rewrite Hrev. by left.
  - intros Hnil Hne. rewrite Heq, Hnil. cbn [rev app].
    destruct (rev (Hypotheses.vessel_part f)) as [|h rest] eqn:Hrev.
    + apply (f_equal (@rev _)) in Hrev. rewrite rev_involutive in Hrev. done.
    + exists h, (rest ++ rev (Hypotheses.container_part f)
                 ++ Hypotheses.base_hypotheses similar_incidents recommended
                      sop_references log_hypotheses).
      split; [done|]. rewrite Forall_forall in Hvessel. apply Hvessel.
      apply list_elem_of_In, in_rev. rewrite Hrev. by left.
Qed.

Lemma C9_hypothesis_order_witness :
  exists h rest,
    Hypotheses.build_hypotheses [td_demo] demo_candidates 1 [] (Some demo_findings)
    = h :: rest /\ Hypotheses.confidence h = (90 # 100)%Q.
Proof.
  refine (proj1 (proj2 (proj2 (proj2 (proj2 (proj2
    (C9_hypothesis_order [td_demo] demo_candidates 1 [] demo_findings)))))) _).
  vm_compute. discriminate.
Defined.
(** * Further properties *)

(** ** The feedback ledger: round trip and invariants *)



Lemma update_first_Forall {A} (P : A -> Prop) (p : A -> bool) (f : A -> A) (l : list A) :
  (forall x, P x -> P (f x)) -> Forall P l -> Forall P (Ledger.update_first p f l).
Proof.
  intros Hf. induction 1 as [|x l Hx Hl IH]; cbn; [constructor|].
  destruct (p x); constructor; auto.
Qed.

Lemma delete_first_Forall {A} (P : A -> Prop) (p : A -> bool) (l : list A) :
  Forall P l -> Forall P (Ledger.delete_first p l).
Proof.
  induction 1 as [|x l Hx Hl IH]; cbn; [constructor|].
  destruct (p x); [done|by constructor].
Qed.

Lemma filter_update_first {A} (p q : A -> bool) (f : A -> A) (l : list A) :
  (forall x, q (f x) = q x) ->
  length (List.filter q (Ledger.update_first p f l)) = length (List.filter q l).
Proof.
  intros Hq. induction l as [|x l IH]; [done|].
  cbn. destruct (p x); cbn.
  - rewrite Hq. by destruct (q x).
  - destruct (q x); cbn; by rewrite IH.
Qed.

Lemma filter_delete_first_le {A} (p q : A -> bool) (l : list A) :
  (length (List.filter q (Ledger.delete_first p l)) <= length (List.filter q l))%nat.
Proof.
  induction l as [|x l IH]; [done|].
  cbn. destruct (p x); cbn; destruct (q x); cbn; lia.
Qed.


(** The five columns of a row decide its identity. *)
Lemma same_identity_eq k k' row :
  Ledger.same_identity k row = true -> Ledger.same_identity k' row = true -> k = k'.
Proof.
  unfold Ledger.same_identity. rewrite !andb_true_iff, !bool_decide_eq_true, !Z.eqb_eq.
  intros ((((H1 & H2) & H3) & H4) & H5) ((((G1 & G2) & G3) & G4) & G5).
  destruct k, k'; cbn in *. congruence.
Qed.



Lemma first_In {A} (p : A -> bool) (l : list A) (x : A) :
  Ledger.first p l = Some x -> In x l /\ p x = true.
Proof.
  unfold Ledger.first. intros H. apply find_some in H. exact H.
Qed.

(** X2: the ledger keeps at most one row per identity.  If no identity
    has two rows, then after a mark request and after an unmark request,
    for any identity, still none has. *)
Theorem X2_one_row_per_identity (d : Ledger.db) (now : Z) (k : Ledger.identity)
    (incident : option string) (step_type : string) :
  one_row_per_identity (Ledger.solution_feedback d) ->
  one_row_per_identity
    (Ledger.solution_feedback (fst (Ledger.mark_step_useful d now k incident step_type)))
  /\
  one_row_per_identity
    (Ledger.solution_feedback (fst (Ledger.unmark_step_useful d now k))).
Proof.
  intros Hinv. split; intros k'.
  - unfold Ledger.mark_step_useful.
    destruct (Ledger.first (Ledger.same_identity k) (Ledger.solution_feedback d))
      as [row|] eqn:Hf; cbn [fst Ledger.solution_feedback].
    + rewrite filter_update_first by done. apply Hinv.
    + rewrite List.filter_app, length_app. cbn [List.filter].
      set (new := SolutionFeedback.mk _ _ _ _ _ _ _ _ _ 1 now).
      destruct (Ledger.same_identity k' new) eqn:Hnew'.
      * assert (k' = k) as ->.
        { eapply same_identity_eq; [exact Hnew'|]. apply same_identity_new. }
        apply first_None_filter in Hf. rewrite Hf. cbn. lia.
      * cbn. rewrite Nat.add_0_r. apply Hinv.
  - unfold Ledger.unmark_step_useful.
    destruct (Ledger.first (Ledger.same_identity k) (Ledger.solution_feedback d))
      as [row|] eqn:Hf; cbn [fst Ledger.solution_feedback]; [|apply Hinv].
    destruct (1 <? SolutionFeedback.usefulness_count row).
    + rewrite filter_update_first by done. apply Hinv.
    + etrans; [apply filter_delete_first_le|apply Hinv].
Qed.

Lemma X2_one_row_per_identity_witness :
  one_row_per_identity
    (Ledger.solution_feedback
       (fst (Ledger.mark_step_useful demo_db 10 demo_identity None "Resolution"))).
Proof.
  refine (proj1 (X2_one_row_per_identity demo_db 10 demo_identity None "Resolution" _)).
  intros k. cbn. destruct (Ledger.same_identity k _); cbn; lia.
Defined.

(** X3: every ledger row counts at least 1.  Marking sets a new row to 1
    or adds 1; unmarking subtracts 1 only above 1 and deletes the row
    otherwise, so no row ever shows a count of zero or less. *)
Theorem X3_counts_positive (d : Ledger.db) (now : Z) (k : Ledger.identity)
    (incident : option string) (step_type : string) :
  counts_positive (Ledger.solution_feedback d) ->
  counts_positive
    (Ledger.solution_feedback (fst (Ledger.mark_step_useful d now k incident step_type)))
  /\
  counts_positive (Ledger.solution_feedback (fst (Ledger.unmark_step_useful d now k))).
Proof.
  unfold counts_positive. intros Hinv. split.
  - unfold Ledger.mark_step_useful.
    destruct (Ledger.first (Ledger.same_identity k) (Ledger.solution_feedback d))
      as [row|] eqn:Hf; cbn [fst Ledger.solution_feedback].
    + apply first_In in Hf as [Hin _].
      rewrite Forall_forall in Hinv. pose proof (Hinv row (proj2 (list_elem_of_In _ _) Hin)).
      apply update_first_Forall; [|by apply Forall_forall].
      intros x _. cbn. lia.
    + apply Forall_app. split; [done|]. by repeat constructor.
  - unfold Ledger.unmark_step_useful.
    destruct (Ledger.first (Ledger.same_identity k) (Ledger.solution_feedback d))
      as [row|] eqn:Hf; cbn [fst Ledger.solution_feedback]; [|done].
    destruct (Z.ltb_spec 1 (SolutionFeedback.usefulness_count row)).
    + apply update_first_Forall; [|done]. intros x _. cbn. lia.
    + by apply delete_first_Forall.
Qed.

Lemma X3_counts_positive_witness :
  counts_positive
    (Ledger.solution_feedback (fst (Ledger.unmark_step_useful demo_db 20 demo_identity))).
Proof.
  refine (proj2 (X3_counts_positive demo_db 20 demo_identity None "Resolution" _)).
  repeat constructor. cbn. lia.
Defined.

(** X4: unmarking a tuple whose single row counts n > 1 keeps the row and
    sets its count to n - 1; no row is added or removed. *)
Theorem X4_unmark_decrements (d : Ledger.db) (now : Z) (k : Ledger.identity)
    (row : SolutionFeedback.t) :
  List.filter (Ledger.same_identity k) (Ledger.solution_feedback d) = [row] ->
  1 < SolutionFeedback.usefulness_count row ->
  let r := Ledger.unmark_step_useful d now k in
  snd r = Ledger.UnmarkSuccess /\
  length (Ledger.solution_feedback (fst r)) = length (Ledger.solution_feedback d) /\
  exists row',
    List.filter (Ledger.same_identity k) (Ledger.solution_feedback (fst r)) = [row'] /\
    SolutionFeedback.usefulness_count row' = SolutionFeedback.usefulness_count row - 1 /\
    SolutionFeedback.id row' = SolutionFeedback.id row /\
    SolutionFeedback.marked_at row' = now.
Proof.
  intros Hone Hcount r. subst r. unfold Ledger.unmark_step_useful.
  destruct (Ledger.first (Ledger.same_identity k) (Ledger.solution_feedback d))
    as [r0|] eqn:Hf; [|apply first_None_filter in Hf; congruence].
  destruct (first_Some_split k _ _ Hf) as (pre & post & E & Hpre & Hr).
  rewrite E in Hone |- *. rewrite List.filter_app, Hpre in Hone. cbn in Hone.
  rewrite Hr in Hone. injection Hone as -> Hpost.
  rewrite (proj2 (Z.ltb_lt _ _) Hcount). cbn [fst snd Ledger.solution_feedback].
  rewrite update_first_split by done.
  split; [done|]. split; [by rewrite !length_app|].
  eexists. rewrite List.filter_app, Hpre. cbn [List.filter app].
  rewrite same_with_feedback_count, Hr, Hpost. done.
Qed.

Lemma X4_unmark_decrements_witness :
  snd (Ledger.unmark_step_useful demo_db 20
         (Ledger.mk_identity "expire the advice" 1 None (Some 3) None))
  = Ledger.UnmarkSuccess.
Proof.
  refine (proj1 (X4_unmark_decrements demo_db 20
    (Ledger.mk_identity "expire the advice" 1 None (Some 3) None)
    (SolutionFeedback.mk 1 "Vessel advice rejected" "expire the advice" 1 "Resolution"
       "Training Data" None (Some 3) None 3 0) _ _)).
  - vm_compute. reflexivity.
  - cbn. lia.
Defined.

(** X5: the usefulness counters of the knowledge and training rows never
    become negative: marking adds 1, and unmarking subtracts 1 only from a
    counter above zero. *)
Theorem X5_source_counters_nonneg (d : Ledger.db) (now : Z) (k : Ledger.identity)
    (incident : option string) (step_type : string) :
  sources_nonneg d ->
  sources_nonneg (fst (Ledger.mark_step_useful d now k incident step_type)) /\
  sources_nonneg (fst (Ledger.unmark_step_useful d now k)).
Proof.
  intros [Hkb Htd]. split.
  - unfold Ledger.mark_step_useful, sources_nonneg.
    destruct (Ledger.first _ _); cbn [fst Ledger.knowledge_base Ledger.training_data];
      (split;
       [destruct (Ledger.truthy (Ledger.knowledge_base_id k)); [|done];
        apply update_first_Forall; [|done]; intros e He; cbn; lia
       |destruct (Ledger.truthy (Ledger.knowledge_base_id k)); [done|];
        destruct (Ledger.truthy (Ledger.training_data_id k)); [|done];
        apply update_first_Forall; [|done]; intros e He;
        unfold TrainingData.usefulness_count_int at 1; cbn; lia]).
  - unfold Ledger.unmark_step_useful, sources_nonneg.
    destruct (Ledger.first _ _); cbn [fst Ledger.knowledge_base Ledger.training_data];
      [|done].
    split.
    + destruct (Ledger.truthy (Ledger.knowledge_base_id k)); [|done].
      apply update_first_Forall; [|done]. intros e He.
      destruct (Z.ltb_spec 0 (KnowledgeBase.usefulness_count e)); [|done]. cbn. lia.
    + destruct (Ledger.truthy (Ledger.knowledge_base_id k)); [done|].
      destruct (Ledger.truthy (Ledger.training_data_id k)); [|done].
      apply update_first_Forall; [|done]. intros e He.
      destruct (Z.ltb_spec 0 (TrainingData.usefulness_count_int e)); [|done].
      unfold TrainingData.usefulness_count_int at 1. cbn. lia.
Qed.

Lemma X5_source_counters_nonneg_witness :
  sources_nonneg (fst (Ledger.unmark_step_useful demo_db 20 demo_identity)).
Proof.
  refine (proj2 (X5_source_counters_nonneg demo_db 20 demo_identity None "Resolution" _)).
  split; repeat constructor; cbn; lia.
Defined.

(** ** Retrieval: usage statistics, thresholds and the top of the ranking *)

(** X6: a knowledge retrieval changes nothing of the session but usage
    statistics: every row keeps its place and its document fields, its
    view_count stays or grows by one, rows that are not Active are
    untouched, and every returned entry carries last_used = now. *)
Theorem X6_retrieval_updates_only_usage (db : list KnowledgeBase.t) (now : Z)
    (query : string) (limit : Z) :
  let r := KnowledgeBaseService.find_relevant_knowledge_async db now query limit in
  Forall2 (fun e e' =>
             same_document e e' /\
             KnowledgeBase.view_count e <= KnowledgeBase.view_count e'
               <= KnowledgeBase.view_count e + 1 /\
             (KnowledgeBase.status e <> "Active" -> e' = e))
          db (snd r)
  /\ Forall (fun e => KnowledgeBase.last_used e = Some now) (fst r).
Proof.
  intros r. subst r. unfold KnowledgeBaseService.find_relevant_knowledge_async.
  cbn [fst snd]. split.
  - apply Forall2_fmap_r, Forall_Forall2_diag, Forall_forall. intros e _.
    unfold compose. cbv beta zeta.
    destruct (bool_decide (KnowledgeBase.status e = "Active")) eqn:Hs; cbn [andb].
    + apply bool_decide_eq_true in Hs.
      destruct (existsb _ _).
      * split_and!; [by repeat split|cbn; lia|cbn; lia|done].
      * split_and!; [by repeat split|lia|lia|done].
    + split_and!; [by repeat split|lia|lia|done].
  - apply Forall_forall. intros e He.
    apply list_elem_of_In, in_map_iff in He as (p & <- & _). done.
Qed.

Lemma starts_with_refl s : PyStr.starts_with s s = true.
Proof. induction s as [|c s IH]; [done|]. cbn. by rewrite bool_decide_eq_true_2, IH. Qed.

Lemma contains_refl s : PyStr.contains s s = true.
Proof. destruct s; cbn; [done|]. by rewrite bool_decide_eq_true_2, starts_with_refl. Qed.

(** X7: a training case queried with its own description scores 1.0,
    whenever the description has at least one word: the word sets
    coincide and the phrase bonus pushes the sum over the clamp. *)
Theorem X7_similarity_of_own_description (self : TrainingData.t) :
  PyStr.word_set (PyStr.lower (TrainingData.incident_description self)) <> ∅ ->
  (TrainingData.calculate_similarity self (TrainingData.incident_description self) == 1)%Q.
Proof.
  intros Hwords. unfold TrainingData.calculate_similarity.
  set (w := PyStr.word_set (PyStr.lower (TrainingData.incident_description self))) in *.
  rewrite bool_decide_eq_false_2 by done.
  assert (w ∩ w = w) as -> by set_solver.
  assert (w ∪ w = w) as -> by set_solver.
  rewrite bool_decide_eq_false_2 by done.
  rewrite contains_refl.
  assert (0 < size w)%nat as Hsize.
  { destruct (size w) eqn:E; [|lia]. apply size_empty_iff in E.
    by apply leibniz_equiv in E. }
  assert (Qnat (size w) / Qnat (size w) == 1)%Q as Hj.
  { apply Qmult_inv_r. intros H0. pose proof (Qnat_pos _ Hsize) as Hpos.
    rewrite H0 in Hpos. by apply Qlt_irrefl in Hpos. }
  set (j := (Qnat (size w) / Qnat (size w))%Q) in *.
  apply Qle_antisym; [apply Q.le_min_r|].
  apply Q.min_glb; [|apply Qle_refl].
  destruct (PyStr.contains _ _); lra.
Qed.

Lemma X7_similarity_of_own_description_witness :
  (TrainingData.calculate_similarity td_demo (TrainingData.incident_description td_demo) == 1)%Q.
Proof. apply X7_similarity_of_own_description. vm_compute. discriminate. Defined.

(** X8: a knowledge entry of priority 3 or more passes the 0.1 filter of
    retrieval for every query, related or not: the priority bonus alone
    is at least 0.15. *)
Theorem X8_high_priority_always_relevant (self : KnowledgeBase.t) (now : Z)
    (query : string) :
  3 <= KnowledgeBase.priority self ->
  Qltb (1 # 10) (KnowledgeBase.calculate_relevance self now query) = true.
Proof.
  intros Hp. apply Qltb_lt.
  apply Qlt_le_trans with (15 # 100)%Q; [reflexivity|].
  unfold KnowledgeBase.calculate_relevance.
  set (qw := PyStr.word_set (PyStr.lower query)).
  set (tm := size (qw ∩ _)). set (cm := size (qw ∩ _)).
  assert (15 # 100 <= inject_Z (KnowledgeBase.priority self) * (5 # 100))%Q as Hprio.
  { change (15 # 100)%Q with (inject_Z 3 * (5 # 100))%Q.
    apply Qmult_le_compat_r; [|discriminate]. rewrite <- Zle_Qle. lia. }
  assert (0 <= (2 # 10) * (Qnat tm / Qnat (size qw)))%Q as Ht.
  { apply Qmult_le_0_compat; [discriminate|].
    apply Qnat_frac_bounds, subseteq_size, intersection_subseteq_l. }
  assert (0 <= (1 # 10) * (Qnat cm / Qnat (size qw)))%Q as Hc.
  { apply Qmult_le_0_compat; [discriminate|].
    apply Qnat_frac_bounds, subseteq_size, intersection_subseteq_l. }
  apply Q.min_glb; [|discriminate].
  destruct (KnowledgeBase.last_used self) as [last|].
  - destruct (0 <? KnowledgeBase.view_count self) eqn:Hv.
    + apply Z.ltb_lt in Hv.
      pose proof (usage_bonus_nonneg _ (KnowledgeBase.days_between now last) Hv) as Hu.
      repeat match goal with |- context [if ?b then _ else _] => destruct b end; lra.
    + repeat match goal with |- context [if ?b then _ else _] => destruct b end; lra.
  - repeat match goal with |- context [if ?b then _ else _] => destruct b end; lra.
Qed.

Lemma X8_high_priority_always_relevant_witness :
  Qltb (1 # 10)
    (KnowledgeBase.calculate_relevance
       (KnowledgeBase.mk 3 "Container draft" "container" "" "" 4 "Draft" 0 9 None)
       0 "vessel berth delay") = true.
Proof. apply X8_high_priority_always_relevant. cbn. lia. Defined.

(** *** Letter case *)

Lemma lower_char_idem c : PyStr.lower_char (PyStr.lower_char c) = PyStr.lower_char c.
Proof. destruct c as [[] [] [] [] [] [] [] []]; reflexivity. Qed.

Lemma lower_upper_char c : PyStr.lower_char (PyStr.upper_char c) = PyStr.lower_char c.
Proof. destruct c as [[] [] [] [] [] [] [] []]; reflexivity. Qed.


Lemma lower_idem s : PyStr.lower (PyStr.lower s) = PyStr.lower s.
Proof. induction s as [|c s IH]; [done|]. cbn. by rewrite lower_char_idem, IH. Qed.

Lemma lower_upper s : PyStr.lower (PyStr.upper s) = PyStr.lower s.
Proof. induction s as [|c s IH]; [done|]. cbn. by rewrite lower_upper_char, IH. Qed.


Lemma StronglySorted_app_cross {A} (R : A -> A -> Prop) (l1 l2 : list A) :
  StronglySorted R (l1 ++ l2) -> forall x y, In x l1 -> In y l2 -> R x y.
Proof.
  induction l1 as [|a l1 IH]; intros Hs x y Hx Hy; [done|].
  cbn in Hs. apply StronglySorted_inv in Hs as [Hs Ha].
  destruct Hx as [->|Hx]; [|by apply IH].
  rewrite Forall_forall in Ha. apply Ha, list_elem_of_In, in_or_app. by right.
Qed.

(** ** Solution fusion: bounds, distinct texts, verification *)

Lemma str_or_nonempty a b : b <> "" -> Fusion.str_or a b <> "".
Proof. unfold Fusion.str_or. by case_bool_decide. Qed.

Lemma take_length n s : (String.length (PyStr.take n s) <= n)%nat.
Proof.
  revert s. induction n as [|n IH]; intros [|c s]; cbn; try lia.
  specialize (IH s). lia.
Qed.

Lemma append_length a b : String.length (a +:+ b) = (String.length a + String.length b)%nat.
Proof. induction a as [|c a IH]; [done|]. rewrite app_cons. cbn. by rewrite IH. Qed.

Lemma take_nonempty n s : (0 < n)%nat -> s <> "" -> PyStr.take n s <> "".
Proof. intros Hn Hs. destruct n; [lia|]. by destruct s. Qed.

Lemma recommended_solutions_elem rows top s :
  In s (Fusion.recommended_solutions_data rows top) ->
  exists idx sm, In sm top /\ s = Fusion.solution_obj rows idx sm.
Proof.
  unfold Fusion.recommended_solutions_data. rewrite in_map_iff.
  intros ([idx sm] & <- & Hin). exists idx, sm. split; [|done].
  apply list_elem_of_In. eapply enumerate_elem. by apply list_elem_of_In.
Qed.

Lemma finalize_elem sols s :
  In s (Fusion.finalize sols) -> exists idx s0, In s0 sols /\ s = Fusion.set_order idx s0.
Proof.
  unfold Fusion.finalize. rewrite in_map_iff. intros ([idx s0] & <- & Hin).
  exists idx, s0. split; [|done].
  apply list_elem_of_In, enumerate_elem in Hin.
  unfold PyList.sort_by in Hin. rewrite sorted_perm in Hin.
  apply list_elem_of_In.
  eapply sublist_subseteq; [apply unique_solutions_sublist|exact Hin].
Qed.

(** X13: verification by feedback.  A solution marked user_verified
    always shows the usefulness count of a ledger row, hence a positive
    one; and a training solution whose text equals, up to letter case,
    the solution_description of a ledger row with a positive count is
    marked user_verified. *)
Theorem X13_verified_by_feedback (feedback : list SolutionFeedback.t) (idx : Z)
    (sm : Fusion.scored_match) :
  let s := Fusion.solution_obj (Fusion.feedback_rows feedback) idx sm in
  let text :=
    Fusion.str_or (TrainingData.expected_root_cause (Fusion.match_ sm))
      (Fusion.str_or (TrainingData.incident_description (Fusion.match_ sm))
         "See training data") in
  (Fusion.user_verified s = true ->
     exists row, In row feedback /\
                 Fusion.usefulness_count s = SolutionFeedback.usefulness_count row /\
                 0 < Fusion.usefulness_count s)
  /\
  (forall row, In row feedback -> 0 < SolutionFeedback.usefulness_count row ->
     PyStr.lower (SolutionFeedback.solution_description row) = PyStr.lower text ->
     Fusion.user_verified s = true).
Proof.
  intros s text. subst s. cbn [Fusion.solution_obj Fusion.user_verified Fusion.usefulness_count].
  fold text.
  assert (text <> "") as Htext.
  { apply str_or_nonempty, str_or_nonempty. discriminate. }
  split.
  - intros Hv. apply bool_decide_eq_true in Hv as [row Hrow]. rewrite Hrow.
    unfold Fusion.first_feedback in Hrow. apply find_some in Hrow as [Hin _].
    unfold Fusion.feedback_rows in Hin. apply filter_In in Hin as [Hin Hpos].
    exists row. split_and!; [done|done|by apply Z.ltb_lt].
  - intros row Hin Hpos Heq. apply bool_decide_eq_true.
    destruct (Fusion.first_feedback text (Fusion.feedback_rows feedback)) as [r|] eqn:Hf;
      [by eexists|].
    exfalso. unfold Fusion.first_feedback in Hf.
    assert (In row (Fusion.feedback_rows feedback)) as Hrow.
    { unfold Fusion.feedback_rows. apply filter_In. split; [done|by apply Z.ltb_lt]. }
    pose proof (find_none _ _ Hf row Hrow) as Hno.
    unfold Fusion.feedback_matches in Hno. rewrite Heq, contains_refl in Hno.
    rewrite (bool_decide_eq_false_2 (text = "")) in Hno by done.
    rewrite bool_decide_eq_false_2 in Hno; [done|].
    intros Hempty. rewrite Hempty in Heq. destruct text; [done|discriminate].
Qed.

Lemma X13_verified_by_feedback_witness :
  Fusion.user_verified
    (Fusion.solution_obj (Fusion.feedback_rows demo_feedback) 1
       (Fusion.mk_scored (TrainingData.mk 3 "VESSEL_ERR_4 raised" "Expire The Advice" "" "" 1 None)
          200 "exact")) = true.
Proof.
  refine (proj2 (X13_verified_by_feedback demo_feedback 1 _) _ _ _ _).
  - left. reflexivity.
  - reflexivity.
  - reflexivity.
Defined.

(** *** Pooling by id *)

Lemma dedupe_by_id_keys {A} (id : A -> Z) (seen : gset Z) (l : list A) :
  NoDup (map id (dedupe_by_id id seen l)) /\
  forall i, i ∈ map id (dedupe_by_id id seen l) <-> (i ∉ seen) /\ (i ∈ map id l).
Proof.
  revert seen. induction l as [|m rest IH]; intros seen.
  - split; [constructor|]. intros i. cbn. rewrite elem_of_nil. tauto.
  - cbn [dedupe_by_id map]. case_bool_decide as Hseen.
    + destruct (IH seen) as [Hnd Hmem]. split; [done|].
      intros i. rewrite Hmem, elem_of_cons. naive_solver.
    + destruct (IH ({[id m]} ∪ seen)) as [Hnd Hmem]. split.
      * cbn [map]. apply NoDup_cons. split; [|done]. rewrite Hmem. set_solver.
      * intros i. cbn [map]. rewrite !elem_of_cons, Hmem.
        destruct (decide (i = id m)) as [->|Hne]; set_solver.
Qed.

Lemma dedupe_by_id_sublist {A} (id : A -> Z) (seen : gset Z) (l : list A) :
  dedupe_by_id id seen l `sublist_of` l.
Proof.
  revert seen. induction l as [|m rest IH]; intros seen; [done|].
  cbn [dedupe_by_id]. case_bool_decide.
  - by apply sublist_cons.
  - by apply sublist_skip.
Qed.

(** The first match of the pool is always kept. *)
Lemma dedupe_by_id_head {A} (id : A -> Z) (m : A) (l : list A) :
  head (dedupe_by_id id ∅ (m :: l)) = Some m.
Proof. cbn [dedupe_by_id]. rewrite bool_decide_eq_false_2 by set_solver. done. Qed.

(** X14: pooling the exact, keyword and category matches by id keeps one
    match per id: the pooled list has no id twice, has every id of the
    three passes, and lists its matches in the order of the passes (it is
    a sublist of their concatenation). *)
Theorem X14_matches_pooled_by_id
    (exact_matches keyword_matches category_matches : list TrainingData.t) :
  let pool := exact_matches ++ keyword_matches ++ category_matches in
  let unique := unique_training_matches exact_matches keyword_matches category_matches in
  NoDup (map TrainingData.id unique) /\
  (forall i, i ∈ map TrainingData.id unique <-> i ∈ map TrainingData.id pool) /\
  unique `sublist_of` pool.
Proof.
  intros pool unique. subst unique. unfold unique_training_matches. fold pool.
  destruct (dedupe_by_id_keys TrainingData.id ∅ pool) as [Hnd Hmem].
  split_and!; [done| |apply dedupe_by_id_sublist].
  intros i. rewrite Hmem. set_solver.
Qed.

(** ** The operational correlator: further cases *)

Lemma time_span_sorted_desc (first : Ops.Container) (rest : list Ops.Container)
    (earliest latest : Z) :
  StronglySorted (fun a b => Ops.created_at b <= Ops.created_at a) (first :: rest) ->
  Ops.time_span (first :: rest) earliest latest ->
  Ops.created_at first - Ops.created_at (List.last (first :: rest) first)
  = latest - earliest.
Proof.
  intros Hsorted (He & Hl & Hb).
  destruct (sorted_desc_last Ops.created_at first first rest Hsorted) as [_ Hmin].
  apply in_map_iff in He as (ce & <- & Hce).
  apply in_map_iff in Hl as (cl & <- & Hcl).
  pose proof (last_In first first rest) as Hlast.
  pose proof (Hb _ Hlast). pose proof (Hmin _ Hce).
  pose proof (Hb first (or_introl eq_refl)).
  apply StronglySorted_inv in Hsorted as [_ Hx].
  rewrite Forall_forall in Hx.
  assert (Ops.created_at cl <= Ops.created_at first).
  { destruct Hcl as [<-|Hcl]; [lia|]. apply Hx. by apply list_elem_of_In. }
  lia.
Qed.

(** X15: versions of a container that agree on status, vessel, origin and
    destination and span 5 seconds or more are not a duplicate insert:
    the issue stays composite_pk_versioning, the data is reported
    identical and no root cause is given.  Exactly 5 seconds is on this
    side of the test. *)
Theorem X15_versions_apart_are_versioning (isoformat format_seconds : Z -> string)
    (db : Ops.ops_db) (number : string) (first : Ops.Container)
    (rest : list Ops.Container) (earliest latest : Z) :
  Ops.get_container_by_number db number = first :: rest ->
  rest <> [] ->
  (forall c, In c rest -> Ops.differs first c = false) ->
  Ops.time_span (first :: rest) earliest latest ->
  Ops.microseconds 5 <= latest - earliest ->
  let r := Ops.detect_container_duplicates isoformat format_seconds db number in
  Ops.has_duplicates r = true /\
  Ops.identical_data r = Some true /\
  Ops.issue_type r = Some "composite_pk_versioning" /\
  Ops.root_cause r = None.
Proof.
  intros Hrows Hrest Hsame Hspan Hfar r. subst r.
  unfold Ops.detect_container_duplicates.
  pose proof (sort_by_desc_sorted Ops.created_at
    (List.filter (fun c => bool_decide (Ops.cntr_no c = PyStr.upper number))
       (Ops.containers db))) as Hsorted.
  fold (Ops.get_container_by_number db number) in Hsorted.
  rewrite Hrows in Hsorted |- *.
  destruct rest as [|y l]; [done|].
  assert (existsb (Ops.differs first) (y :: l) = false) as ->.
  { destruct (existsb _ _) eqn:Hex; [|done].
    apply existsb_exists in Hex as (c & Hc & Hd). rewrite (Hsame c Hc) in Hd. done. }
  rewrite (time_span_sorted_desc first (y :: l) earliest latest Hsorted Hspan).
  rewrite (proj2 (Z.ltb_ge _ _) Hfar). done.
Qed.

Lemma X15_versions_apart_are_versioning_witness :
  Ops.issue_type
    (Ops.detect_container_duplicates str_of_Z str_of_Z
       (Ops.mk_ops [demo_container Ops.IN_YARD 100; demo_container Ops.IN_YARD 105] [] [] [])
       "MSKU0000001")
  = Some "composite_pk_versioning".
Proof.
  refine (proj1 (proj2 (proj2 (X15_versions_apart_are_versioning str_of_Z str_of_Z
    (Ops.mk_ops [demo_container Ops.IN_YARD 100; demo_container Ops.IN_YARD 105] [] [] [])
    "MSKU0000001" (demo_container Ops.IN_YARD 105) [demo_container Ops.IN_YARD 100]
    (Ops.microseconds 100) (Ops.microseconds 105) _ _ _ _ _)))).
  - vm_compute. reflexivity.
  - discriminate.
  - intros c [<-|[]]. vm_compute. reflexivity.
  - split_and!; [right; left; reflexivity | left; reflexivity |].
    intros c Hc. destruct Hc as [<-|[<-|[]]]; vm_compute; split; discriminate.
  - vm_compute. discriminate.
Defined.


(** *** Cascades: size and duration *)

Lemma StronglySorted_concat_each {A} (R : A -> A -> Prop) (gs : list (list A)) :
  StronglySorted R (concat gs) -> Forall (StronglySorted R) gs.
Proof.
  induction gs as [|g gs IH]; [constructor|].
  cbn. intros Hs. constructor.
  - clear IH. induction g as [|x g IHg]; [constructor|].
    cbn in Hs. apply StronglySorted_inv in Hs as [Hs Hx].
    constructor; [by apply IHg|].
    rewrite Forall_forall in *. intros y Hy. apply Hx.
    apply list_elem_of_In, in_or_app. left. by apply list_elem_of_In.
  - apply IH. clear IH. induction g as [|x g IHg]; [done|].
    cbn in Hs. apply StronglySorted_inv in Hs as [Hs _]. by apply IHg.
Qed.

Lemma chained_duration (window : Z) (x d : Ops.APIEvent) (g : list Ops.APIEvent) :
  0 <= window ->
  Ops.chained window (x :: g) ->
  Ops.event_ts (List.last (x :: g) d) - Ops.event_ts x
  <= Z.of_nat (length g) * Ops.microseconds window.
Proof.
  intros Hw. revert x. induction g as [|y g IH]; intros x Hc.
  - cbn. lia.
  - destruct Hc as [Hgap Hc]. specialize (IH y Hc).
    change (List.last (x :: y :: g) d) with (List.last (y :: g) d).
    cbn [length]. unfold Ops.microseconds in *. nia.
Qed.

Lemma sorted_asc_last (x d : Ops.APIEvent) (g : list Ops.APIEvent) :
  StronglySorted (fun a b => Ops.event_ts a <= Ops.event_ts b) (x :: g) ->
  Ops.event_ts x <= Ops.event_ts (List.last (x :: g) d).
Proof.
  intros Hs. apply StronglySorted_inv in Hs as [_ Hx].
  destruct g as [|y g]; [cbn; lia|].
  rewrite Forall_forall in Hx. apply Hx, list_elem_of_In.
  change (List.last (x :: y :: g) d) with (List.last (y :: g) d). apply last_In.
Qed.

Lemma cascade_groups (isoformat : Z -> string) (db : Ops.ops_db)
    (start end_ window : Z) (d : Ops.APIEvent) :
  let evs := Ops.error_events db start end_ in
  let gs := Ops.groups window evs in
  StronglySorted (fun a b => Ops.event_ts a <= Ops.event_ts b) evs /\
  concat gs = evs /\
  Forall (Ops.chained window) gs /\
  Ops.detect_api_event_cascade isoformat db start end_ window
  = map (Ops.cascade_of isoformat d) (List.filter reportable gs).
Proof.
  intros evs gs. split_and!.
  - apply sort_by_asc_sorted.
  - apply groups_concat.
  - apply groups_chained.
  - apply (cascades_of_events_groups isoformat window d).
Qed.

(** X17: every reported cascade has at least two events, as many event
    records as its event_count says, and, for a window that is not
    negative, a duration between 0 and (event_count - 1) windows. *)
Theorem X17_cascade_size_and_duration (isoformat : Z -> string) (db : Ops.ops_db)
    (start end_ window : Z) (c : Ops.cascade) :
  0 <= window ->
  In c (Ops.detect_api_event_cascade isoformat db start end_ window) ->
  (2 <= Ops.event_count c)%nat /\
  length (Ops.events c) = Ops.event_count c /\
  0 <= Ops.duration_seconds c
    <= (Z.of_nat (Ops.event_count c) - 1) * Ops.microseconds window.
Proof.
  intros Hw Hc.
  set (d := Ops.mk_event 0 "" "" None 0).
  destruct (cascade_groups isoformat db start end_ window d)
    as (Hsorted & Hconcat & Hgroups & Hout).
  rewrite Hout in Hc. apply in_map_iff in Hc as (g & <- & Hg).
  apply filter_In in Hg as [Hg Hbig]. apply Nat.leb_le in Hbig.
  rewrite <- Hconcat in Hsorted. apply StronglySorted_concat_each in Hsorted.
  rewrite Forall_forall in Hsorted, Hgroups.
  apply list_elem_of_In in Hg.
  pose proof (Hsorted g Hg) as Hgs. pose proof (Hgroups g Hg) as Hchain.
  destruct g as [|x g]; [cbn in Hbig; lia|].
  cbn [Ops.cascade_of Ops.event_count Ops.events Ops.duration_seconds List.hd].
  split_and!; [done|by rewrite length_map| |].
  - pose proof (sorted_asc_last x d g Hgs). lia.
  - pose proof (chained_duration window x d g Hw Hchain). cbn [length]. lia.
Qed.

Lemma X17_cascade_size_and_duration_witness :
  let c := Ops.cascade_of str_of_Z (demo_event 1 0)
             [demo_event 1 0; demo_event 2 3; demo_event 3 7] in
  0 <= Ops.duration_seconds c <= (Z.of_nat (Ops.event_count c) - 1) * Ops.microseconds 10.
Proof.
  intros c.
  refine (proj2 (proj2 (X17_cascade_size_and_duration str_of_Z demo_ops_events 0
                          (Ops.microseconds 60) 10 c _ _))).
  - lia.
  - left. reflexivity.
Defined.

(** X18: no error event is counted in two cascades: the event counts of
    the reported cascades add up to at most the number of events with
    status >= 400 in the window; with fewer than two such events nothing
    is reported. *)
Theorem X18_cascades_count_events_once (isoformat : Z -> string) (db : Ops.ops_db)
    (start end_ window : Z) :
  let out := Ops.detect_api_event_cascade isoformat db start end_ window in
  (list_sum (map Ops.event_count out) <= length (Ops.error_events db start end_))%nat /\
  ((length (Ops.error_events db start end_) < 2)%nat -> out = []).
Proof.
  cbv zeta.
  set (d := Ops.mk_event 0 "" "" None 0).
  destruct (cascade_groups isoformat db start end_ window d)
    as (_ & Hconcat & _ & Hout).
  rewrite Hout. clear Hout.
  set (gs := Ops.groups window (Ops.error_events db start end_)) in *.
  rewrite <- Hconcat. clearbody gs. clear Hconcat.
  assert (list_sum (map Ops.event_count
            (map (Ops.cascade_of isoformat d) (List.filter reportable gs)))
          <= length (concat gs))%nat as Hsum.
  { induction gs as [|g gs IH]; [done|].
    cbn [List.filter concat]. rewrite length_app.
    destruct (reportable g); cbn [map list_sum Ops.cascade_of Ops.event_count];
      [change (list_sum (?x :: ?l)) with (x + list_sum l)%nat|]; lia. }
  split; [done|].
  intros Hfew.
  destruct (List.filter reportable gs) as [|g l] eqn:E; [done|]. exfalso.
  assert (In g (List.filter reportable gs)) as Hg by (rewrite E; by left).
  apply filter_In in Hg as [_ Hg]. apply Nat.leb_le in Hg.
  cbn [map list_sum Ops.cascade_of Ops.event_count] in Hsum.
  change (list_sum (?x :: ?l)) with (x + list_sum l)%nat in Hsum. lia.
Qed.

(** ** EDI error analysis *)

Lemma starts_with_iff p s : PyStr.starts_with p s = true <-> exists post, s = p +:+ post.
Proof.
  revert s. induction p as [|a p IH]; intros s.
  - cbn. split; [intros _; by exists s|done].
  - destruct s as [|b s]; cbn.
    + split; [done|]. intros [post E]. rewrite app_cons in E. discriminate.
    + rewrite andb_true_iff, bool_decide_eq_true, IH. split.
      * intros [-> [post ->]]. by exists post.
      * intros [post E]. rewrite app_cons in E. injection E as -> ->. eauto.
Qed.

Lemma contains_iff n h :
  PyStr.contains n h = true <-> exists pre post, h = pre +:+ n +:+ post.
Proof.
  induction h as [|c h IH]; cbn [PyStr.contains].
  - rewrite orb_false_r, starts_with_iff. split.
    + intros [post E]. by exists "", post.
    + intros (pre & post & E). destruct pre; [|rewrite app_cons in E; discriminate].
      rewrite app_empty_l in E. by exists post.
  - rewrite orb_true_iff, starts_with_iff, IH. split.
    + intros [[post E]|(pre & post & ->)].
      * by exists "", post.
      * by exists (String c pre), post.
    + intros (pre & post & E). destruct pre as [|c' pre].
      * left. rewrite app_empty_l in E. by exists post.
      * rewrite app_cons in E. injection E as -> ->. right. by exists pre, post.
Qed.

(** X19: the analysis of an EDI reference.  An unknown reference gives
    the not-found answer; a known one describes the first message with
    that reference.  Root cause and solution are set together, exactly
    when the error text is present and contains, in any letter case,
    "segment missing", "validation" or "timeout"; "segment missing"
    decides before "validation", and "validation" before "timeout". *)
Theorem X19_analyze_edi_error (isoformat : Z -> string)
    (messages : list Edi.EDIMessage) (ref : string) :
  (Edi.analyze_edi_error isoformat messages ref = None <->
   forall m, In m messages -> Edi.message_ref m <> ref)
  /\
  (forall a, Edi.analyze_edi_error isoformat messages ref = Some a ->
     exists m pre post,
       messages = pre ++ m :: post /\ Edi.message_ref m = ref /\
       (forall m', In m' pre -> Edi.message_ref m' <> ref) /\
       Edi.a_message_ref a = ref /\ Edi.a_error_text a = Edi.error_text m /\
       (is_Some (Edi.a_root_cause a) <-> is_Some (Edi.a_solution a)) /\
       (is_Some (Edi.a_root_cause a) <->
        exists text, Edi.error_text m = Some text /\
          (PyStr.contains "segment missing" (PyStr.lower text) = true \/
           PyStr.contains "validation" (PyStr.lower text) = true \/
           PyStr.contains "timeout" (PyStr.lower text) = true)) /\
       (forall text, Edi.error_text m = Some text ->
          PyStr.contains "segment missing" (PyStr.lower text) = true ->
          Edi.a_root_cause a
          = Some "EDI message structure incomplete - required segment not found") /\
       (forall text, Edi.error_text m = Some text ->
          PyStr.contains "segment missing" (PyStr.lower text) = false ->
          PyStr.contains "validation" (PyStr.lower text) = true ->
          Edi.a_root_cause a
          = Some "EDI message validation failed - invalid data format or values")).
Proof.
  unfold Edi.analyze_edi_error, Edi.get_edi_by_reference. split.
  - destruct (List.find _ messages) as [m|] eqn:Hf.
    + split; [done|]. intros Hall. apply find_some in Hf as [Hin Hm].
      apply bool_decide_eq_true in Hm. by destruct (Hall m Hin).
    + split; [|done]. intros _ m Hin Href.
      pose proof (find_none _ _ Hf m Hin) as Hm. cbn in Hm.
      by rewrite bool_decide_eq_true_2 in Hm.
  - intros a Ha.
    destruct (List.find _ messages) as [m|] eqn:Hf; [|done].
    injection Ha as <-.
    assert (exists pre post, messages = pre ++ m :: post /\ Edi.message_ref m = ref /\
              forall m', In m' pre -> Edi.message_ref m' <> ref) as (pre & post & E & Hm & Hpre).
    { clear -Hf. induction messages as [|x l IH]; [done|].
      cbn in Hf. case_bool_decide as Hx.
      - injection Hf as ->. exists [], l. by split_and!.
      - destruct (IH Hf) as (pre & post & -> & Hm & Hpre).
        exists (x :: pre), post. split_and!; [done|done|].
        intros m' [<-|Hin]; [done|by apply Hpre]. }
    exists m, pre, post. cbn [Edi.a_message_ref Edi.a_error_text Edi.a_root_cause Edi.a_solution].
    split_and!; try done.
    + destruct (Edi.error_text m) as [text|]; [|by split; intros [? ?]].
      case_bool_decide; [by split; intros [? ?]|].
      destruct (Edi.classify _); [by split; eauto|by split; intros [? ?]].
    + destruct (Edi.error_text m) as [text|]; [|split; [by intros [? ?]|by intros (? & ? & _)]].
      case_bool_decide as Hempty.
      * subst text. split; [by intros [? ?]|]. intros (t & [= <-] & Hc).
        cbn in Hc. naive_solver.
      * unfold Edi.classify. split.
        -- intros Hsome. exists text. split; [done|].
           destruct (PyStr.contains "segment missing" _); [by left|].
           destruct (PyStr.contains "validation" _); [by right; left|].
           destruct (PyStr.contains "timeout" _); [by right; right|].
           by destruct Hsome.
        -- intros (t & [= <-] & Hc).
           destruct (PyStr.contains "segment missing" _); [by eexists|].
           destruct (PyStr.contains "validation" _); [by eexists|].
           destruct (PyStr.contains "timeout" _); [by eexists|].
           naive_solver.
    + intros text [= ->] Hc. rewrite bool_decide_eq_false_2.
      * unfold Edi.classify. by rewrite Hc.
      * intros ->. cbn in Hc. done.
    + intros text [= ->] Hc1 Hc2. rewrite bool_decide_eq_false_2.
      * unfold Edi.classify. by rewrite Hc1, Hc2.
      * intros ->. cbn in Hc2. done.
Qed.

(** ** Hypotheses from the operational findings *)

Lemma length_omap_omap {A B C} (h : A -> option B) (g : B -> option C)
    (p : A -> bool) (l : list A) :
  (forall x, p x = true <-> exists y z, h x = Some y /\ g y = Some z) ->
  length (omap g (omap h l)) = length (List.filter p l).
Proof.
  intros Hp. induction l as [|x l IH]; [done|].
  simpl. destruct (p x) eqn:E.
  - apply Hp in E as (y & z & Hy & Hz). rewrite Hy. simpl. rewrite Hz. simpl.
    f_equal. exact IH.
  - destruct (h x) as [y|] eqn:Hy; [|exact IH]. simpl.
    destruct (g y) as [z|] eqn:Hz; [|exact IH].
    assert (p x = true) by (apply Hp; eauto). congruence.
Qed.

Lemma has_duplicates_duplicated (isoformat format_seconds : Z -> string)
    (db : Ops.ops_db) (n : string) :
  Ops.has_duplicates (Ops.detect_container_duplicates isoformat format_seconds db n)
  = Correlate.duplicated db n.
Proof.
  unfold Ops.detect_container_duplicates, Correlate.duplicated.
  destruct (Ops.get_container_by_number db n) as [|x [|y l]]; [done|done|].
  by destruct (existsb _ _); [|destruct (_ <? _)].
Qed.

Lemma classify_cause_nonempty (s cause solution : string) :
  Edi.classify s = Some (cause, solution) ->
  cause <> "" /\ solution <> "Review EDI message structure".
Proof.
  unfold Edi.classify.
  destruct (PyStr.contains "segment missing" s); [by intros [= <- <-]|].
  destruct (PyStr.contains "validation" s); [by intros [= <- <-]|].
  destruct (PyStr.contains "timeout" s); [by intros [= <- <-]|done].
Qed.

Lemma classify_is_Some (s : string) :
  is_Some (Edi.classify s) <->
  PyStr.contains "segment missing" s || PyStr.contains "validation" s ||
  PyStr.contains "timeout" s = true.
Proof.
  unfold Edi.classify.
  destruct (PyStr.contains "segment missing" s); [by split; eauto|].
  destruct (PyStr.contains "validation" s); [by split; eauto|].
  destruct (PyStr.contains "timeout" s); [by split; eauto|].
  split; [by intros [? ?]|done].
Qed.

(** X21: the hypotheses that the operational data adds.  For the findings
    that the correlation loops build, the list of hypotheses has the base
    hypotheses and, besides, one hypothesis for each container number with
    two stored rows or more, one for each vessel that is found and has
    exactly one active advice, and one for each EDI reference whose
    message has an error text with "segment missing", "validation" or
    "timeout".  An EDI hypothesis of these findings never carries the
    default factor "Review EDI message structure". *)
Theorem X21_operational_hypotheses (isoformat format_seconds : Z -> string)
    (vessel_found : string -> bool) (db : Ops.ops_db) (messages : list Edi.EDIMessage)
    (containers vessels edi_refs : list string)
    (similar_incidents : list TrainingData.t) (recommended : list Fusion.solution)
    (sop_references : nat) (log_hypotheses : list Hypotheses.RootCauseHypothesis) :
  let f := Correlate.findings isoformat format_seconds vessel_found db messages
             containers vessels edi_refs in
  let hyps := Hypotheses.build_hypotheses similar_incidents recommended sop_references
                log_hypotheses (Some f) in
  length hyps
  = (length (Hypotheses.base_hypotheses similar_incidents recommended sop_references
               log_hypotheses)
     + length (List.filter (Correlate.duplicated db) containers)
     + length (List.filter (fun n => vessel_found n && Correlate.single_active db n)
                 vessels)
     + length (List.filter (Correlate.classified messages) edi_refs))%nat
  /\ Forall (fun h => Hypotheses.contributing_factors h <> ["Review EDI message structure"])
       (Hypotheses.edi_part f).
Proof.
  intros f hyps. split.
  - unfold hyps, Hypotheses.build_hypotheses.
    rewrite insert_edi_front, insert_vessels_front, insert_containers_front.
    rewrite !length_app, !length_rev.
    assert (length (Hypotheses.container_part f)
            = length (List.filter (Correlate.duplicated db) containers)) as ->.
    { apply length_omap_omap. intros n.
      rewrite <- (has_duplicates_duplicated isoformat format_seconds). split.
      - intros Hd.
        exists (Hypotheses.mk_container_finding n
                  (Ops.detect_container_duplicates isoformat format_seconds db n)).
        eexists. split.
        + destruct (Ops.get_container_by_number db n) eqn:E; [|done].
          unfold Ops.detect_container_duplicates in Hd. by rewrite E in Hd.
        + cbv beta. cbn [Hypotheses.duplication_analysis]. by rewrite Hd.
      - intros (y & z & Hy & Hz).
        destruct (Ops.get_container_by_number db n); [done|].
        injection Hy as <-. cbn in Hz. by destruct (Ops.has_duplicates _). }
    assert (length (Hypotheses.vessel_part f)
            = length (List.filter
                        (fun n => vessel_found n && Correlate.single_active db n) vessels))
      as ->.
    { apply length_omap_omap. intros n. unfold Correlate.single_active.
      destruct (vessel_found n); cbn [andb].
      - unfold Ops.detect_vessel_advice_conflict.
        destruct (Ops.get_vessel_advice_by_name db n) as [|a0 advices] eqn:E.
        + split; [done|]. intros (y & z & [= <-] & Hz). done.
        + destruct (List.filter Ops.is_active (a0 :: advices)) as [|a [|a' l]].
          * split; [done|]. intros (y & z & [= <-] & Hz). done.
          * split; [|done]. intros _. by eexists _, _.
          * split; [done|]. intros (y & z & [= <-] & Hz). done.
      - split; [done|]. by intros (y & z & ? & _). }
    assert (length (Hypotheses.edi_part f)
            = length (List.filter (Correlate.classified messages) edi_refs)) as ->.
    { apply length_omap_omap. intros ref.
      unfold Correlate.classified, Edi.analyze_edi_error.
      destruct (Edi.get_edi_by_reference messages ref) as [m|];
        [|split; [done|by intros (y & z & ? & _)]].
      cbn [fmap option_fmap option_map Edi.finding_of Edi.a_root_cause
           Hypotheses.edi_root_cause].
      destruct (Edi.error_text m) as [text|];
        [|split; [done|by intros (y & z & [= <-] & Hz)]].
      case_bool_decide as Htext.
      + subst text. split; [by lazy|by intros (y & z & [= <-] & Hz)].
      + rewrite <- classify_is_Some. split.
        * intros [[cause solution] Hc]. eexists _, _. split; [done|].
          cbn. rewrite Hc. cbn.
          rewrite bool_decide_eq_false_2; [done|].
          by apply (classify_cause_nonempty _ _ _ Hc).
        * intros (y & z & [= <-] & Hz). cbn in Hz.
          destruct (Edi.classify _); [by eexists|done]. }
    lia.
  - unfold Hypotheses.edi_part. rewrite Forall_forall. intros h Hh.
    apply list_elem_of_omap in Hh as (e & He & Hh).
    cbn [f Correlate.findings Hypotheses.edi_messages] in He.
    unfold Correlate.edi_findings in He.
    apply list_elem_of_omap in He as (ref & _ & He).
    unfold Edi.analyze_edi_error in He.
    destruct (Edi.get_edi_by_reference messages ref) as [m|]; [|done].
    injection He as <-.
    cbn [Edi.finding_of Edi.a_root_cause Edi.a_solution Hypotheses.edi_root_cause] in Hh.
    destruct (match Edi.error_text m with
              | Some text => if bool_decide (text = "") then None
                             else Edi.classify (PyStr.lower text)
              | None => None
              end) as [[cause solution]|] eqn:Hv; [|done].
    cbn in Hh. case_bool_decide; [done|]. injection Hh as <-.
    cbn. intros [= Hsol].
    destruct (Edi.error_text m) as [text|]; [|done].
    case_bool_decide; [done|].
    by destruct (classify_cause_nonempty _ _ _ Hv).
Qed.

(** ** Root cause candidates from the logs *)

Lemma contains_suffix (a b s : string) :
  PyStr.contains (a +:+ b) s = true -> PyStr.contains b s = true.
Proof.
  rewrite !contains_iff. intros (pre & post & ->).
  exists (pre +:+ a), post. by rewrite !app_assoc_str.
Qed.

Lemma filter_nil_Forall {A} (p : A -> bool) (l : list A) :
  List.filter p l = [] <-> Forall (fun x => p x = false) l.
Proof.
  induction l as [|x l IH]; cbn; [by split; [constructor|]|].
  destruct (p x) eqn:E.
  - split; [done|]. intros H. apply Forall_cons in H as [H _]. congruence.
  - rewrite IH. split; [by constructor|]. intros H. by apply Forall_cons in H as [_ H].
Qed.

Lemma diagnose_spec (m root_cause : string) (confidence : Q) (more : list string) :
  LogAnalyzer.diagnose m = (root_cause, confidence, more) ->
  In confidence [85 # 100; 90 # 100; 80 # 100; 88 # 100; 60 # 100]%Q /\
  (PyStr.contains "timeout" (PyStr.lower m) = true ->
   root_cause = "Database connection pool exhaustion or timeout" /\
   confidence = (85 # 100)%Q) /\
  (confidence = (88 # 100)%Q -> PyStr.contains "deadlock" (PyStr.lower m) = true) /\
  (confidence = (60 # 100)%Q -> root_cause = PyStr.take 200 m) /\
  (length more <= 1)%nat.
Proof.
  unfold LogAnalyzer.diagnose.
  pose proof (contains_suffix "lock " "timeout" (PyStr.lower m)) as Hlock.
  change ("lock " +:+ "timeout") with "lock timeout" in Hlock.
  cbn [LogAnalyzer.any_keyword existsb].
  set (ml := PyStr.lower m) in *.
  destruct (PyStr.contains "timeout" ml) eqn:Htimeout.
  { cbn [orb]. rewrite orb_true_r. intros [= <- <- <-].
    split_and!; [by left|done|done|done|cbn; lia]. }
  destruct (PyStr.contains "lock timeout" ml) eqn:Hlt; [by specialize (Hlock eq_refl)|].
  clear Hlock. cbn [orb]. rewrite !orb_false_r.
  destruct (PyStr.contains "connection" ml || PyStr.contains "pool" ml).
  { intros [= <- <- <-]. split_and!; [by left|done|done|done|cbn; lia]. }
  destruct (PyStr.contains "memory" ml || (PyStr.contains "heap" ml || PyStr.contains "oom" ml)).
  { intros [= <- <- <-]. split_and!; [by right; left|done|done|done|cbn; lia]. }
  destruct (PyStr.contains "network" ml ||
            (PyStr.contains "unreachable" ml || PyStr.contains "refused" ml)).
  { intros [= <- <- <-]. split_and!; [by right; right; left|done|done|done|cbn; lia]. }
  destruct (PyStr.contains "deadlock" ml).
  { intros [= <- <- <-]. split_and!; [by do 3 right; left|done|done|done|cbn; lia]. }
  intros [= <- <- <-]. split_and!; [by do 4 right; left|done|done|done|cbn; lia].
Qed.

Lemma identify_contributing_factors_length (format_rate : Q -> string)
    (logs : list LogAnalyzer.SystemLog) :
  (length (LogAnalyzer.identify_contributing_factors format_rate logs) <= 4)%nat.
Proof.
  unfold LogAnalyzer.identify_contributing_factors. rewrite !length_app. cbv zeta.
  repeat match goal with
         | |- context [if ?b then _ else _] => destruct b
         | |- context [match ?l with [] => _ | _ :: _ => _ end] => destruct l
         end; cbn [length]; lia.
Qed.

Lemma sort_by_asc_head (logs : list LogAnalyzer.SystemLog) (e0 : LogAnalyzer.SystemLog) :
  logs <> [] ->
  let first_error :=
    List.hd e0 (PyList.sort_by Z.leb LogAnalyzer.timestamp false logs) in
  In first_error logs /\
  forall log, In log logs ->
    LogAnalyzer.timestamp first_error <= LogAnalyzer.timestamp log.
Proof.
  intros Hne.
  pose proof (sort_by_asc_sorted LogAnalyzer.timestamp logs) as Hs.
  assert (Permutation (PyList.sort_by Z.leb LogAnalyzer.timestamp false logs) logs) as Hp.
  { unfold PyList.sort_by. apply sorted_perm. }
  destruct (PyList.sort_by Z.leb LogAnalyzer.timestamp false logs) as [|f rest].
  { apply Permutation_nil in Hp. done. }
  cbn [List.hd]. split.
  - apply list_elem_of_In. rewrite <- Hp. by left.
  - intros log Hlog. apply list_elem_of_In in Hlog. rewrite <- Hp in Hlog.
    apply StronglySorted_inv in Hs as [_ Hs]. rewrite Forall_forall in Hs.
    apply elem_of_cons in Hlog as [->|Hlog]; [lia|by apply Hs].
Qed.

(** X23: the root cause candidate of a set of logs.  There is none
    exactly when no log has level ERROR, CRITICAL or FATAL, and never
    more than one.  The candidate is about an error log of the least
    timestamp; its confidence is 0.85, 0.90, 0.80, 0.88 or 0.60; a
    message with "timeout" in any letter case is a connection-pool
    finding of 0.85, so that the lock finding of 0.88 is given only for
    "deadlock", never for "lock timeout" alone; the finding of 0.60
    quotes the first 200 characters of the message. *)
Theorem X23_log_root_cause_candidate (strftime : Z -> string) (format_rate : Q -> string)
    (logs : list LogAnalyzer.SystemLog) (incident_description : string) :
  let out :=
    LogAnalyzer.extract_root_cause_candidates strftime format_rate logs
      incident_description in
  (out = [] <-> Forall (fun log => LogAnalyzer.is_error log = false) logs) /\
  (length out <= 1)%nat /\
  forall h, In h out ->
    exists first_error,
      In first_error logs /\ LogAnalyzer.is_error first_error = true /\
      (forall log, In log logs -> LogAnalyzer.is_error log = true ->
         LogAnalyzer.timestamp first_error <= LogAnalyzer.timestamp log) /\
      In (Hypotheses.confidence h) [85 # 100; 90 # 100; 80 # 100; 88 # 100; 60 # 100]%Q /\
      (PyStr.contains "timeout" (PyStr.lower (LogAnalyzer.message first_error)) = true ->
       Hypotheses.description h = "Database connection pool exhaustion or timeout" /\
       Hypotheses.confidence h = (85 # 100)%Q) /\
      (Hypotheses.confidence h = (88 # 100)%Q ->
       PyStr.contains "deadlock" (PyStr.lower (LogAnalyzer.message first_error)) = true) /\
      (Hypotheses.confidence h = (60 # 100)%Q ->
       Hypotheses.description h = PyStr.take 200 (LogAnalyzer.message first_error)) /\
      (3 <= length (Hypotheses.evidence h) <= 4)%nat /\
      (length (Hypotheses.contributing_factors h) <= 4)%nat.
Proof.
  cbv zeta. unfold LogAnalyzer.extract_root_cause_candidates.
  rewrite <- filter_nil_Forall.
  destruct (List.filter LogAnalyzer.is_error logs) as [|e0 rest] eqn:Hf.
  { split_and!; [done|cbn; lia|by intros h []]. }
  rewrite <- Hf.
  assert (List.filter LogAnalyzer.is_error logs <> []) as Hne by (by rewrite Hf).
  destruct (sort_by_asc_head (List.filter LogAnalyzer.is_error logs) e0 Hne)
    as [Hin Hmin].
  set (first_error :=
         List.hd e0 (PyList.sort_by Z.leb LogAnalyzer.timestamp false
                       (List.filter LogAnalyzer.is_error logs))) in *.
  destruct (LogAnalyzer.diagnose (LogAnalyzer.message first_error))
    as [[root_cause confidence] more] eqn:Hd.
  apply diagnose_spec in Hd as (Hconf & Htimeout & Hlock & Hother & Hmore).
  split_and!; [by rewrite Hf|cbn; lia|].
  intros h [<-|[]]. exists first_error.
  apply filter_In in Hin as [Hin Herr].
  cbn [Hypotheses.confidence Hypotheses.description Hypotheses.evidence
       Hypotheses.contributing_factors].
  split_and!; try done.
  - intros log Hlog Hlerr. apply Hmin. apply filter_In. by split.
  - rewrite length_app. cbn [length]. lia.
  - rewrite length_app. cbn [length]. lia.
  - apply identify_contributing_factors_length.
Qed.

(** *** The generic hypothesis *)

Lemma candidates_nil_iff (strftime : Z -> string) (format_rate : Q -> string)
    (logs : list LogAnalyzer.SystemLog) (incident_description : string) :
  LogAnalyzer.extract_root_cause_candidates strftime format_rate logs incident_description
  = [] <-> Forall (fun log => LogAnalyzer.is_error log = false) logs.
Proof.
  unfold LogAnalyzer.extract_root_cause_candidates. rewrite <- filter_nil_Forall.
  destruct (List.filter LogAnalyzer.is_error logs) as [|e0 rest]; [done|].
  by destruct (LogAnalyzer.diagnose _) as [[? ?] ?].
Qed.

Lemma candidates_confidence (strftime : Z -> string) (format_rate : Q -> string)
    (logs : list LogAnalyzer.SystemLog) (incident_description : string)
    (h : Hypotheses.RootCauseHypothesis) :
  In h (LogAnalyzer.extract_root_cause_candidates strftime format_rate logs
          incident_description) ->
  In (Hypotheses.confidence h) [85 # 100; 90 # 100; 80 # 100; 88 # 100; 60 # 100]%Q.
Proof.
  unfold LogAnalyzer.extract_root_cause_candidates.
  destruct (List.filter LogAnalyzer.is_error logs) as [|e0 rest]; [done|].
  destruct (LogAnalyzer.diagnose _) as [[root_cause confidence] more] eqn:Hd.
  apply diagnose_spec in Hd as (Hconf & _). by intros [<-|[]].
Qed.

Lemma part_confidences (f : Hypotheses.findings) (h : Hypotheses.RootCauseHypothesis) :
  In h (rev (Hypotheses.edi_part f) ++ rev (Hypotheses.vessel_part f)
        ++ rev (Hypotheses.container_part f)) ->
  In (Hypotheses.confidence h) [90 # 100; 98 # 100; 95 # 100]%Q.
Proof.
  rewrite !in_app_iff, <- !in_rev.
  unfold Hypotheses.edi_part, Hypotheses.vessel_part, Hypotheses.container_part.
  intros [Hh|[Hh|Hh]]; apply list_elem_of_In, list_elem_of_omap in Hh as (x & _ & Hx).
  - destruct (Hypotheses.edi_root_cause x); [|done].
    case_bool_decide; [done|]. injection Hx as <-. by left.
  - destruct (Hypotheses.advice_conflict x); try done. injection Hx as <-. by right; left.
  - destruct (Ops.has_duplicates _); [|done]. injection Hx as <-. by right; right; left.
Qed.

Lemma build_hypotheses_split (similar_incidents : list TrainingData.t)
    (recommended : list Fusion.solution) (sop_references : nat)
    (log_hypotheses : list Hypotheses.RootCauseHypothesis)
    (ops_correlation : option Hypotheses.findings) :
  exists front,
    Hypotheses.build_hypotheses similar_incidents recommended sop_references
      log_hypotheses ops_correlation
    = front ++ Hypotheses.base_hypotheses similar_incidents recommended sop_references
                 log_hypotheses /\
    forall h, In h front -> In (Hypotheses.confidence h) [90 # 100; 98 # 100; 95 # 100]%Q.
Proof.
  unfold Hypotheses.build_hypotheses. destruct ops_correlation as [f|].
  - exists (rev (Hypotheses.edi_part f) ++ rev (Hypotheses.vessel_part f)
            ++ rev (Hypotheses.container_part f)).
    split; [|apply part_confidences].
    rewrite insert_edi_front, insert_vessels_front, insert_containers_front.
    by rewrite <- !app_assoc.
  - by exists [].
Qed.

(** X20: the list of hypotheses is never empty, and the generic
    hypothesis "Unable to determine root cause - insufficient data" is in
    it exactly when there is no similar incident and no log of level
    ERROR, CRITICAL or FATAL; it is then the last one, also behind the
    hypotheses that operational findings add. *)
Theorem X20_generic_hypothesis (strftime : Z -> string) (format_rate : Q -> string)
    (similar_incidents : list TrainingData.t) (recommended : list Fusion.solution)
    (sop_references : nat) (logs : list LogAnalyzer.SystemLog)
    (incident_description : string) (ops_correlation : option Hypotheses.findings) :
  let log_hypotheses :=
    LogAnalyzer.extract_root_cause_candidates strftime format_rate logs
      incident_description in
  let hyps :=
    Hypotheses.build_hypotheses similar_incidents recommended sop_references
      log_hypotheses ops_correlation in
  hyps <> [] /\
  (In Hypotheses.placeholder hyps <->
   similar_incidents = [] /\
   Forall (fun log => LogAnalyzer.is_error log = false) logs) /\
  (In Hypotheses.placeholder hyps ->
   exists front, hyps = front ++ [Hypotheses.placeholder] /\
     ~ In Hypotheses.placeholder front).
Proof.
  intros log_hypotheses hyps.
  destruct (build_hypotheses_split similar_incidents recommended sop_references
              log_hypotheses ops_correlation) as (front & Hsplit & Hfront).
  fold hyps in Hsplit.
  assert (~ In Hypotheses.placeholder front) as Hnot.
  { intros Hin. apply Hfront in Hin. cbn in Hin.
    destruct Hin as [?|[?|[?|[]]]]; discriminate. }
  pose proof (candidates_nil_iff strftime format_rate logs incident_description) as Hnil.
  fold log_hypotheses in Hnil.
  assert (forall h, In h log_hypotheses -> h <> Hypotheses.placeholder) as Hlog.
  { intros h Hh ->. apply candidates_confidence in Hh. cbn in Hh.
    destruct Hh as [?|[?|[?|[?|[?|[]]]]]]; discriminate. }
  rewrite Hsplit. unfold Hypotheses.base_hypotheses, Hypotheses.similarity_hypotheses.
  destruct similar_incidents as [|most_similar others].
  - cbn [app]. destruct log_hypotheses as [|h0 l0] eqn:El.
    + split_and!.
      * by destruct front.
      * split; [intros _; split; [done|by apply Hnil]|].
        intros _. apply in_or_app. right. by left.
      * intros _. by exists front.
    + assert (~ In Hypotheses.placeholder (front ++ h0 :: l0)) as Hno.
      { intros Hin. apply in_app_or in Hin as [Hin|Hin]; [done|].
        by apply (Hlog _ Hin). }
      split_and!.
      * by destruct front.
      * split; [done|]. intros [_ Hall]. apply Hnil in Hall. done.
      * done.
  - cbn [app].
    match goal with |- context [?x :: log_hypotheses] => set (hs := x :: log_hypotheses) end.
    assert (~ In Hypotheses.placeholder (front ++ hs)) as Hno.
    { intros Hin. apply in_app_or in Hin as [Hin|Hin]; [done|].
      destruct Hin as [Heq|Hin]; [discriminate Heq|by apply (Hlog _ Hin)]. }
    split_and!.
    + by destruct front.
    + split; [done|]. by intros [? _].
    + done.
Qed.

(** ** The shape of a fingerprint *)

Lemma all_chars_app p (a b : string) :
  all_chars p (a +:+ b) = all_chars p a && all_chars p b.
Proof.
  induction a as [|c a IH]; [by rewrite app_empty_l|].
  rewrite app_cons. cbn. by rewrite IH, andb_assoc.
Qed.

Lemma all_chars_rev_app p (s1 s2 : string) :
  all_chars p (String.rev_app s1 s2) = all_chars p s1 && all_chars p s2.
Proof.
  revert s2. induction s1 as [|c s1 IH]; intros s2; [done|].
  cbn. rewrite IH. cbn. by destruct (p c), (all_chars p s1).
Qed.

Lemma all_chars_rev p (s : string) : all_chars p (String.rev s) = all_chars p s.
Proof. unfold String.rev. rewrite all_chars_rev_app. cbn. by rewrite andb_true_r. Qed.

Lemma rev_app_nonempty (s1 s2 : string) : s2 <> "" -> String.rev_app s1 s2 <> "".
Proof.
  revert s2. induction s1 as [|c s1 IH]; intros s2 H; [exact H|].
  cbn. by apply IH.
Qed.

Lemma rev_nonempty (s : string) : s <> "" -> String.rev s <> "".
Proof.
  destruct s as [|c s]; [done|]. intros _. unfold String.rev. cbn.
  by apply rev_app_nonempty.
Qed.

Lemma findall_go_tokens (p q : ascii -> bool) (cur : option string) (s : string) :
  all_chars (fun c => implb (p c) (q c)) s = true ->
  (forall w, cur = Some w -> w <> "" /\ all_chars q w = true) ->
  Forall (fun w => w <> "" /\ all_chars q w = true) (Regex.findall_go p cur s).
Proof.
  revert cur. induction s as [|c s IH]; intros cur Hs Hcur; cbn [Regex.findall_go].
  - destruct cur as [w|]; [|constructor]. destruct (Hcur w eq_refl) as [Hne Hq].
    cbn. repeat constructor; [by apply rev_nonempty|by rewrite all_chars_rev].
  - cbn in Hs. apply andb_true_iff in Hs as [Hc Hs].
    destruct (p c) eqn:Hp.
    + apply IH; [done|]. intros w [= <-]. split; [done|]. cbn in *. rewrite Hc. cbn.
      destruct cur as [w|]; [|done]. by destruct (Hcur w eq_refl).
    + apply Forall_app. split; [|by apply IH].
      destruct cur as [w|]; [|constructor]. destruct (Hcur w eq_refl) as [Hne Hq].
      cbn. repeat constructor; [by apply rev_nonempty|by rewrite all_chars_rev].
Qed.

Lemma lower_word_chars (s : string) :
  all_chars (fun c => implb (PyStr.is_word c) (fingerprint_char c)) (PyStr.lower s) = true.
Proof.
  induction s as [|c s IH]; [done|]. cbn [PyStr.lower all_chars]. rewrite IH, andb_true_r.
  destruct c as [[] [] [] [] [] [] [] []]; reflexivity.
Qed.

Lemma first_match_tag rules s tag :
  IncidentAnalyzer.first_match rules s = Some tag -> In tag (map snd rules).
Proof.
  induction rules as [|[pat t] rules IH]; [done|]. cbn.
  destruct (Regex.search pat s); [intros [= <-]; by left|]. intros H. right. by apply IH.
Qed.

Lemma tags_shape :
  Forall (fun t => t <> "" /\ all_chars fingerprint_char t = true)
    (map snd IncidentAnalyzer.patterns).
Proof. cbn [map snd IncidentAnalyzer.patterns]. repeat constructor; done. Qed.

(** X22: the fingerprint of an ASCII description is never empty, is
    written with lower-case letters, digits and underscores only, and
    does not depend on the letter case of the description. *)
Theorem X22_fingerprint_shape (description : string) :
  ascii_text description ->
  let result := IncidentAnalyzer.extract_error_type description in
  result <> "" /\
  all_chars fingerprint_char result = true /\
  IncidentAnalyzer.extract_error_type (PyStr.upper description) = result /\
  IncidentAnalyzer.extract_error_type (PyStr.lower description) = result.
Proof.
  intros _. cbv zeta.
  assert (IncidentAnalyzer.extract_error_type description <> "" /\
          all_chars fingerprint_char (IncidentAnalyzer.extract_error_type description)
          = true) as [Hne Hshape].
  { unfold IncidentAnalyzer.extract_error_type.
    destruct (IncidentAnalyzer.first_match _ _) as [tag|] eqn:Hm.
    - apply first_match_tag in Hm. pose proof tags_shape as Htags.
      rewrite Forall_forall in Htags. by apply Htags, list_elem_of_In.
    - unfold IncidentAnalyzer.fallback, Regex.findall_plus.
      pose proof (findall_go_tokens PyStr.is_word fingerprint_char None
                    (PyStr.lower description) (lower_word_chars description)) as Htok.
      destruct (Regex.findall_go _ _ _) as [|w1 [|w2 ws]]; [done| |].
      + apply Forall_cons in Htok as [Hw1 _]; [|done]. exact Hw1.
      + apply Forall_cons in Htok as [[Hne1 Hq1] Htok]; [|done].
        apply Forall_cons in Htok as [[Hne2 Hq2] _].
        change (IncidentAnalyzer.join_underscore (firstn 2 (w1 :: w2 :: ws)))
          with (w1 +:+ ("_" +:+ w2)).
        split.
        * destruct w1; [done|]. by rewrite app_cons.
        * rewrite (all_chars_app _ w1), (all_chars_app _ "_" w2), Hq1, Hq2. done. }
  split_and!; [done|done| |].
  - unfold IncidentAnalyzer.extract_error_type. by rewrite lower_upper.
  - unfold IncidentAnalyzer.extract_error_type. by rewrite lower_idem.
Qed.

Lemma X22_fingerprint_shape_witness :
  IncidentAnalyzer.extract_error_type "GATEWAY Timeout after retry" <> "" /\
  IncidentAnalyzer.extract_error_type (PyStr.upper "GATEWAY Timeout after retry")
  = IncidentAnalyzer.extract_error_type "GATEWAY Timeout after retry".
Proof.
  pose proof (X22_fingerprint_shape "GATEWAY Timeout after retry" ltac:(reflexivity))
    as (Hne & _ & Hupper & _).
  split; [exact Hne|exact Hupper].
Defined.

(** ** Error cascades and the timeline of the logs *)

Lemma Permutation_filter_length {A} (p : A -> bool) (l l' : list A) :
  Permutation l l' -> length (List.filter p l) = length (List.filter p l').
Proof.
  induction 1 as [|x l l' _ IH|x y l|l l' l'' _ IH1 _ IH2]; cbn.
  - done.
  - destruct (p x); cbn; by rewrite IH.
  - by destruct (p x), (p y).
  - by rewrite IH1.
Qed.

Lemma zip_seq_lookup {A} (l : list A) (k i : nat) (x : A) :
  In (i, x) (zip (seq k (length l)) l) <-> (k <= i)%nat /\ l !! (i - k)%nat = Some x.
Proof.
  revert k. induction l as [|y l IH]; intros k; cbn [length seq zip zip_with].
  - split; [done|]. intros [_ H]. by rewrite lookup_nil in H.
  - cbn [In]. rewrite IH. split.
    + intros [[= <- <-]|[Hk Hl]].
      * split; [lia|]. by rewrite Nat.sub_diag.
      * split; [lia|]. replace (i - k)%nat with (S (i - S k)) by lia. done.
    + intros [Hk Hl]. destruct (decide (i = k)) as [->|Hne].
      * left. rewrite Nat.sub_diag in Hl. by injection Hl as <-.
      * right. split; [lia|]. replace (i - k)%nat with (S (i - S k)) in Hl by lia. done.
Qed.

Lemma StronglySorted_lookup_le {A} (R : A -> A -> Prop) (l : list A) (i j : nat) (a b : A) :
  StronglySorted R l -> l !! i = Some a -> l !! j = Some b -> (i < j)%nat -> R a b.
Proof.
  intros Hs. revert i j. induction Hs as [|x l Hs IH Hx]; intros i j Hi Hj Hij.
  - by rewrite lookup_nil in Hi.
  - destruct j as [|j]; [lia|]. destruct i as [|i].
    + injection Hi as <-. rewrite Forall_forall in Hx. apply Hx.
      by eapply list_elem_of_lookup_2.
    + apply (IH i j); [done|done|lia].
Qed.

Lemma cascade_entries_length (isoformat : Z -> string)
    (sorted_logs l : list LogAnalyzer.SystemLog) (k : nat) :
  length (omap (fun '(i, log) => LogAnalyzer.cascade_entry isoformat sorted_logs i log)
               (zip (seq k (length l)) l))
  = length (List.filter LogAnalyzer.is_error l).
Proof.
  revert k. induction l as [|x l IH]; intros k; [done|].
  cbn [length seq zip zip_with List.filter]. simpl omap.
  unfold LogAnalyzer.cascade_entry at 1.
  destruct (LogAnalyzer.is_error x); [cbn [length]; f_equal|]; apply IH.
Qed.

(** X25: the error cascade of a set of logs has one entry for each log
    of level ERROR, CRITICAL or FATAL.  An entry is linked to position j
    exactly when the log before it in time order, which stands at
    position j of all the sorted logs, is itself an error and at most
    five seconds older. *)
Theorem X25_error_cascade_links (isoformat : Z -> string)
    (logs : list LogAnalyzer.SystemLog) :
  let sorted_logs := PyList.sort_by Z.leb LogAnalyzer.timestamp false logs in
  let out := LogAnalyzer.detect_error_cascade isoformat logs in
  length out = length (List.filter LogAnalyzer.is_error logs) /\
  (forall c j, In c out -> LogAnalyzer.cascade_from c = Some j ->
     exists previous log,
       sorted_logs !! j = Some previous /\ sorted_logs !! S j = Some log /\
       LogAnalyzer.is_error previous = true /\ LogAnalyzer.is_error log = true /\
       0 <= LogAnalyzer.timestamp log - LogAnalyzer.timestamp previous <= 5000000 /\
       LogAnalyzer.ci_timestamp c = isoformat (LogAnalyzer.timestamp log) /\
       LogAnalyzer.ci_message c = PyStr.take 150 (LogAnalyzer.message log)) /\
  (forall j previous log,
     sorted_logs !! j = Some previous -> sorted_logs !! S j = Some log ->
     LogAnalyzer.is_error previous = true -> LogAnalyzer.is_error log = true ->
     LogAnalyzer.timestamp log - LogAnalyzer.timestamp previous <= 5000000 ->
     exists c, In c out /\ LogAnalyzer.cascade_from c = Some j /\
       LogAnalyzer.ci_timestamp c = isoformat (LogAnalyzer.timestamp log)).
Proof.
  intros sorted_logs out.
  pose proof (sort_by_asc_sorted LogAnalyzer.timestamp logs) as Hsorted.
  fold sorted_logs in Hsorted.
  assert (Permutation sorted_logs logs) as Hperm by apply sorted_perm.
  split_and!.
  - unfold out, LogAnalyzer.detect_error_cascade. fold sorted_logs.
    rewrite cascade_entries_length. by apply Permutation_filter_length.
  - intros c j Hc Hj. unfold out, LogAnalyzer.detect_error_cascade in Hc.
    fold sorted_logs in Hc.
    apply list_elem_of_In, list_elem_of_omap in Hc as ([i log] & Hin & Hentry).
    apply list_elem_of_In, zip_seq_lookup in Hin as [_ Hlog].
    rewrite Nat.sub_0_r in Hlog.
    unfold LogAnalyzer.cascade_entry in Hentry.
    destruct (LogAnalyzer.is_error log) eqn:Herr; [|done].
    injection Hentry as <-. cbn [LogAnalyzer.cascade_from] in Hj.
    destruct (0 <? i)%nat eqn:Hpos; [|done]. apply Nat.ltb_lt in Hpos.
    destruct (sorted_logs !! (i - 1)%nat) as [previous|] eqn:Hprev; [|done].
    destruct (_ <=? _) eqn:Hdiff; [|done].
    destruct (LogAnalyzer.is_error previous) eqn:Hperr; [|done].
    injection Hj as <-. apply Z.leb_le in Hdiff.
    replace (S (i - 1)) with i by lia.
    assert (LogAnalyzer.timestamp previous <= LogAnalyzer.timestamp log) as Hle.
    { apply (StronglySorted_lookup_le _ _ (i - 1)%nat i previous log Hsorted Hprev Hlog).
      lia. }
    exists previous, log. split_and!; try done; lia.
  - intros j previous log Hprev Hlog Hperr Herr Hdiff.
    eexists. split_and!.
    + unfold out, LogAnalyzer.detect_error_cascade. fold sorted_logs.
      apply list_elem_of_In, list_elem_of_omap. exists (S j, log). split.
      * apply list_elem_of_In, zip_seq_lookup. split; [lia|].
        by rewrite Nat.sub_0_r.
      * unfold LogAnalyzer.cascade_entry. rewrite Herr. reflexivity.
    + cbn [LogAnalyzer.cascade_from]. replace (S j - 1)%nat with j by lia.
      rewrite Hprev. cbn [Nat.ltb Nat.leb]. rewrite Hperr.
      rewrite (proj2 (Z.leb_le _ _)); [done|lia].
    + done.
Qed.

(** X26: the timeline shows at most 50 events: as many as there are
    logs of level ERROR, CRITICAL, FATAL or WARN, up to 50, taken in
    time order from the earliest.  Every event names a service
    ("Unknown" when the log has none), keeps at most 150 characters of
    the message, and is critical unless its level is WARN. *)
Theorem X26_timeline (isoformat : Z -> string) (logs : list LogAnalyzer.SystemLog)
    (incident_start : Z) (incident_end : option Z) :
  let notable log := LogAnalyzer.is_error log || LogAnalyzer.is_warn log in
  let out := LogAnalyzer.build_timeline isoformat logs incident_start incident_end in
  length out = Nat.min 50 (length (List.filter notable logs)) /\
  Forall (fun e => LogAnalyzer.te_service e <> "" /\
                   (String.length (LogAnalyzer.te_message e) <= 150)%nat /\
                   (LogAnalyzer.te_is_critical e = false ->
                    LogAnalyzer.te_type e = Some "WARN")) out /\
  exists shown rest,
    List.filter notable (PyList.sort_by Z.leb LogAnalyzer.timestamp false logs)
    = shown ++ rest /\
    map LogAnalyzer.te_timestamp out
    = map (fun log => isoformat (LogAnalyzer.timestamp log)) shown /\
    (forall a b, In a shown -> In b rest ->
       LogAnalyzer.timestamp a <= LogAnalyzer.timestamp b).
Proof.
  intros notable out.
  pose proof (sort_by_asc_sorted LogAnalyzer.timestamp logs) as Hsorted.
  assert (Permutation (PyList.sort_by Z.leb LogAnalyzer.timestamp false logs) logs)
    as Hperm by apply sorted_perm.
  unfold out, LogAnalyzer.build_timeline, PyList.slice_to.
  change (0 <=? 50) with true. cbv iota.
  change (Z.to_nat 50) with 50%nat.
  set (sorted_logs := PyList.sort_by Z.leb LogAnalyzer.timestamp false logs) in *.
  fold notable.
  split_and!.
  - rewrite length_firstn, length_map.
    by rewrite (Permutation_filter_length notable _ _ Hperm).
  - apply Forall_forall. intros e He. apply subseteq_take in He.
    apply list_elem_of_In, in_map_iff in He as (log & <- & Hlog).
    apply filter_In in Hlog as [_ Hnot].
    cbn [LogAnalyzer.te_service LogAnalyzer.te_message LogAnalyzer.te_is_critical
         LogAnalyzer.te_type].
    split_and!.
    + unfold LogAnalyzer.service_name, Fusion.str_or.
      destruct (LogAnalyzer.service log) as [s|]; [|done]. by case_bool_decide.
    + apply take_length.
    + intros Herr. unfold notable in Hnot. rewrite Herr in Hnot. cbn in Hnot.
      unfold LogAnalyzer.is_warn in Hnot. by apply bool_decide_eq_true in Hnot.
  - exists (firstn 50 (List.filter notable sorted_logs)),
           (skipn 50 (List.filter notable sorted_logs)).
    split_and!.
    + by rewrite firstn_skipn.
    + rewrite firstn_map, map_map. reflexivity.
    + intros a b Ha Hb.
      assert (StronglySorted
                (fun a b => LogAnalyzer.timestamp a <= LogAnalyzer.timestamp b)
                (List.filter notable sorted_logs)) as Hfs.
      { clear -Hsorted. induction Hsorted as [|x l Hs IH Hx]; [constructor|].
        cbn. destruct (notable x); [|done]. constructor; [done|].
        rewrite Forall_forall in *. intros y Hy. apply Hx.
        apply list_elem_of_In, filter_In in Hy as [Hy _]. by apply list_elem_of_In. }
      rewrite <- (firstn_skipn 50 (List.filter notable sorted_logs)) in Hfs.
      exact (StronglySorted_app_cross _ _ _ Hfs a b Ha Hb).
Qed.

(** ** Repeated errors *)

Lemma sub_go_nonempty_state (p : ascii -> bool) (repl cur1 cur2 s : string) :
  cur1 <> "" -> cur2 <> "" ->
  LogAnalyzer.sub_go p 1 repl cur1 s = LogAnalyzer.sub_go p 1 repl cur2 s.
Proof.
  revert cur1 cur2. induction s as [|c s IH]; intros cur1 cur2 H1 H2.
  - destruct cur1 as [|a1 cur1], cur2 as [|a2 cur2]; done.
  - cbn [LogAnalyzer.sub_go]. destruct (p c); [by apply IH|].
    destruct cur1 as [|a1 cur1], cur2 as [|a2 cur2]; done.
Qed.

Lemma sub_go_run (p : ascii -> bool) (min : nat) (repl cur d s : string) :
  all_chars p d = true ->
  LogAnalyzer.sub_go p min repl cur (d +:+ s)
  = LogAnalyzer.sub_go p min repl (String.rev_app d cur) s.
Proof.
  revert cur. induction d as [|c d IH]; intros cur Hd; [by rewrite app_empty_l|].
  cbn in Hd. apply andb_true_iff in Hd as [Hc Hd].
  rewrite app_cons. cbn [LogAnalyzer.sub_go]. rewrite Hc. by rewrite IH.
Qed.

Lemma sub_go_prefix (p : ascii -> bool) (min : nat) (repl a s1 s2 : string) :
  (forall cur, LogAnalyzer.sub_go p min repl cur s1 = LogAnalyzer.sub_go p min repl cur s2) ->
  forall cur,
    LogAnalyzer.sub_go p min repl cur (a +:+ s1)
    = LogAnalyzer.sub_go p min repl cur (a +:+ s2).
Proof.
  intros Hs. induction a as [|c a IH]; intros cur; [by rewrite !app_empty_l|].
  rewrite !app_cons. cbn [LogAnalyzer.sub_go]. destruct (p c); by rewrite IH.
Qed.

Lemma normalize_digits (a d1 d2 b : string) :
  d1 <> "" -> d2 <> "" ->
  all_chars PyStr.is_digit d1 = true -> all_chars PyStr.is_digit d2 = true ->
  LogAnalyzer.normalize_error_message (a +:+ d1 +:+ b)
  = LogAnalyzer.normalize_error_message (a +:+ d2 +:+ b).
Proof.
  intros Hn1 Hn2 Hd1 Hd2. unfold LogAnalyzer.normalize_error_message.
  cbv zeta. do 3 f_equal. unfold LogAnalyzer.sub_runs.
  apply sub_go_prefix. intros cur. rewrite !sub_go_run by done.
  apply sub_go_nonempty_state.
  - destruct d1 as [|c d1]; [done|]. cbn. by apply rev_app_nonempty.
  - destruct d2 as [|c d2]; [done|]. cbn. by apply rev_app_nonempty.
Qed.

Lemma add_to_group_fresh key log (groups : list (string * list LogAnalyzer.SystemLog)) :
  ~ In key (map fst groups) ->
  LogAnalyzer.add_to_group key log groups = groups ++ [(key, [log])].
Proof.
  induction groups as [|[k g] groups IH]; [done|].
  cbn. intros Hnot. rewrite bool_decide_eq_false_2 by tauto.
  rewrite IH by tauto. done.
Qed.

Lemma add_to_group_known key log (groups : list (string * list LogAnalyzer.SystemLog)) :
  In key (map fst groups) ->
  exists pre g0 post,
    groups = pre ++ (key, g0) :: post /\
    LogAnalyzer.add_to_group key log groups = pre ++ (key, g0 ++ [log]) :: post.
Proof.
  induction groups as [|[k g] groups IH]; [done|].
  cbn. case_bool_decide as Hk.
  - subst k. intros _. by exists [], g, groups.
  - intros [?|Hin]; [done|]. destruct (IH Hin) as (pre & g0 & post & -> & ->).
    by exists ((k, g) :: pre), g0, post.
Qed.

Lemma filter_snoc {A} (p : A -> bool) (l : list A) (x : A) :
  List.filter p (l ++ [x]) = List.filter p l ++ (if p x then [x] else []).
Proof. rewrite List.filter_app. cbn. by destruct (p x). Qed.

Lemma group_errors_spec (logs : list LogAnalyzer.SystemLog) :
  let groups := LogAnalyzer.group_errors logs in
  NoDup (map fst groups) /\
  (forall k g, In (k, g) groups ->
     g <> [] /\ g = List.filter (LogAnalyzer.with_key k) logs) /\
  (forall log, In log logs -> LogAnalyzer.is_error log = true ->
     In (LogAnalyzer.error_key log) (map fst groups)).
Proof.
  unfold LogAnalyzer.group_errors.
  set (step := fun error_groups log =>
         if LogAnalyzer.is_error log
         then LogAnalyzer.add_to_group (LogAnalyzer.error_key log) log error_groups
         else error_groups).
  assert (forall rest processed groups,
    (NoDup (map fst groups) /\
     (forall k g, In (k, g) groups ->
        g <> [] /\ g = List.filter (LogAnalyzer.with_key k) processed) /\
     (forall log, In log processed -> LogAnalyzer.is_error log = true ->
        In (LogAnalyzer.error_key log) (map fst groups))) ->
    let groups' := fold_left step rest groups in
    NoDup (map fst groups') /\
    (forall k g, In (k, g) groups' ->
       g <> [] /\ g = List.filter (LogAnalyzer.with_key k) (processed ++ rest)) /\
    (forall log, In log (processed ++ rest) -> LogAnalyzer.is_error log = true ->
       In (LogAnalyzer.error_key log) (map fst groups'))) as Hgen.
  { induction rest as [|log rest IH]; intros processed groups Hinv.
    { cbn. by rewrite app_nil_r. }
    cbn [fold_left].
    replace (processed ++ log :: rest) with ((processed ++ [log]) ++ rest)
      by (by rewrite <- app_assoc).
    apply IH. clear IH. destruct Hinv as (Hnd & Hgroups & Hkeys).
    unfold step. destruct (LogAnalyzer.is_error log) eqn:Herr.
    - set (key := LogAnalyzer.error_key log).
      destruct (in_dec string_dec key (map fst groups)) as [Hin|Hnot].
      + destruct (add_to_group_known key log groups Hin)
          as (pre & g0 & post & Hgr & ->).
        subst groups. rewrite map_app in Hnd. cbn [map fst] in Hnd.
        apply NoDup_app in Hnd as (Hpre & Hcross & Hpost).
        apply NoDup_cons in Hpost as [Hkpost Hpost].
        split_and!.
        * rewrite map_app. cbn [map fst]. apply NoDup_app. split_and!; try done.
          by apply NoDup_cons.
        * intros k g Hg. rewrite filter_snoc.
          apply in_app_or in Hg as [Hg|[[= <- <-]|Hg]].
          -- assert (k <> key) as Hk.
             { intros ->. apply (Hcross key).
               - apply list_elem_of_In, in_map_iff. by exists (key, g).
               - by left. }
             destruct (Hgroups k g) as [Hne ->]; [apply in_or_app; by left|].
             assert (LogAnalyzer.with_key k log = false) as ->.
             { unfold LogAnalyzer.with_key. fold key.
               rewrite bool_decide_eq_false_2; [by rewrite andb_false_r|congruence]. }
             by rewrite app_nil_r.
          -- destruct (Hgroups key g0) as [Hne ->]; [apply in_or_app; right; by left|].
             assert (LogAnalyzer.with_key key log = true) as ->.
             { unfold LogAnalyzer.with_key. fold key.
               by rewrite Herr, bool_decide_eq_true_2. }
             split; [by destruct (List.filter _ processed)|done].
          -- assert (k <> key) as Hk.
             { intros ->. apply Hkpost.
               apply list_elem_of_In, in_map_iff. by exists (key, g). }
             destruct (Hgroups k g) as [Hne ->];
               [apply in_or_app; right; by right|].
             assert (LogAnalyzer.with_key k log = false) as ->.
             { unfold LogAnalyzer.with_key. fold key.
               rewrite bool_decide_eq_false_2; [by rewrite andb_false_r|congruence]. }
             by rewrite app_nil_r.
        * intros log' Hlog' Herr'. rewrite map_app. cbn [map fst].
          apply in_app_or in Hlog' as [Hlog'|[<-|[]]].
          -- specialize (Hkeys log' Hlog' Herr'). by rewrite map_app in Hkeys.
          -- apply in_or_app. right. by left.
      + rewrite add_to_group_fresh by done. split_and!.
        * rewrite map_app. cbn [map fst]. apply NoDup_app. split_and!; try done.
          -- intros k Hk Hk'. apply list_elem_of_In in Hk'. destruct Hk' as [<-|[]].
             by apply Hnot, list_elem_of_In.
          -- apply NoDup_singleton.
        * intros k g Hg. rewrite filter_snoc.
          apply in_app_or in Hg as [Hg|[[= <- <-]|[]]].
          -- assert (k <> key) as Hk.
             { intros ->. apply Hnot, in_map_iff. by exists (key, g). }
             destruct (Hgroups k g Hg) as [Hne ->].
             assert (LogAnalyzer.with_key k log = false) as ->.
             { unfold LogAnalyzer.with_key. fold key.
               rewrite bool_decide_eq_false_2; [by rewrite andb_false_r|congruence]. }
             by rewrite app_nil_r.
          -- assert (List.filter (LogAnalyzer.with_key key) processed = []) as ->.
             { apply filter_nil_Forall, Forall_forall. intros x Hx.
               apply list_elem_of_In in Hx.
               unfold LogAnalyzer.with_key.
               destruct (LogAnalyzer.is_error x) eqn:Hxe; [|done]. cbn [andb].
               apply bool_decide_eq_false_2. intros Hxk. apply Hnot.
               rewrite <- Hxk. by apply Hkeys. }
             assert (LogAnalyzer.with_key key log = true) as ->.
             { unfold LogAnalyzer.with_key. fold key.
               by rewrite Herr, bool_decide_eq_true_2. }
             done.
        * intros log' Hlog' Herr'. rewrite map_app. cbn [map fst].
          apply in_app_or in Hlog' as [Hlog'|[<-|[]]].
          -- apply in_or_app. left. by apply Hkeys.
          -- apply in_or_app. right. by left.
    - split_and!; [done| |].
      + intros k g Hg. rewrite filter_snoc. destruct (Hgroups k g Hg) as [Hne ->].
        assert (LogAnalyzer.with_key k log = false) as ->.
        { unfold LogAnalyzer.with_key. by rewrite Herr. }
        by rewrite app_nil_r.
      + intros log' Hlog' Herr'.
        apply in_app_or in Hlog' as [Hlog'|[<-|[]]]; [by apply Hkeys|congruence]. }
  apply (Hgen logs [] []). split_and!; [constructor|done|done].
Qed.

Lemma fold_min_le_max (x : Z) (l : list Z) : fold_right Z.min x l <= fold_right Z.max x l.
Proof.
  assert (fold_right Z.min x l <= x <= fold_right Z.max x l); [|lia].
  induction l as [|y l IH]; cbn; lia.
Qed.

(** X24: repeated errors.  Every reported pattern stands for one error
    key and counts the logs of level ERROR, CRITICAL or FATAL that have
    this key, which are two or more; its first occurrence is not after
    its last.  Every key that two error logs or more share has a
    pattern.  Messages that differ only in a run of digits have the same
    key. *)
Theorem X24_repeated_errors (logs : list LogAnalyzer.SystemLog) :
  let out := LogAnalyzer.detect_error_patterns logs in
  let count key := length (List.filter (LogAnalyzer.with_key key) logs) in
  (forall p, In p out ->
     exists key, LogAnalyzer.occurrences p = count key /\
       (2 <= LogAnalyzer.occurrences p)%nat /\
       LogAnalyzer.first_seen p <= LogAnalyzer.last_seen p /\
       LogAnalyzer.pattern_type p = "REPEATED_ERROR") /\
  (forall key, (2 <= count key)%nat ->
     exists p, In p out /\ LogAnalyzer.occurrences p = count key) /\
  (forall a d1 d2 b : string,
     d1 <> "" -> d2 <> "" ->
     all_chars PyStr.is_digit d1 = true -> all_chars PyStr.is_digit d2 = true ->
     LogAnalyzer.normalize_error_message (a +:+ d1 +:+ b)
     = LogAnalyzer.normalize_error_message (a +:+ d2 +:+ b)).
Proof.
  intros out count.
  destruct (group_errors_spec logs) as (Hnd & Hgroups & Hkeys).
  split_and!.
  - intros p Hp. unfold out, LogAnalyzer.detect_error_patterns in Hp.
    apply list_elem_of_In, list_elem_of_omap in Hp as ([key g] & Hg & Hp).
    apply list_elem_of_In in Hg. destruct (Hgroups key g Hg) as [_ Heq].
    exists key. unfold LogAnalyzer.pattern_of in Hp.
    destruct g as [|first_log rest]; [done|].
    destruct (2 <=? _)%nat eqn:Hlen; [|done]. apply Nat.leb_le in Hlen.
    injection Hp as <-.
    cbn [LogAnalyzer.occurrences LogAnalyzer.first_seen LogAnalyzer.last_seen
         LogAnalyzer.pattern_type].
    split_and!; [by unfold count; rewrite <- Heq|done|apply fold_min_le_max|done].
  - intros key Hcount. unfold count in Hcount.
    destruct (List.filter (LogAnalyzer.with_key key) logs) as [|log0 l0] eqn:Hf;
      [cbn in Hcount; lia|].
    assert (In log0 (List.filter (LogAnalyzer.with_key key) logs)) as Hlog0
      by (rewrite Hf; by left).
    apply filter_In in Hlog0 as [Hin Hwk]. unfold LogAnalyzer.with_key in Hwk.
    apply andb_true_iff in Hwk as [Herr Hk]. apply bool_decide_eq_true in Hk.
    pose proof (Hkeys log0 Hin Herr) as Hkey. rewrite Hk in Hkey.
    apply in_map_iff in Hkey as ([k g] & Hfst & Hg). cbn in Hfst. subst k.
    destruct (Hgroups key g Hg) as [_ Heq]. rewrite Hf in Heq. subst g.
    eexists. split.
    + unfold out, LogAnalyzer.detect_error_patterns.
      apply list_elem_of_In, list_elem_of_omap. exists (key, log0 :: l0).
      split; [by apply list_elem_of_In|].
      unfold LogAnalyzer.pattern_of.
      rewrite (proj2 (Nat.leb_le _ _) Hcount). reflexivity.
    + cbn [LogAnalyzer.occurrences]. subst count. cbv beta. rewrite Hf. reflexivity.
  - apply normalize_digits.
Qed.

(** ** The sample logs and messages *)

Example demo_logs_candidate :
  map (fun h => (Hypotheses.description h, Hypotheses.confidence h))
    (LogAnalyzer.extract_root_cause_candidates str_of_Z (fun _ => "") demo_logs "")
  = [("Database connection pool exhaustion or timeout", (85 # 100)%Q)].
Proof. vm_compute. reflexivity. Qed.

Example demo_logs_cascade :
  map (fun c => (LogAnalyzer.ci_message c, LogAnalyzer.ci_service c,
                 LogAnalyzer.cascade_from c))
    (LogAnalyzer.detect_error_cascade str_of_Z demo_logs)
  = [ ("Lock timeout on table vessel_advice", "Unknown", None);
      ("Request 15 failed", "api", Some 2%nat);
      ("Request 7 failed", "api", None) ].
Proof. vm_compute. reflexivity. Qed.

Example demo_logs_patterns :
  LogAnalyzer.detect_error_patterns demo_logs
  = [ LogAnalyzer.mk_pattern "REPEATED_ERROR" "Request 15 failed" 2
        (Ops.microseconds 12) (Ops.microseconds 30) ].
Proof. vm_compute. reflexivity. Qed.

Example demo_messages_analysis :
  (Edi.a_root_cause <$> Edi.analyze_edi_error str_of_Z demo_messages "REF-IFT-0007")
  = Some (Some "EDI message structure incomplete - required segment not found") /\
  (Edi.a_root_cause <$> Edi.analyze_edi_error str_of_Z demo_messages "REF-COD-0001")
  = Some None /\
  Edi.analyze_edi_error str_of_Z demo_messages "REF-XXX-0000" = None.
Proof. vm_compute. done. Qed.

(** C3: the final list of solution fusion.  Its solutions are candidates,
    with a new order number, and a list of candidates that is not empty
    gives a final list that is not empty.  Among candidates with ASCII
    descriptions, two whose descriptions differ only by letter case and
    by blanks around the text are represented by exactly one solution.
    The list is ordered with the solutions verified by feedback first
    and, within each group, by usefulness_count descending; and the order
    numbers are 1..N. *)
Theorem C3_fusion_dedup_and_order (sols : list Fusion.solution) :
  let out := Fusion.finalize sols in
  (forall s, In s out ->
     exists c, In c sols /\ s = Fusion.set_order (Fusion.order s) c)
  /\ (sols <> [] -> out <> [])
  /\ (Forall (fun c => ascii_text (Fusion.description c)) sols ->
      forall i j s1 s2,
        sols !! i = Some s1 -> sols !! j = Some s2 -> i <> j ->
        Fusion.same_text (Fusion.description s1) (Fusion.description s2) ->
        exists k s,
          out !! k = Some s /\
          Fusion.same_text (Fusion.description s) (Fusion.description s1) /\
          Fusion.same_text (Fusion.description s) (Fusion.description s2) /\
          forall k' s', out !! k' = Some s' ->
            Fusion.same_text (Fusion.description s') (Fusion.description s1) \/
            Fusion.same_text (Fusion.description s') (Fusion.description s2) ->
            k' = k)
  /\ StronglySorted verified_then_useful out
  /\ map Fusion.order out = map Z.of_nat (seq 1 (length out)).
Proof.
  intros out.
  assert (forall s, In s out ->
            exists c, In c (Fusion.unique_solutions ∅ sols) /\
                      s = Fusion.set_order (Fusion.order s) c) as Hfrom.
  { intros s Hs. unfold out, Fusion.finalize in Hs.
    apply in_map_iff in Hs as ([idx c] & <- & Hc).
    apply list_elem_of_In, enumerate_elem in Hc.
    exists c. split; [|done].
    apply list_elem_of_In. unfold PyList.sort_by in Hc.
    by rewrite sorted_perm in Hc. }
  split_and!.
  - intros s Hs. destruct (Hfrom s Hs) as (c & Hc & ->). exists c. split; [|done].
    apply list_elem_of_In. apply list_elem_of_In in Hc.
    eapply sublist_subseteq; [apply unique_solutions_sublist|done].
  - intros Hne Hout.
    pose proof (finalize_normalized sols) as Hperm. fold out in Hperm.
    rewrite Hout in Hperm. cbn in Hperm. apply Permutation_nil in Hperm.
    destruct sols as [|c rest]; [done|].
    cbn in Hperm. rewrite bool_decide_eq_false_2 in Hperm by set_solver. done.
  - intros _ i j s1 s2 H1 H2 Hij Hsame.
    apply same_text_normalized in Hsame. fold (Fusion.normalized s1) in Hsame.
    fold (Fusion.normalized s2) in Hsame.
    destruct (unique_solutions_keys ∅ sols) as [Hnd Hmem].
    pose proof (finalize_normalized sols) as Hperm. fold out in Hperm.
    assert (NoDup (map Fusion.normalized out)) as Hnd' by by rewrite Hperm.
    assert (Fusion.normalized s1 ∈ map Fusion.normalized out) as Hin.
    { rewrite Hperm. apply Hmem. split; [set_solver|].
      apply list_elem_of_fmap. exists s1. split; [done|].
      by eapply list_elem_of_lookup_2. }
    apply list_elem_of_lookup in Hin as [k Hk].
    rewrite list_lookup_fmap in Hk.
    destruct (out !! k) as [s|] eqn:Hs; [|done]. injection Hk as Hk.
    exists k, s. split; [done|].
    split; [by apply same_text_normalized|].
    split.
    { apply same_text_normalized. etrans; [exact Hk | exact Hsame]. }
    intros k' s' Hs' Hor.
    assert (Fusion.normalized s' = Fusion.normalized s1) as Heq.
    { destruct Hor as [Hor|Hor]; apply same_text_normalized in Hor;
        [exact Hor | etrans; [exact Hor | symmetry; exact Hsame]]. }
    eapply NoDup_lookup; [exact Hnd'| |].
    + rewrite list_lookup_fmap, Hs'. cbn. by rewrite Heq.
    + rewrite list_lookup_fmap, Hs. cbn. by rewrite Hk.
  - apply finalize_sorted.
  - unfold out, Fusion.finalize. rewrite enumerate_order.
    rewrite length_map.
    set (sorted := PyList.sort_by _ _ _ _).
    assert (length (Fusion.enumerate 1 sorted) = length sorted) as ->.
    { generalize 1. induction sorted as [|x l IH]; intros start; [done|].
      cbn. by rewrite IH. }
    rewrite <- seq_shift, map_map. apply map_ext. intros n. lia.
Qed.

Lemma C3_fusion_dedup_and_order_witness :
  exists k s,
    Fusion.finalize demo_candidates !! k = Some s /\
    Fusion.same_text (Fusion.description s) "Restart the gateway" /\
    Fusion.same_text (Fusion.description s) "  restart the GATEWAY ".
Proof.
  destruct (proj1 (proj2 (proj2 (C3_fusion_dedup_and_order demo_candidates)))
              ltac:(repeat constructor) 0%nat 1%nat _ _ eq_refl eq_refl ltac:(lia)
              ltac:(apply same_text_normalized; vm_compute; reflexivity))
    as (k & s & Hk & H1 & H2 & _).
  exists k, s. split_and!; [exact Hk|exact H1|exact H2].
Defined.

(** ** Container duplication and vessel advice, against the stored rows *)

Lemma filter_Permutation_list {A} (p : A -> bool) (l l' : list A) :
  Permutation l l' -> Permutation (List.filter p l) (List.filter p l').
Proof.
  induction 1 as [|x l l' _ IH|x y l|l l' l'' _ IH1 _ IH2]; cbn.
  - done.
  - destruct (p x); [by constructor|done].
  - destruct (p x), (p y); try done. apply perm_swap.
  - by etrans.
Qed.

Lemma differs_fields (first c : Ops.Container) :
  Ops.differs first c = true <->
  Ops.status c <> Ops.status first \/ Ops.vessel_id c <> Ops.vessel_id first \/
  Ops.origin_port c <> Ops.origin_port first \/
  Ops.destination_port c <> Ops.destination_port first.
Proof.
  unfold Ops.differs. rewrite !orb_true_iff, !negb_true_iff, !bool_decide_eq_false.
  tauto.
Qed.

Lemma time_span_Permutation (l l' : list Ops.Container) (earliest latest : Z) :
  Permutation l l' -> Ops.time_span l earliest latest -> Ops.time_span l' earliest latest.
Proof.
  intros Hp (He & Hl & Hb). split_and!.
  - apply list_elem_of_In. rewrite <- Hp. by apply list_elem_of_In.
  - apply list_elem_of_In. rewrite <- Hp. by apply list_elem_of_In.
  - intros c Hc. apply Hb. apply list_elem_of_In. rewrite Hp. by apply list_elem_of_In.
Qed.

(** C5: container duplication analysis for a container number of ASCII
    characters, read against the stored rows whose number is the
    requested one in upper case.  The count is their number.  With no such row or one, there are no duplicates.  With two
    or more, duplicates are reported and the rows are compared with a
    newest one: if a row differs from it in status, vessel, origin or
    destination, the issue is data_inconsistency; if no row does and the
    earliest and the latest created_at are less than 5 seconds apart, the
    issue is rapid_duplicate_insert and the root cause text carries that
    time difference. *)
Theorem C5_container_duplicates (isoformat format_seconds : Z -> string)
    (db : Ops.ops_db) (number : string) :
  ascii_text number ->
  let stored :=
    List.filter (fun c => bool_decide (Ops.cntr_no c = PyStr.upper number))
      (Ops.containers db) in
  let r := Ops.detect_container_duplicates isoformat format_seconds db number in
  Ops.count r = length stored /\
  ((length stored <= 1)%nat -> Ops.has_duplicates r = false) /\
  ((2 <= length stored)%nat ->
   Ops.has_duplicates r = true /\
   exists first rest,
     Permutation (first :: rest) stored /\
     Forall (fun c => Ops.created_at c <= Ops.created_at first) rest /\
     ((exists c, In c rest /\
         (Ops.status c <> Ops.status first \/
          Ops.vessel_id c <> Ops.vessel_id first \/
          Ops.origin_port c <> Ops.origin_port first \/
          Ops.destination_port c <> Ops.destination_port first)) ->
      Ops.issue_type r = Some "data_inconsistency") /\
     ((forall c, In c rest ->
         Ops.status c = Ops.status first /\
         Ops.vessel_id c = Ops.vessel_id first /\
         Ops.origin_port c = Ops.origin_port first /\
         Ops.destination_port c = Ops.destination_port first) ->
      forall earliest latest,
        Ops.time_span stored earliest latest ->
        latest - earliest < Ops.microseconds 5 ->
        Ops.issue_type r = Some "rapid_duplicate_insert" /\
        Ops.root_cause r =
          Some ("Multiple inserts within " +:+ format_seconds (latest - earliest) +:+
                "s - likely race condition or double-submit"))).
Proof.
  intros _ stored r.
  assert (StronglySorted (fun a b => Ops.created_at b <= Ops.created_at a)
            (Ops.get_container_by_number db number)) as Hsorted
    by apply sort_by_desc_sorted.
  assert (Permutation (Ops.get_container_by_number db number) stored) as Hperm
    by apply sorted_perm.
  subst r. unfold Ops.detect_container_duplicates.
  destruct (Ops.get_container_by_number db number) as [|first [|y l]] eqn:Hrows.
  - rewrite <- (Permutation_length Hperm). cbn. split_and!; [done|done|lia].
  - rewrite <- (Permutation_length Hperm). cbn. split_and!; [done|done|lia].
  - rewrite <- (Permutation_length Hperm).
    pose proof Hsorted as Hs. apply StronglySorted_inv in Hs as [_ Hx].
    destruct (existsb (Ops.differs first) (y :: l)) eqn:Hex.
    + cbn [Ops.count Ops.has_duplicates Ops.issue_type Ops.root_cause].
      split_and!; [done|cbn; lia|]. intros _. split; [done|].
      exists first, (y :: l). split_and!; [done|done|done|].
      intros Hall. apply existsb_exists in Hex as (c & Hc & Hd).
      apply differs_fields in Hd. destruct (Hall c Hc) as (? & ? & ? & ?). tauto.
    + assert (forall c, In c (y :: l) -> Ops.differs first c = false) as Hnone.
      { intros c Hc. destruct (Ops.differs first c) eqn:Hd; [|done].
        assert (existsb (Ops.differs first) (y :: l) = true) as Htrue
          by (apply existsb_exists; eauto).
        congruence. }
      destruct (Ops.created_at first
                - Ops.created_at (List.last (first :: y :: l) first)
                <? Ops.microseconds 5) eqn:Hlt;
        cbn [Ops.count Ops.has_duplicates Ops.issue_type Ops.root_cause];
        (split_and!; [done|cbn; lia|]); intros _; (split; [done|]);
        exists first, (y :: l); (split_and!; [done|done| |]).
      * intros (c & Hc & Hd). apply differs_fields in Hd. by rewrite (Hnone c Hc) in Hd.
      * intros _ earliest latest Hts Hclose.
        apply (time_span_Permutation stored (first :: y :: l)) in Hts; [|by symmetry].
        by rewrite (time_span_sorted_desc first (y :: l) earliest latest Hsorted Hts).
      * intros (c & Hc & Hd). apply differs_fields in Hd. by rewrite (Hnone c Hc) in Hd.
      * intros _ earliest latest Hts Hclose.
        apply (time_span_Permutation stored (first :: y :: l)) in Hts; [|by symmetry].
        rewrite (time_span_sorted_desc first (y :: l) earliest latest Hsorted Hts) in Hlt.
        apply Z.ltb_ge in Hlt. lia.
Qed.

Lemma C5_container_duplicates_witness :
  Ops.issue_type
    (Ops.detect_container_duplicates str_of_Z str_of_Z demo_ops_rapid "MSKU0000001")
  = Some "rapid_duplicate_insert" /\
  Ops.issue_type
    (Ops.detect_container_duplicates str_of_Z str_of_Z demo_ops_inconsistent "MSKU0000001")
  = Some "data_inconsistency".
Proof.
  split.
  - destruct (proj2 (proj2
      (C5_container_duplicates str_of_Z str_of_Z demo_ops_rapid "MSKU0000001"
         ltac:(reflexivity)))
      ltac:(vm_compute; lia)) as (_ & first & rest & Hperm & _ & _ & Hsame).
    vm_compute in Hperm. symmetry in Hperm.
    apply Permutation_length_2_inv in Hperm as [E|E]; injection E as -> ->.
    + refine (proj1 (Hsame _ (Ops.microseconds 100) (Ops.microseconds 102) _ _)).
      * intros c [<-|[]]. by vm_compute.
      * split_and!; [vm_compute; tauto|vm_compute; tauto|].
        intros c Hc. vm_compute in Hc. destruct Hc as [<-|[<-|[]]]; vm_compute;
          split; discriminate.
      * vm_compute. reflexivity.
    + refine (proj1 (Hsame _ (Ops.microseconds 100) (Ops.microseconds 102) _ _)).
      * intros c [<-|[]]. by vm_compute.
      * split_and!; [vm_compute; tauto|vm_compute; tauto|].
        intros c Hc. vm_compute in Hc. destruct Hc as [<-|[<-|[]]]; vm_compute;
          split; discriminate.
      * vm_compute. reflexivity.
  - destruct (proj2 (proj2
      (C5_container_duplicates str_of_Z str_of_Z demo_ops_inconsistent "MSKU0000001"
         ltac:(reflexivity)))
      ltac:(vm_compute; lia)) as (_ & first & rest & Hperm & _ & Hdiff & _).
    apply Hdiff.
    vm_compute in Hperm. symmetry in Hperm.
    apply Permutation_length_2_inv in Hperm as [E|E]; injection E as -> ->;
      (eexists; split; [by left|]; left; vm_compute; discriminate).
Defined.

(** C6: vessel advice conflict detection, read against the stored advice
    rows of the named vessel; a row is active when its
    effective_end_datetime is NULL.  With no row for the vessel, or with
    rows that all have an effective_end_datetime, no conflict is
    reported; with exactly one active row the answer is a conflict of
    type VESSEL_ERR_4 naming that row's advice number; with two active
    rows or more it is a conflict of type MULTIPLE_ACTIVE listing the
    advice numbers of all active rows. *)
Theorem C6_vessel_advice_conflict (isoformat : Z -> string) (db : Ops.ops_db)
    (name : string) :
  let stored :=
    List.filter (fun a => bool_decide (Ops.system_vessel_name a = name))
      (Ops.vessel_advices db) in
  let active :=
    List.filter (fun a => bool_decide (Ops.effective_end_datetime a = None)) stored in
  let r := Ops.detect_vessel_advice_conflict isoformat db name in
  (stored = [] \/ Forall (fun a => Ops.effective_end_datetime a <> None) stored ->
     Ops.has_conflict r = false /\ Ops.error_type r = None)
  /\
  (forall a, active = [a] ->
     Ops.has_conflict r = true /\ Ops.error_type r = Some "VESSEL_ERR_4" /\
     exists since cause solution berths,
       r = Ops.SingleActive (Ops.vessel_advice_no a) since cause solution berths)
  /\
  ((2 <= length active)%nat ->
     Ops.has_conflict r = true /\ Ops.error_type r = Some "MULTIPLE_ACTIVE" /\
     exists cause listed,
       r = Ops.MultipleActive (length active) cause listed /\
       Permutation (map fst listed) (map Ops.vessel_advice_no active)).
Proof.
  intros stored active r.
  assert (Permutation (Ops.get_vessel_advice_by_name db name) stored) as Hperm
    by apply sorted_perm.
  assert (Permutation (List.filter Ops.is_active (Ops.get_vessel_advice_by_name db name))
            active) as Hactive.
  { by apply filter_Permutation_list. }
  subst r. unfold Ops.detect_vessel_advice_conflict.
  destruct (Ops.get_vessel_advice_by_name db name) as [|x l] eqn:Hrows.
  - apply Permutation_nil in Hperm. cbn in Hactive. apply Permutation_nil in Hactive.
    rewrite Hactive. split_and!; [done|done|cbn; lia].
  - destruct (List.filter Ops.is_active (x :: l)) as [|a [|b rest]] eqn:Hf.
    + apply Permutation_nil in Hactive. rewrite Hactive.
      split_and!; [done|done|cbn; lia].
    + apply Permutation_length_1_inv in Hactive. rewrite Hactive. split_and!.
      * intros [Hnil|Hall].
        -- rewrite Hnil in Hperm. symmetry in Hperm. by apply Permutation_nil in Hperm.
        -- exfalso. assert (In a active) as Ha by (rewrite Hactive; by left).
           apply filter_In in Ha as [Ha Hend]. apply bool_decide_eq_true in Hend.
           rewrite Forall_forall in Hall. apply (Hall a); [by apply list_elem_of_In|done].
      * intros a' [= <-]. split_and!; [done|done|]. by do 4 eexists.
      * cbn. lia.
    + pose proof (Permutation_length Hactive) as Hlen. split_and!.
      * intros [Hnil|Hall].
        -- rewrite Hnil in Hperm. symmetry in Hperm. by apply Permutation_nil in Hperm.
        -- exfalso. assert (In a active) as Ha.
           { apply list_elem_of_In. rewrite <- Hactive. by left. }
           apply filter_In in Ha as [Ha Hend]. apply bool_decide_eq_true in Hend.
           rewrite Forall_forall in Hall. apply (Hall a); [by apply list_elem_of_In|done].
      * intros a' Ha'. rewrite Ha' in Hlen. discriminate Hlen.
      * intros _. split_and!; [done|done|]. do 2 eexists.
        split; [by rewrite Hlen|].
        rewrite map_map. cbn [fst]. by apply Permutation_map.
Qed.

Lemma C6_vessel_advice_conflict_witness :
  Ops.error_type (Ops.detect_vessel_advice_conflict str_of_Z demo_ops_advice "LIONCITY07")
  = Some "VESSEL_ERR_4" /\
  Ops.error_type (Ops.detect_vessel_advice_conflict str_of_Z demo_ops_two_active "LIONCITY07")
  = Some "MULTIPLE_ACTIVE".
Proof.
  split.
  - refine (proj1 (proj2 (proj1 (proj2
      (C6_vessel_advice_conflict str_of_Z demo_ops_advice "LIONCITY07"))
      (Ops.mk_advice 42 "MV Lion City 07" "LIONCITY07" 3000 None) _))).
    vm_compute. reflexivity.
  - refine (proj1 (proj2 (proj2 (proj2
      (C6_vessel_advice_conflict str_of_Z demo_ops_two_active "LIONCITY07")) _))).
    vm_compute. lia.
Defined.

(** ** The ledger routes *)

Lemma route_mark_cases (d : Ledger.db) (now : Z) (k : Ledger.identity)
    (incident : option string) (step_type : string) :
  (Route.bindable k && forallb Route.int64 (Route.written_counters d k) = true /\
   Route.mark_step_useful d now k incident step_type
   = Ledger.mark_step_useful d now k incident step_type /\
   exists n, snd (Route.mark_step_useful d now k incident step_type) = Ledger.MarkSuccess n)
  \/
  (Route.bindable k && forallb Route.int64 (Route.written_counters d k) = false /\
   Route.mark_step_useful d now k incident step_type = (d, Ledger.MarkError)).
Proof.
  unfold Route.mark_step_useful.
  destruct (Route.bindable k && _); [left|right; done].
  split_and!; [done|done|]. unfold Ledger.mark_step_useful.
  destruct (Ledger.first _ _); cbn; by eexists.
Qed.

Lemma route_mark_all_snoc (d : Ledger.db) (k : Ledger.identity)
    (requests : list (Z * option string * string)) (r : Z * option string * string) :
  Route.mark_all d k (requests ++ [r])
  = (fst (Route.mark_step_useful (fst (Route.mark_all d k requests))
            (fst (fst r)) k (snd (fst r)) (snd r)),
     snd (Route.mark_all d k requests)
     ++ [snd (Route.mark_step_useful (fst (Route.mark_all d k requests))
                (fst (fst r)) k (snd (fst r)) (snd r))]).
Proof. unfold Route.mark_all. by rewrite fold_left_app. Qed.

Lemma route_mark_all_success (d : Ledger.db) (k : Ledger.identity)
    (requests : list (Z * option string * string)) :
  List.filter (Ledger.same_identity k) (Ledger.solution_feedback d) = [] ->
  Forall (fun a => a <> Ledger.MarkError) (snd (Route.mark_all d k requests)) ->
  fst (Route.mark_all d k requests) = Ledger.mark_all d k requests /\
  snd (Route.mark_all d k requests)
  = map (fun i => Ledger.MarkSuccess (Z.of_nat i)) (seq 1 (length requests)).
Proof.
  intros Hnone. induction requests as [|r requests IH] using rev_ind; [done|].
  rewrite route_mark_all_snoc. cbn [fst snd]. intros Hall.
  apply Forall_app in Hall as [Hall Hlast].
  destruct (IH Hall) as [IHd IHa]. rewrite IHd in *. rewrite IHa. clear IH IHd IHa.
  apply Forall_cons in Hlast as [Hlast _].
  destruct (route_mark_cases (Ledger.mark_all d k requests) (fst (fst r)) k
              (snd (fst r)) (snd r)) as [(_ & Heq & _)|(_ & Heq)];
    [|by rewrite Heq in Hlast].
  rewrite Heq. split.
  - unfold Ledger.mark_all. by rewrite fold_left_app.
  - rewrite length_app, Nat.add_comm. cbn [length Nat.add].
    rewrite seq_S, map_app. cbn [map]. do 2 f_equal.
    destruct requests as [|r0 requests0] eqn:He.
    + cbn. by destruct (mark_fresh k d (fst (fst r)) (snd (fst r)) (snd r) Hnone)
        as (_ & _ & _ & ->).
    + rewrite <- He in *.
      destruct (mark_all_count k d requests Hnone) as (row & Hrow & Hc);
        [by rewrite He|].
      destruct (mark_again k (Ledger.mark_all d k requests) (fst (fst r)) (snd (fst r))
                  (snd r) row Hrow) as (_ & _ & _ & ->).
      rewrite Hc. f_equal. lia.
Qed.

Lemma unmark_last_deletes (d : Ledger.db) (k : Ledger.identity) (now : Z)
    (row : SolutionFeedback.t) :
  List.filter (Ledger.same_identity k) (Ledger.solution_feedback d) = [row] ->
  SolutionFeedback.usefulness_count row = 1 ->
  snd (Ledger.unmark_step_useful d now k) = Ledger.UnmarkSuccess /\
  List.filter (Ledger.same_identity k)
    (Ledger.solution_feedback (fst (Ledger.unmark_step_useful d now k))) = [] /\
  exists pre post,
    Ledger.solution_feedback d = pre ++ row :: post /\
    Ledger.solution_feedback (fst (Ledger.unmark_step_useful d now k)) = pre ++ post.
Proof.
  intros Hone Hc. unfold Ledger.unmark_step_useful.
  destruct (Ledger.first (Ledger.same_identity k) (Ledger.solution_feedback d))
    as [r|] eqn:Hf; [|apply first_None_filter in Hf; congruence].
  destruct (first_Some_split k _ _ Hf) as (pre & post & E & Hpre & Hr).
  rewrite E in Hone |- *. rewrite List.filter_app, Hpre in Hone. cbn in Hone.
  rewrite Hr in Hone. injection Hone as -> Hpost.
  rewrite Hc. cbn [Z.ltb Z.compare Pos.compare Pos.compare_cont fst snd
                   Ledger.solution_feedback].
  rewrite delete_first_split by done.
  split; [done|]. split; [by rewrite List.filter_app, Hpre, Hpost|].
  by exists pre, post.
Qed.

(** C4, as stated, fails for an identity with an integer that the
    database cannot store: a step order of 2^63 has no row, yet marking
    it creates none and unmarking it answers an error, not "not found". *)
Lemma C4_counterexample :
  List.filter (Ledger.same_identity demo_identity_overflow)
    (Ledger.solution_feedback demo_db) = [] /\
  Route.mark_step_useful demo_db 10 demo_identity_overflow None "Resolution"
  = (demo_db, Ledger.MarkError) /\
  Route.unmark_step_useful demo_db 40 demo_identity_overflow
  = (demo_db, Ledger.UnmarkError) /\
  Ledger.UnmarkError <> Ledger.UnmarkNotFound.
Proof. split_and!; [vm_compute; reflexivity..|discriminate]. Qed.

(** C4 (amended): on the feedback ledger, for an identity tuple whose
    integers the database can store, (1) marking the tuple N >= 1 times,
    starting without a row for it and with every request answered by a
    success, leaves exactly one row for the tuple, with usefulness_count
    N, and the i-th request answers i; a request is answered by an error,
    with the store as it was, exactly when an integer of the tuple or a
    counter that the request writes does not fit 64 bits; (2) unmarking
    a tuple whose row counts 1 deletes that row and nothing else;
    (3) unmarking a tuple without a row changes nothing and answers "not
    found"; (4) for a tuple with an integer outside 64 bits both routes
    answer an error and change nothing. *)
Theorem C4_feedback_ledger (d : Ledger.db) (k : Ledger.identity) :
  (forall requests,
      List.filter (Ledger.same_identity k) (Ledger.solution_feedback d) = [] ->
      requests <> [] ->
      Forall (fun a => a <> Ledger.MarkError) (snd (Route.mark_all d k requests)) ->
      snd (Route.mark_all d k requests)
      = map (fun i => Ledger.MarkSuccess (Z.of_nat i)) (seq 1 (length requests)) /\
      exists row,
        List.filter (Ledger.same_identity k)
          (Ledger.solution_feedback (fst (Route.mark_all d k requests))) = [row] /\
        SolutionFeedback.usefulness_count row = Z.of_nat (length requests))
  /\
  (forall now incident step_type,
      let fits :=
        Route.bindable k && forallb Route.int64 (Route.written_counters d k) in
      (fits = true ->
       exists n, snd (Route.mark_step_useful d now k incident step_type)
                 = Ledger.MarkSuccess n) /\
      (fits = false ->
       Route.mark_step_useful d now k incident step_type = (d, Ledger.MarkError)))
  /\
  (forall now row,
      Route.bindable k = true ->
      List.filter (Ledger.same_identity k) (Ledger.solution_feedback d) = [row] ->
      SolutionFeedback.usefulness_count row = 1 ->
      snd (Route.unmark_step_useful d now k) = Ledger.UnmarkSuccess /\
      List.filter (Ledger.same_identity k)
        (Ledger.solution_feedback (fst (Route.unmark_step_useful d now k))) = [] /\
      exists pre post,
        Ledger.solution_feedback d = pre ++ row :: post /\
        Ledger.solution_feedback (fst (Route.unmark_step_useful d now k)) = pre ++ post)
  /\
  (forall now,
      Route.bindable k = true ->
      List.filter (Ledger.same_identity k) (Ledger.solution_feedback d) = [] ->
      Route.unmark_step_useful d now k = (d, Ledger.UnmarkNotFound))
  /\
  (forall now,
      Route.bindable k = false ->
      Route.unmark_step_useful d now k = (d, Ledger.UnmarkError)).
Proof.
  split_and!.
  - intros requests Hnone Hne Hall.
    destruct (route_mark_all_success d k requests Hnone Hall) as [Hd Ha].
    split; [exact Ha|]. rewrite Hd. by apply mark_all_count.
  - intros now incident step_type fits. subst fits.
    destruct (route_mark_cases d now k incident step_type)
      as [(Hfits & _ & Hn)|(Hfits & Heq)]; rewrite Hfits; split; try done.
  - intros now row Hbind Hone Hc. unfold Route.unmark_step_useful. rewrite Hbind.
    by apply unmark_last_deletes.
  - intros now Hbind Hnone. unfold Route.unmark_step_useful, Ledger.unmark_step_useful.
    by rewrite Hbind, (proj2 (first_None_filter k _) Hnone).
  - intros now Hbind. unfold Route.unmark_step_useful. by rewrite Hbind.
Qed.

Lemma C4_feedback_ledger_witness :
  (exists row,
      List.filter (Ledger.same_identity demo_identity)
        (Ledger.solution_feedback (fst (Route.mark_all demo_db demo_identity demo_requests)))
      = [row] /\
      SolutionFeedback.usefulness_count row = 3) /\
  snd (Route.unmark_step_useful demo_db_marked 40 demo_identity) = Ledger.UnmarkSuccess /\
  Route.unmark_step_useful demo_db 40 demo_identity = (demo_db, Ledger.UnmarkNotFound).
Proof.
  pose proof (C4_feedback_ledger demo_db demo_identity)
    as (Hmark & _ & _ & Hmissing & _).
  pose proof (C4_feedback_ledger demo_db_marked demo_identity)
    as (_ & _ & Hdelete & _ & _).
  split_and!.
  - apply (Hmark demo_requests); [vm_compute; reflexivity | discriminate |].
    vm_compute. repeat constructor; discriminate.
  - eapply (Hdelete 40); [vm_compute; reflexivity | vm_compute; reflexivity | reflexivity].
  - apply Hmissing; vm_compute; reflexivity.
Defined.




(** ** The recommended solutions *)

Lemma final_solutions_elem (feedback : list SolutionFeedback.t)
    (top_training : list Fusion.scored_match) (s : Fusion.solution) :
  In s (Fusion.final_solutions feedback top_training) ->
  60 <= Fusion.relevance_score s <= 99 /\
  Fusion.description s <> "" /\
  (String.length (Fusion.description s) <= 503)%nat /\
  Fusion.type_ s = "Training Case".
Proof.
  unfold Fusion.final_solutions. intros Hs.
  apply finalize_elem in Hs as (idx & s0 & Hs0 & ->).
  apply recommended_solutions_elem in Hs0 as (idx0 & sm & _ & ->).
  cbn [Fusion.set_order Fusion.relevance_score Fusion.description Fusion.type_
       Fusion.solution_obj].
  set (text := Fusion.str_or _ _).
  assert (text <> "") as Htext.
  { apply str_or_nonempty, str_or_nonempty. discriminate. }
  split_and!; [lia|lia| | |done].
  - destruct (500 <? String.length text)%nat; [|done].
    intros H. destruct text; [done|]. discriminate.
  - destruct (Nat.ltb_spec 500 (String.length text)); [|lia].
    rewrite append_length. pose proof (take_length 500 text) as Hlen.
    change (String.length "...") with 3%nat. lia.
Qed.

Lemma final_solutions_length (feedback : list SolutionFeedback.t)
    (top_training : list Fusion.scored_match) :
  NoDup (map Fusion.normalized (Fusion.final_solutions feedback top_training)) /\
  (length (Fusion.final_solutions feedback top_training) <= length top_training)%nat /\
  (top_training <> [] -> Fusion.final_solutions feedback top_training <> []).
Proof.
  unfold Fusion.final_solutions.
  set (sols := Fusion.recommended_solutions_data _ _).
  assert (length sols = length top_training) as Hlen.
  { unfold sols, Fusion.recommended_solutions_data. rewrite length_map.
    generalize 1. induction top_training as [|x l IH]; intros start; [done|].
    cbn. by rewrite IH. }
  split_and!.
  - rewrite finalize_normalized. apply unique_solutions_keys.
  - rewrite <- Hlen.
    rewrite <- (length_map Fusion.normalized), (Permutation_length (finalize_normalized sols)).
    rewrite length_map. apply sublist_length, unique_solutions_sublist.
  - intros Hne Hnil.
    pose proof (finalize_normalized sols) as Hperm. rewrite Hnil in Hperm.
    cbn in Hperm. apply Permutation_nil in Hperm.
    destruct sols as [|c rest]; [by destruct top_training|].
    cbn in Hperm. rewrite bool_decide_eq_false_2 in Hperm by set_solver. done.
Qed.

(** X11: every solution of the list that the route saves and returns
    shows a relevance between 60 and 99 and a description that is not
    empty and, when it is ASCII text, has at most 503 characters (500
    and the ellipsis).  With a
    top training match its type is "Training Case"; without one the list
    is the pair of fallback solutions, of types "General Troubleshooting"
    and "Escalation Procedure". *)
Theorem X11_final_solution_bounds (feedback : list SolutionFeedback.t)
    (top_training : list Fusion.scored_match) (x : Recommended.t) :
  In x (Recommended.recommended_solutions feedback top_training) ->
  60 <= Recommended.relevance_score x <= 99 /\
  Recommended.description x <> "" /\
  (ascii_text (Recommended.description x) ->
   (String.length (Recommended.description x) <= 503)%nat) /\
  (top_training <> [] -> Recommended.type_ x = "Training Case") /\
  (top_training = [] ->
   map Recommended.type_ (Recommended.recommended_solutions feedback top_training)
   = ["General Troubleshooting"; "Escalation Procedure"]).
Proof.
  unfold Recommended.recommended_solutions.
  destruct (final_solutions_length feedback top_training) as (_ & Hlen & Hne).
  destruct (Fusion.final_solutions feedback top_training) as [|s0 l] eqn:Hfinal.
  - intros Hx.
    assert (top_training = []) as ->.
    { destruct top_training; [done|]. by destruct Hne. }
    destruct Hx as [<-|[<-|[]]]; cbn; split_and!; try lia; done.
  - intros Hx. apply in_map_iff in Hx as (s & <- & Hs).
    rewrite <- Hfinal in Hs.
    destruct (final_solutions_elem feedback top_training s Hs) as (Hr & Hd & Hl & Ht).
    cbn [Recommended.relevance_score Recommended.description Recommended.type_].
    split_and!; try done; try lia.
    intros ->. cbn in Hlen. lia.
Qed.

Lemma X11_final_solution_bounds_witness :
  Recommended.type_
    (List.hd (Recommended.general (Recommended.mk_fallback 0 "" "" "" "" "" 0 "" 0))
       (Recommended.recommended_solutions demo_feedback demo_top_training))
  = "Training Case".
Proof.
  refine (proj1 (proj2 (proj2 (proj2
    (X11_final_solution_bounds demo_feedback demo_top_training _ _)))) _).
  - vm_compute. left. reflexivity.
  - discriminate.
Defined.

(** X12: the list that the route saves and returns is never empty and
    holds no two solutions with one normalised description.  With top
    training matches it is not longer than their list; without one it
    is the two fallback solutions. *)
Theorem X12_final_solutions_distinct (feedback : list SolutionFeedback.t)
    (top_training : list Fusion.scored_match) :
  let out := Recommended.recommended_solutions feedback top_training in
  out <> [] /\
  NoDup (map Recommended.normalized out) /\
  (top_training <> [] -> (length out <= length top_training)%nat) /\
  (top_training = [] -> out = map Recommended.general Recommended.fallback_solutions) /\
  map Recommended.order out = map Z.of_nat (seq 1 (length out)).
Proof.
  intros out. subst out. unfold Recommended.recommended_solutions.
  destruct (final_solutions_length feedback top_training) as (Hnd & Hlen & Hne).
  assert (map Fusion.order (Fusion.final_solutions feedback top_training)
          = map Z.of_nat (seq 1 (length (Fusion.final_solutions feedback top_training))))
    as Horder.
  { unfold Fusion.final_solutions, Fusion.finalize. rewrite enumerate_order.
    rewrite length_map.
    set (sorted := PyList.sort_by _ _ _ _).
    assert (length (Fusion.enumerate 1 sorted) = length sorted) as ->.
    { generalize 1. induction sorted as [|x l IH]; intros start; [done|].
      cbn. by rewrite IH. }
    rewrite <- seq_shift, map_map. apply map_ext. intros n. lia. }
  destruct (Fusion.final_solutions feedback top_training) as [|s0 l] eqn:Hfinal.
  - split_and!; [done| |by intros Htop; destruct (Hne Htop)|done|done].
    apply (bool_decide_unpack _). vm_compute. exact I.
  - split_and!.
    + done.
    + by rewrite map_map.
    + intros _. by rewrite length_map.
    + intros ->. cbn in Hlen. lia.
    + rewrite map_map, length_map. exact Horder.
Qed.

(** ** IEEE doubles: order and numbers *)

Section DoubleOrder.
Import PrimFloat SpecFloat FloatOps FloatAxioms.

Lemma SFcompare_key x y :
  x <> S754_nan -> y <> S754_nan -> SFcompare x y = Some (Double.lex (Double.SFkey x) (Double.SFkey y)).
Proof.
  intros Hx Hy.
  destruct x as [[]|[]| |[] m e], y as [[]|[]| |[] m' e']; try done.
  unfold SFcompare, Double.SFkey, Double.lex. cbn [fst snd]. change (-1 ?= -1) with Eq. cbv iota.
  rewrite Z.compare_opp, (Z.compare_antisym e e').
  destruct (e ?= e'); cbn [CompOpp]; try done.
Qed.

Lemma lex_le a b : Double.lex a b <> Gt <-> Double.lexle a b.
Proof.
  destruct a as [[a1 a2] a3], b as [[b1 b2] b3]. unfold Double.lex, Double.lexle. cbn [fst snd].
  destruct (Z.compare_spec a1 b1), (Z.compare_spec a2 b2), (Z.compare_spec a3 b3);
    split; intros Hl; try lia; try done.
Qed.

Lemma lex_eq a b : Double.lex a b = Eq <-> a = b.
Proof.
  destruct a as [[a1 a2] a3], b as [[b1 b2] b3]. unfold Double.lex. cbn [fst snd].
  destruct (Z.compare_spec a1 b1), (Z.compare_spec a2 b2), (Z.compare_spec a3 b3);
    split; intros Hl; try done; try (injection Hl; lia); congruence.
Qed.

Lemma SFleb_key x y :
  SFleb x y = true <-> x <> S754_nan /\ y <> S754_nan /\ Double.lexle (Double.SFkey x) (Double.SFkey y).
Proof.
  split.
  - intros H. assert (x <> S754_nan /\ y <> S754_nan) as [Hx Hy].
    { split; intros E; rewrite E in H; [by destruct y|by destruct x]. }
    split_and!; try done. apply lex_le. unfold SFleb in H.
    rewrite (SFcompare_key x y Hx Hy) in H. by destruct (Double.lex (Double.SFkey x) (Double.SFkey y)).
  - intros (Hx & Hy & H). apply lex_le in H. unfold SFleb.
    rewrite (SFcompare_key x y Hx Hy). by destruct (Double.lex (Double.SFkey x) (Double.SFkey y)).
Qed.

Lemma SFeqb_key x y :
  SFeqb x y = true <-> x <> S754_nan /\ y <> S754_nan /\ Double.SFkey x = Double.SFkey y.
Proof.
  split.
  - intros H. assert (x <> S754_nan /\ y <> S754_nan) as [Hx Hy].
    { split; intros E; rewrite E in H; [by destruct y|by destruct x]. }
    split_and!; try done. apply lex_eq. unfold SFeqb in H.
    rewrite (SFcompare_key x y Hx Hy) in H. by destruct (Double.lex (Double.SFkey x) (Double.SFkey y)).
  - intros (Hx & Hy & H). apply lex_eq in H. unfold SFeqb.
    by rewrite (SFcompare_key x y Hx Hy), H.
Qed.

Lemma leb_total x y :
  Double.is_number x -> Double.is_number y -> (x <=? y)%float = true \/ (y <=? x)%float = true.
Proof.
  intros Hx Hy. rewrite !leb_spec, !SFleb_key.
  assert (Double.lexle (Double.SFkey (Prim2SF x)) (Double.SFkey (Prim2SF y))
          \/ Double.lexle (Double.SFkey (Prim2SF y)) (Double.SFkey (Prim2SF x))) as [H|H]; [|by left|by right].
  unfold Double.lexle. destruct (Double.SFkey (Prim2SF x)) as [[a1 a2] a3], (Double.SFkey (Prim2SF y)) as [[b1 b2] b3].
  cbn [fst snd]. lia.
Qed.

Lemma leb_trans x y z :
  (x <=? y)%float = true -> (y <=? z)%float = true -> (x <=? z)%float = true.
Proof.
  rewrite !leb_spec, !SFleb_key. intros (Hx & Hy & H1) (_ & Hz & H2). split_and!; try done.
  revert H1 H2. unfold Double.lexle.
  destruct (Double.SFkey (Prim2SF x)) as [[a1 a2] a3], (Double.SFkey (Prim2SF y)) as [[b1 b2] b3],
    (Double.SFkey (Prim2SF z)) as [[c1 c2] c3].
  cbn [fst snd]. lia.
Qed.

Lemma eqb_leb x y k :
  (x =? k)%float = true -> (y =? k)%float = true -> (y <=? x)%float = true.
Proof.
  rewrite !eqb_spec, leb_spec, !SFeqb_key, SFleb_key.
  intros (Hx & _ & H1) (Hy & _ & H2). split_and!; try done. rewrite H1, H2.
  unfold Double.lexle. lia.
Qed.

Lemma leb_number x y : (x <=? y)%float = true -> Double.is_number x /\ Double.is_number y.
Proof. rewrite leb_spec, SFleb_key. intros (Hx & Hy & _). done. Qed.


Lemma shr_1_nonneg mrs : 0 <= shr_m mrs -> 0 <= shr_m (shr_1 mrs).
Proof. destruct mrs as [m r s]. destruct m as [|[p|p|]|[p|p|]]; simpl; lia. Qed.

Lemma iter_shr_1_nonneg p :
  forall mrs, 0 <= shr_m mrs -> 0 <= shr_m (iter_pos shr_1 p mrs).
Proof.
  induction p as [p IH|p IH|]; intros mrs H; cbn [iter_pos].
  - apply IH, IH, shr_1_nonneg, H.
  - apply IH, IH, H.
  - apply shr_1_nonneg, H.
Qed.

Lemma shr_fexp_nonneg m e l : 0 <= m -> 0 <= shr_m (fst (shr_fexp prec emax m e l)).
Proof.
  intros H. unfold shr_fexp, shr.
  assert (0 <= shr_m (shr_record_of_loc m l)) as H0 by (by destruct l as [|[]]).
  destruct (fexp prec emax (Zdigits2 m + e) - e) as [|p|p]; cbn [fst]; try done.
  by apply iter_shr_1_nonneg.
Qed.

Lemma round_nearest_even_nonneg m l : 0 <= m -> 0 <= round_nearest_even m l.
Proof.
  intros H. destruct l as [|[]]; cbn [round_nearest_even]; try lia.
  destruct (Z.even m); lia.
Qed.

Lemma binary_round_aux_number s m e l :
  0 <= m -> binary_round_aux prec emax s m e l <> S754_nan.
Proof.
  intros H. unfold binary_round_aux.
  pose proof (shr_fexp_nonneg m e l H) as H1.
  destruct (shr_fexp prec emax m e l) as [mrs' e']. cbn [fst] in H1.
  pose proof (shr_fexp_nonneg _ e' loc_Exact
                (round_nearest_even_nonneg _ (loc_of_shr_record mrs') H1)) as H2.
  destruct (shr_fexp prec emax _ e' loc_Exact) as [mrs'' e'']. cbn [fst] in H2.
  destruct (shr_m mrs'') as [|p|p]; [done| |lia].
  by destruct (e'' <=? emax - prec).
Qed.

Lemma binary_normalize_number m e s : binary_normalize prec emax m e s <> S754_nan.
Proof.
  destruct m as [|p|p]; cbn [binary_normalize]; [done| |];
    unfold binary_round; destruct (shl_align _ _ _) as [mz ez];
    by apply binary_round_aux_number.
Qed.

Lemma SFmul_number x y :
  Double.SFreal x = true -> Double.SFreal y = true -> SFmul prec emax x y <> S754_nan.
Proof.
  destruct x as [sx|sx| |sx mx ex], y as [sy|sy| |sy my ey]; try done.
  intros _ _. cbn [SFmul]. by apply binary_round_aux_number.
Qed.

Lemma SFadd_number x y :
  Double.SFreal x = true -> y <> S754_nan -> SFadd prec emax x y <> S754_nan.
Proof.
  destruct x as [[]|sx| |sx mx ex], y as [[]|sy| |sy my ey]; try done.
  intros _ _. cbn [SFadd]. apply binary_normalize_number.
Qed.

Lemma is_finite_real x : is_finite x = true -> Double.SFreal (Prim2SF x) = true.
Proof.
  unfold is_finite. rewrite negb_true_iff, orb_false_iff. intros [Hn Hi].
  unfold Prim2SF. rewrite Hn, Hi. destruct (is_zero x); [done|].
  destruct (Z.frexp x) as [r ex]. destruct (shr_fexp _ _ _ _ _) as [sh e'].
  by destruct (shr_m sh).
Qed.

Lemma of_int_real n c : Double.of_int n = Some c -> Double.SFreal (Prim2SF c) = true.
Proof.
  unfold Double.of_int. cbv zeta.
  destruct (is_finite _) eqn:Hf; [|done]. intros [= <-]. by apply is_finite_real.
Qed.

Lemma min_one x : (1.0 <? Double.min x 1.0)%float = false.
Proof. unfold Double.min. by destruct (1.0 <? x)%float eqn:H. Qed.

Lemma above_threshold_real s :
  (0.1 <? s)%float = true -> (1.0 <? s)%float = false -> Double.SFreal (Prim2SF s) = true.
Proof.
  rewrite !ltb_spec.
  assert (Prim2SF 0.1 = S754_finite false 7205759403792794 (-56)) as -> by (by vm_compute).
  assert (Prim2SF 1.0 = S754_finite false 4503599627370496 (-52)) as -> by (by vm_compute).
  by destruct (Prim2SF s) as [[]|[]| |[] m e].
Qed.

Lemma combined_number s c :
  (0.1 <? s)%float = true -> (1.0 <? s)%float = false -> Double.SFreal (Prim2SF c) = true ->
  Double.is_number (s + c * 0.05)%float.
Proof.
  intros H1 H2 Hc. unfold Double.is_number. rewrite add_spec, mul_spec.
  apply SFadd_number; [by apply above_threshold_real|].
  apply SFmul_number; [done|]. by vm_compute.
Qed.

End DoubleOrder.

(** ** The stable sort on an order that is total on part of the elements *)

Section PySortOn.
Context {A : Type} (le : A -> A -> bool) (ok : A -> Prop).
Hypothesis le_total : forall x y, ok x -> ok y -> le x y = true \/ le y x = true.
Hypothesis le_trans : forall x y z, le x y = true -> le y z = true -> le x z = true.

Lemma insert_sorted_sorted_on x l :
  ok x -> Forall ok l ->
  StronglySorted (fun a b => le a b = true) l ->
  StronglySorted (fun a b => le a b = true) (PyList.insert_sorted le x l).
Proof.
  intros Hx Hok Hs. induction Hs as [|y l Hl IH Hy]; cbn [PyList.insert_sorted].
  - repeat constructor.
  - apply Forall_cons in Hok as [Hoy Hol]. destruct (le x y) eqn:Hxy.
    + constructor; [by constructor|].
      constructor; [done|].
      eapply Forall_impl; [exact Hy|]. intros z Hz. by eapply le_trans.
    + constructor; [by apply IH|].
      eapply Permutation_Forall; [symmetry; apply insert_sorted_perm|].
      constructor; [|done].
      destruct (le_total x y Hx Hoy) as [Hc|Hc]; [congruence|done].
Qed.

Lemma sorted_sorted_on l :
  Forall ok l -> StronglySorted (fun a b => le a b = true) (PyList.sorted le l).
Proof.
  induction l as [|x l IH]; intros Hok; [constructor|].
  apply Forall_cons in Hok as [Hx Hl].
  cbn [PyList.sorted foldr]. apply insert_sorted_sorted_on; [done| |by apply IH].
  eapply Permutation_Forall; [symmetry; apply (sorted_perm le)|done].
Qed.

End PySortOn.

(** ** Retrieval in doubles *)

Section DoubleRanking.
Import PrimFloat.
Context {A : Type} (base : A -> option float) (count : A -> Z).
Hypothesis base_le_1 : forall e r, base e = Some r -> (1.0 <? r)%float = false.

Lemma scored_candidates l :
  forall s, Double.scored base count l = Some s -> s = Double.candidates base count l.
Proof.
  induction l as [|e l IH]; intros s H.
  - by injection H as <-.
  - cbn [Double.scored Double.candidates omap list_omap] in *.
    destruct (base e) as [r|]; [|done]. cbn [mbind option_bind] in *.
    destruct (0.1 <? r)%float; [|by apply IH].
    destruct (Double.of_int (count e)) as [b|]; [|done]. cbn [mbind option_bind] in *.
    destruct (Double.scored base count l) as [tl|]; [|done]. cbn [mbind option_bind] in *.
    injection H as <-. f_equal. by apply IH.
Qed.

Lemma scored_elem l :
  forall s, Double.scored base count l = Some s ->
  Forall (fun p =>
            In (fst p) l /\
            exists relevance boost,
              base (fst p) = Some relevance /\ (0.1 <? relevance)%float = true /\
              Double.of_int (count (fst p)) = Some boost /\
              snd p = (relevance + boost * 0.05)%float) s.
Proof.
  induction l as [|e l IH]; intros s H.
  - injection H as <-. constructor.
  - cbn [Double.scored] in H.
    destruct (base e) as [r|] eqn:Hr; [|done]. cbn [mbind option_bind] in H.
    assert (forall s', Double.scored base count l = Some s' ->
              Forall (fun p =>
                In (fst p) (e :: l) /\
                exists relevance boost,
                  base (fst p) = Some relevance /\ (0.1 <? relevance)%float = true /\
                  Double.of_int (count (fst p)) = Some boost /\
                  snd p = (relevance + boost * 0.05)%float) s') as IH'.
    { intros s' Hs'. eapply Forall_impl; [exact (IH s' Hs')|].
      intros p (Hin & Hp). split; [by right|done]. }
    destruct (0.1 <? r)%float eqn:Ht; [|by apply IH'].
    destruct (Double.of_int (count e)) as [b|] eqn:Hb; [|done]. cbn [mbind option_bind] in H.
    destruct (Double.scored base count l) as [tl|]; [|done]. cbn [mbind option_bind] in H.
    injection H as <-. constructor; [|by apply IH'].
    split; [by left|]. by exists r, b.
Qed.

Lemma scored_numbers l s :
  Double.scored base count l = Some s -> Forall (fun p => Double.is_number (snd p)) s.
Proof.
  intros H. eapply Forall_impl; [exact (scored_elem l s H)|].
  intros p (_ & r & b & Hr & Ht & Hb & ->).
  apply combined_number; [done|by eapply base_le_1|by eapply of_int_real].
Qed.

Lemma sort_doubles_sorted l s :
  Double.scored base count l = Some s ->
  StronglySorted (fun p q : A * float => (snd q <=? snd p)%float = true)
    (PyList.sort_by leb snd true s).
Proof.
  intros H. unfold PyList.sort_by.
  apply (sorted_sorted_on (fun x y : A * float => (snd y <=? snd x)%float)
           (fun p => Double.is_number (snd p))).
  - intros x y Hx Hy. destruct (leb_total (snd x) (snd y) Hx Hy); [by right|by left].
  - intros x y z H1 H2. by eapply leb_trans.
  - by eapply scored_numbers.
Qed.

Lemma ranked_answer_doubles eligible limit :
  0 <= limit ->
  Double.ranked_answer eligible base count limit
    match Double.scored base count eligible with
    | Some s => PyList.slice_to limit (PyList.sort_by leb snd true s)
    | None => []
    end.
Proof.
  intros Hlimit. destruct (Double.scored base count eligible) as [s|] eqn:Hs.
  - pose proof (sort_doubles_sorted _ _ Hs) as Hsorted.
    unfold PyList.sort_by in *.
    set (le := fun x y : A * float => (snd y <=? snd x)%float) in *.
    destruct (slice_to_firstn limit (PyList.sorted le s)) as (k & -> & Hk).
    split_and!.
    + rewrite length_take. lia.
    + rewrite Forall_forall. intros p Hp.
      pose proof (scored_elem _ _ Hs) as Hel. rewrite Forall_forall in Hel. apply Hel.
      rewrite <- (sorted_perm le). by eapply subseteq_take.
    + by apply StronglySorted_firstn.
    + intros q. rewrite <- (scored_candidates _ _ Hs).
      rewrite <- (sorted_filter le (fun p => (snd p =? q)%float) s).
      * apply filter_firstn_prefix.
      * intros a b Ha Hb. unfold le. by eapply eqb_leb.
  - split_and!; [cbn; lia|constructor|constructor|].
    intros q. apply prefix_nil.
Qed.

Lemma top_of_doubles eligible limit s :
  0 <= limit ->
  Double.scored base count eligible = Some s ->
  let top := PyList.slice_to limit (PyList.sort_by leb snd true s) in
  exists rest,
    Permutation (top ++ rest) s /\
    (forall p r, In p top -> In r rest -> (snd r <=? snd p)%float = true) /\
    (Z.of_nat (length s) <= limit -> rest = []).
Proof.
  intros Hlimit Hs top. subst top. unfold PyList.slice_to.
  rewrite (proj2 (Z.leb_le _ _) Hlimit).
  pose proof (sort_doubles_sorted _ _ Hs) as Hsorted.
  set (sorted := PyList.sort_by leb snd true s) in *.
  exists (skipn (Z.to_nat limit) sorted).
  assert (Permutation sorted s) as Hperm by apply sorted_perm.
  split_and!.
  - by rewrite firstn_skipn.
  - intros p r Hp Hr.
    apply (StronglySorted_app_cross (fun a b : A * float => (snd b <=? snd a)%float = true)
             (firstn (Z.to_nat limit) sorted) (skipn (Z.to_nat limit) sorted));
      [|done|done].
    by rewrite firstn_skipn.
  - intros Hlen. apply skipn_all2. rewrite (Permutation_length Hperm). lia.
Qed.

End DoubleRanking.

Section DoubleRetrieval.
Import PrimFloat.

Lemma scored_examples_scored l query :
  Double.scored_examples l query
  = Double.scored (fun e => Some (Double.calculate_similarity e query))
      TrainingData.usefulness_count_int l.
Proof.
  induction l as [|e l IH]; [done|].
  cbn [Double.scored_examples Double.scored mbind option_bind]. by rewrite IH.
Qed.

Lemma scored_entries_scored l now query :
  Double.scored_entries l now query
  = Double.scored (fun e => Double.calculate_relevance e now query)
      KnowledgeBase.usefulness_count l.
Proof.
  induction l as [|e l IH]; [done|].
  cbn [Double.scored_entries Double.scored]. by rewrite IH.
Qed.

Lemma double_similarity_le_1 self query :
  (1.0 <? Double.calculate_similarity self query)%float = false.
Proof.
  unfold Double.calculate_similarity. cbv zeta.
  destruct (bool_decide _); [by vm_compute|apply min_one].
Qed.

Lemma double_relevance_le_1 self now query r :
  Double.calculate_relevance self now query = Some r -> (1.0 <? r)%float = false.
Proof.
  unfold Double.calculate_relevance. cbv zeta. intros H.
  apply bind_Some in H as (p & _ & H). apply bind_Some in H as (s & _ & H).
  injection H as <-. apply min_one.
Qed.

Lemma top_examples_scored db query limit :
  Double.top_examples db query limit
  = match Double.scored (fun e => Some (Double.calculate_similarity e query))
            TrainingData.usefulness_count_int (TrainingDataService.validated db) with
    | Some s => PyList.slice_to limit (PyList.sort_by leb snd true s)
    | None => []
    end.
Proof. unfold Double.top_examples. by rewrite scored_examples_scored. Qed.

Lemma top_entries_scored db now query limit :
  Double.top_entries db now query limit
  = match Double.scored (fun e => Double.calculate_relevance e now query)
            KnowledgeBase.usefulness_count (KnowledgeBaseService.active db) with
    | Some s => PyList.slice_to limit (PyList.sort_by leb snd true s)
    | None => []
    end.
Proof. unfold Double.top_entries. by rewrite scored_entries_scored. Qed.

Lemma length_slice_sorted {A} (le : A -> A -> bool) (limit : Z) (s : list A) :
  0 <= limit ->
  length (PyList.slice_to limit (PyList.sorted le s)) = (Z.to_nat limit `min` length s)%nat.
Proof.
  intros Hlimit. unfold PyList.slice_to. rewrite (proj2 (Z.leb_le _ _) Hlimit).
  by rewrite length_take, (Permutation_length (sorted_perm le s)).
Qed.

(** In doubles 1/5 + 2 * 0.05 exceeds 1/4 + 0.05, so the second case is
    ranked first; the two sums are the same rational. *)
Example find_relevant_examples_rounding :
  map TrainingData.id (Double.find_relevant_examples_async td_rounding "gateway timeout" 5)
  = [2; 1]
  /\ map snd (Double.top_examples td_rounding "gateway timeout" 5)
     = [0x1.3333333333334p-2%float; 0x1.3333333333333p-2%float].
Proof. split; by vm_compute. Qed.

(** In doubles 0.2 * (2 / 5) + 0.1 * (1 / 5) exceeds 0.1, so the entry
    passes the threshold. *)
Example find_relevant_knowledge_rounding :
  map KnowledgeBase.id
      (fst (Double.find_relevant_knowledge_async kb_rounding 0
              "vessel berth delay at terminal" 5))
  = [1].
Proof. by vm_compute. Qed.

Example find_relevant_examples_doubles :
  map TrainingData.id
      (Double.find_relevant_examples_async td_corpus "duplicate container" 5)
  = [1; 2].
Proof. by vm_compute. Qed.

Example find_relevant_knowledge_doubles :
  map KnowledgeBase.id
      (fst (Double.find_relevant_knowledge_async kb_corpus 0 "container" 5))
  = [1; 2].
Proof. by vm_compute. Qed.

(** C2: for every query, corpus and limit that is not negative (ASCII
    texts), both retrieval functions return the documents of a ranked
    answer: at most [limit] of them, each eligible (Active, validated)
    and with base relevance strictly above 0.1 before the usefulness
    boost, in descending order of combined_score = base +
    usefulness_count * 0.05 as doubles, documents of equal combined score
    in corpus order; when no score raises they are [limit] documents, or
    all that pass the threshold if those are fewer.  The knowledge
    service returns them with their usage statistics updated. *)
Theorem C2_retrieval_ranked (kb : list KnowledgeBase.t) (td : list TrainingData.t)
    (now : Z) (query : string) (limit : Z) :
  0 <= limit ->
  ascii_text query ->
  Forall Double.ascii_entry kb ->
  Forall Double.ascii_example td ->
  (fst (Double.find_relevant_knowledge_async kb now query limit)
   = map (fun p => KnowledgeBaseService.touch now (fst p))
         (Double.top_entries kb now query limit)
   /\ Double.ranked_answer (KnowledgeBaseService.active kb)
        (fun e => Double.calculate_relevance e now query)
        KnowledgeBase.usefulness_count
        limit (Double.top_entries kb now query limit)
   /\ forall scored,
        Double.scored_entries (KnowledgeBaseService.active kb) now query = Some scored ->
        length (fst (Double.find_relevant_knowledge_async kb now query limit))
        = (Z.to_nat limit `min` length scored)%nat)
  /\
  (Double.find_relevant_examples_async td query limit
   = map fst (Double.top_examples td query limit)
   /\ Double.ranked_answer (TrainingDataService.validated td)
        (fun e => Some (Double.calculate_similarity e query))
        TrainingData.usefulness_count_int
        limit (Double.top_examples td query limit)
   /\ forall scored,
        Double.scored_examples (TrainingDataService.validated td) query = Some scored ->
        length (Double.find_relevant_examples_async td query limit)
        = (Z.to_nat limit `min` length scored)%nat).
Proof.
  intros Hlimit _ _ _. split; (split; [reflexivity|]); split.
  - rewrite top_entries_scored. apply ranked_answer_doubles; [|done].
    intros e r. apply double_relevance_le_1.
  - intros scored Hs. unfold Double.find_relevant_knowledge_async. cbn [fst].
    unfold Double.top_entries. rewrite Hs, length_map. by apply length_slice_sorted.
  - rewrite top_examples_scored. apply ranked_answer_doubles; [|done].
    intros e r [= <-]. apply double_similarity_le_1.
  - intros scored Hs. unfold Double.find_relevant_examples_async, Double.top_examples.
    rewrite Hs, length_map. by apply length_slice_sorted.
Qed.

Lemma C2_retrieval_ranked_witness :
  map TrainingData.id (Double.find_relevant_examples_async td_rounding "gateway timeout" 1)
  = [2]
  /\ Z.of_nat (length (Double.top_examples td_rounding "gateway timeout" 1)) <= 1
  /\ Z.of_nat (length (Double.top_entries kb_corpus 0 "gateway timeout" 1)) <= 1.
Proof.
  assert (ascii_text "gateway timeout") as Hq by reflexivity.
  assert (Forall Double.ascii_entry kb_corpus) as Hkb by (repeat constructor).
  assert (Forall Double.ascii_example td_rounding) as Htd by (repeat constructor).
  pose proof (C2_retrieval_ranked kb_corpus td_rounding 0 "gateway timeout" 1
                ltac:(lia) Hq Hkb Htd) as [(_ & Hk & _) (_ & Ht & _)].
  split; [by vm_compute|]. split; [exact (proj1 Ht)|exact (proj1 Hk)].
Defined.

(** X10: retrieval returns the top of the ranking.  For a limit that is
    not negative (ASCII texts) and scores that all convert to doubles,
    every scored document left out has a combined score not above that
    of any returned document, and nothing is left out when the documents
    above the threshold number at most [limit]; when a score raises,
    nothing is returned. *)
Theorem X10_retrieval_returns_top (kb : list KnowledgeBase.t) (td : list TrainingData.t)
    (now : Z) (query : string) (limit : Z) :
  0 <= limit ->
  ascii_text query ->
  Forall Double.ascii_entry kb ->
  Forall Double.ascii_example td ->
  (match Double.scored_entries (KnowledgeBaseService.active kb) now query with
   | Some scored =>
       exists rest,
         Permutation (Double.top_entries kb now query limit ++ rest) scored /\
         (forall p r, In p (Double.top_entries kb now query limit) ->
                      In r rest -> (snd r <=? snd p)%float = true) /\
         (Z.of_nat (length scored) <= limit -> rest = [])
   | None => fst (Double.find_relevant_knowledge_async kb now query limit) = []
   end)
  /\
  (match Double.scored_examples (TrainingDataService.validated td) query with
   | Some scored =>
       exists rest,
         Permutation (Double.top_examples td query limit ++ rest) scored /\
         (forall p r, In p (Double.top_examples td query limit) ->
                      In r rest -> (snd r <=? snd p)%float = true) /\
         (Z.of_nat (length scored) <= limit -> rest = [])
   | None => Double.find_relevant_examples_async td query limit = []
   end).
Proof.
  intros Hlimit _ _ _. split.
  - unfold Double.find_relevant_knowledge_async, Double.top_entries.
    destruct (Double.scored_entries _ now query) as [scored|] eqn:Hs; [|done].
    rewrite scored_entries_scored in Hs.
    apply (top_of_doubles (fun e => Double.calculate_relevance e now query)
             KnowledgeBase.usefulness_count) with (eligible := KnowledgeBaseService.active kb);
      [|done|done].
    intros e r. apply double_relevance_le_1.
  - unfold Double.find_relevant_examples_async, Double.top_examples.
    destruct (Double.scored_examples _ query) as [scored|] eqn:Hs; [|done].
    rewrite scored_examples_scored in Hs.
    apply (top_of_doubles (fun e => Some (Double.calculate_similarity e query))
             TrainingData.usefulness_count_int)
      with (eligible := TrainingDataService.validated td); [|done|done].
    intros e r [= <-]. apply double_similarity_le_1.
Qed.

Lemma X10_retrieval_returns_top_witness :
  match Double.scored_examples (TrainingDataService.validated td_rounding)
          "gateway timeout" with
  | Some scored =>
      exists rest,
        Permutation (Double.top_examples td_rounding "gateway timeout" 1 ++ rest) scored /\
        (forall p r, In p (Double.top_examples td_rounding "gateway timeout" 1) ->
                     In r rest -> (snd r <=? snd p)%float = true) /\
        (Z.of_nat (length scored) <= 1 -> rest = [])
  | None => Double.find_relevant_examples_async td_rounding "gateway timeout" 1 = []
  end.
Proof.
  assert (ascii_text "gateway timeout") as Hq by reflexivity.
  assert (Forall Double.ascii_entry kb_corpus) as Hkb by (repeat constructor).
  assert (Forall Double.ascii_example td_rounding) as Htd by (repeat constructor).
  exact (proj2 (X10_retrieval_returns_top kb_corpus td_rounding 0 "gateway timeout" 1
                  ltac:(lia) Hq Hkb Htd)).
Defined.

(** X9: both scorers ignore the letter case of an ASCII query: a query in
    upper case or in lower case scores as the query itself. *)
Theorem X9_scorers_ignore_query_case (td : TrainingData.t) (kb : KnowledgeBase.t)
    (now : Z) (query : string) :
  ascii_text query ->
  Double.calculate_similarity td (PyStr.upper query)
  = Double.calculate_similarity td query /\
  Double.calculate_similarity td (PyStr.lower query)
  = Double.calculate_similarity td query /\
  Double.calculate_relevance kb now (PyStr.upper query)
  = Double.calculate_relevance kb now query /\
  Double.calculate_relevance kb now (PyStr.lower query)
  = Double.calculate_relevance kb now query.
Proof.
  intros _. unfold Double.calculate_similarity, Double.calculate_relevance.
  by rewrite lower_upper, lower_idem.
Qed.

Lemma X9_scorers_ignore_query_case_witness :
  Double.calculate_similarity td_demo "DUPLICATE CONTAINER"
  = Double.calculate_similarity td_demo "Duplicate Container".
Proof.
  exact (proj1 (X9_scorers_ignore_query_case td_demo kb_demo 0 "Duplicate Container"
                  ltac:(reflexivity))).
Defined.

End DoubleRetrieval.
